(** * Release notes and release assets of ecm-distro-tools: a shallow embedding

    The Go package [release] (release notes generation, version scraping and
    GitHub release-asset management) is rendered here as Rocq functions.

    - Go strings are byte sequences: they are modelled by [string], whose
      characters ([ascii]) are the bytes.
    - Runes are integers ([Z]); the conversions [[]rune(s)] and
      [string(runes)] are the UTF-8 decoder and encoder of the Go runtime.
    - A Go call can return normally or panic: [outcome].  A function that
      returns [(value, error)] returns a [result] inside an [outcome].
    - Everything that lives outside the package (the network, the GitHub API,
      the go.mod parser, the Unicode tables, package repository) is a field
      of [Env]. *)

From Stdlib Require Import ZArith Lia Ascii String.
From Stdlib Require DecimalString.
From stdpp Require Import base option list strings gmap.

Open Scope Z_scope.

(** ** Go strings *)

Module GoString.

Definition byte_val (c : ascii) : Z := Z.of_N (N_of_ascii c).
Definition byte_of (z : Z) : ascii := ascii_of_N (Z.to_N z).

(** [strings.HasPrefix(s, p)] *)
Fixpoint HasPrefix (s p : string) : bool :=
  match p, s with
  | EmptyString, _ => true
  | String _ _, EmptyString => false
  | String a p', String b s' => if Ascii.eqb a b then HasPrefix s' p' else false
  end.

(** [strings.Index(s, substr)]: the byte index of the first occurrence of
    [substr] in [s], or [-1]. *)
Fixpoint IndexFrom (i : Z) (s substr : string) : Z :=
  if HasPrefix s substr then i
  else match s with
       | EmptyString => -1
       | String _ s' => IndexFrom (i + 1) s' substr
       end.

Definition Index (s substr : string) : Z := IndexFrom 0 s substr.

(** [strings.Contains(s, substr)] is [Index(s, substr) >= 0]. *)
Definition Contains (s substr : string) : bool := 0 <=? Index s substr.

(** [s[:n]] on bytes *)
Fixpoint takeBytes (n : nat) (s : string) : string :=
  match n, s with
  | O, _ => EmptyString
  | S _, EmptyString => EmptyString
  | S n', String c s' => String c (takeBytes n' s')
  end.

Fixpoint rev_append (acc s : string) : string :=
  match acc with
  | EmptyString => s
  | String c acc' => rev_append acc' (String c s)
  end.

(** The piece being collected is kept reversed in [cur]. *)
Definition flush (cur : string) : string := rev_append cur EmptyString.

(** [strings.Split(s, sep)] for a non-empty separator: the loop of
    [genSplit] cuts at every occurrence of [sep], left to right, without
    overlap; [skip] counts the bytes of the separator still to be passed. *)
Fixpoint splitLoop (sep : string) (skip : nat) (cur : string) (s : string)
  : list string :=
  match s with
  | EmptyString => [flush cur]
  | String c s' =>
      match skip with
      | S k => splitLoop sep k cur s'
      | O =>
          if HasPrefix s sep
          then flush cur :: splitLoop sep (String.length sep - 1) EmptyString s'
          else splitLoop sep O (String c cur) s'
      end
  end.

(** [strings.Replace(s, old, new, -1)] for a non-empty [old]: every
    occurrence of [old], left to right and without overlap, becomes [new]. *)
Fixpoint replaceLoop (old new : string) (skip : nat) (s : string) : string :=
  match s with
  | EmptyString => EmptyString
  | String c s' =>
      match skip with
      | S k => replaceLoop old new k s'
      | O =>
          if HasPrefix s old
          then new +:+ replaceLoop old new (String.length old - 1) s'
          else String c (replaceLoop old new O s')
      end
  end.

Fixpoint concat (l : list string) : string :=
  match l with
  | [] => EmptyString
  | x :: rest => x +:+ concat rest
  end.

End GoString.

(** ** UTF-8: the conversions between strings and rune slices *)

Module Utf8.
Import GoString.

Abbreviation rune := Z (only parsing).

(** [utf8.RuneError], U+FFFD *)
Definition RuneError : rune := 0xFFFD.

Definition between (lo hi b : Z) : bool := (lo <=? b) && (b <=? hi).

(** Continuation byte [10xxxxxx] *)
Definition cont (b : Z) : bool := between 0x80 0xBF b.

(** The table [first]/[acceptRanges] of package utf8: for a leading byte,
    the length of the sequence and the range accepted for the second byte.
    [None] is an invalid leading byte. *)
Definition leading (b0 : Z) : option (nat * Z * Z) :=
  if between 0xC2 0xDF b0 then Some (2%nat, 0x80, 0xBF)
  else if b0 =? 0xE0 then Some (3%nat, 0xA0, 0xBF)
  else if between 0xE1 0xEC b0 then Some (3%nat, 0x80, 0xBF)
  else if b0 =? 0xED then Some (3%nat, 0x80, 0x9F)
  else if between 0xEE 0xEF b0 then Some (3%nat, 0x80, 0xBF)
  else if b0 =? 0xF0 then Some (4%nat, 0x90, 0xBF)
  else if between 0xF1 0xF3 b0 then Some (4%nat, 0x80, 0xBF)
  else if b0 =? 0xF4 then Some (4%nat, 0x80, 0x8F)
  else None.

(** [utf8.DecodeRuneInString] on a non-empty string whose first byte is
    [c0]: the rune and its width in bytes.  An invalid or truncated
    sequence decodes to [RuneError] of width 1. *)
Definition decodeRune (c0 : ascii) (rest : string) : rune * nat :=
  let b0 := byte_val c0 in
  if b0 <? 0x80 then (b0, 1%nat)
  else
    match leading b0 with
    | None => (RuneError, 1%nat)
    | Some (sz, lo, hi) =>
        match rest with
        | String c1 rest1 =>
            let b1 := byte_val c1 in
            if negb (between lo hi b1) then (RuneError, 1%nat)
            else if (sz =? 2)%nat
            then (Z.lor (Z.shiftl (Z.land b0 0x1F) 6) (Z.land b1 0x3F), 2%nat)
            else
              match rest1 with
              | String c2 rest2 =>
                  let b2 := byte_val c2 in
                  if negb (cont b2) then (RuneError, 1%nat)
                  else if (sz =? 3)%nat
                  then (Z.lor (Z.lor (Z.shiftl (Z.land b0 0x0F) 12)
                                     (Z.shiftl (Z.land b1 0x3F) 6))
                              (Z.land b2 0x3F), 3%nat)
                  else
                    match rest2 with
                    | String c3 _ =>
                        let b3 := byte_val c3 in
                        if negb (cont b3) then (RuneError, 1%nat)
                        else (Z.lor (Z.lor (Z.lor (Z.shiftl (Z.land b0 0x07) 18)
                                                  (Z.shiftl (Z.land b1 0x3F) 12))
                                           (Z.shiftl (Z.land b2 0x3F) 6))
                                    (Z.land b3 0x3F), 4%nat)
                    | EmptyString => (RuneError, 1%nat)
                    end
              | EmptyString => (RuneError, 1%nat)
              end
        | EmptyString => (RuneError, 1%nat)
        end
    end.

(** A decoded character: the rune and the bytes it was read from. *)
Definition token : Type := rune * string.

(** The decoding loop ([for _, r := range s]): decode at the current byte,
    then pass over the remaining [width - 1] bytes of the sequence. *)
Fixpoint tokensLoop (skip : nat) (s : string) : list token :=
  match s with
  | EmptyString => []
  | String c s' =>
      match skip with
      | S k => tokensLoop k s'
      | O =>
          let '(r, w) := decodeRune c s' in
          (r, takeBytes w s) :: tokensLoop (w - 1) s'
      end
  end.

Definition tokens (s : string) : list token := tokensLoop 0 s.

(** [[]rune(s)] *)
Definition runes (s : string) : list rune := (tokens s).*1.

Definition surrogate (r : rune) : bool := between 0xD800 0xDFFF r.

(** [utf8.AppendRune]: the encoding of one rune; a rune that is not a
    valid code point is encoded as [RuneError]. *)
Definition encodeRune (r : rune) : string :=
  let b (z : Z) := byte_of z in
  let str (l : list Z) := string_of_list_ascii (b <$> l) in
  if (r <? 0) || (0x10FFFF <? r) || surrogate r then str [0xEF; 0xBF; 0xBD]
  else if r <=? 0x7F then str [r]
  else if r <=? 0x7FF
  then str [Z.lor 0xC0 (Z.shiftr r 6); Z.lor 0x80 (Z.land r 0x3F)]
  else if r <=? 0xFFFF
  then str [Z.lor 0xE0 (Z.shiftr r 12);
            Z.lor 0x80 (Z.land (Z.shiftr r 6) 0x3F);
            Z.lor 0x80 (Z.land r 0x3F)]
  else str [Z.lor 0xF0 (Z.shiftr r 18);
            Z.lor 0x80 (Z.land (Z.shiftr r 12) 0x3F);
            Z.lor 0x80 (Z.land (Z.shiftr r 6) 0x3F);
            Z.lor 0x80 (Z.land r 0x3F)].

(** [string(runes)] *)
Definition string_of_runes (rs : list rune) : string :=
  GoString.concat (encodeRune <$> rs).

End Utf8.


(** ** Package strings: the functions that need the decoder *)

Module Strings.
Import GoString Utf8.

(** [explode]: the UTF-8 sequences of [s], one string each; an invalid
    byte becomes the encoding of [RuneError]. *)
Definition explode (s : string) : list string :=
  (fun t : token => if t.1 =? RuneError then encodeRune RuneError else t.2)
    <$> tokens s.

(** [strings.Split(s, sep)] *)
Definition Split (s sep : string) : list string :=
  if decide (sep = EmptyString) then explode s
  else splitLoop sep 0 EmptyString s.

(** [strings.Replace(s, old, new, -1)] and [strings.ReplaceAll]; with an
    empty [old], [new] is inserted before every UTF-8 sequence and at the
    end. *)
Definition ReplaceAll (s old new : string) : string :=
  if decide (old = new) then s
  else if decide (old = EmptyString)
  then new +:+ GoString.concat ((fun t : token => t.2 +:+ new) <$> tokens s)
  else replaceLoop old new 0 s.

End Strings.

Import GoString Utf8 Strings.

(** ** Panics, errors and results *)

Inductive panic : Type :=
| IndexOutOfRange (index length : Z)
| SliceBoundsOutOfRange (low high : Z)
| NilPointerDereference
| RegexpMustCompile (pattern : string).

Inductive outcome (A : Type) : Type :=
| Done (a : A)
| Panicked (p : panic).
Arguments Done {A} a.
Arguments Panicked {A} p.

#[global] Instance outcome_ret : MRet outcome := fun A a => Done a.
#[global] Instance outcome_bind : MBind outcome := fun A B f m =>
  match m with
  | Done a => f a
  | Panicked p => Panicked p
  end.

Inductive error : Type :=
| ErrorString (msg : string)          (* errors.New(msg) *)
| GithubErrorResponse (status : Z)    (* *github.ErrorResponse, Response.StatusCode *)
| OtherError (description : string)   (* an error of any other dynamic type *)
| TemplateNotFound (name : string)    (* ExecuteTemplate: no template of that name *)
| TemplateExecError (name : string) (cause : error). (* a template function failed *)

Inductive result (A : Type) : Type :=
| Ok (a : A)
| Err (e : error).
Arguments Ok {A} a.
Arguments Err {A} e.

(** [a[i]] on a slice of strings *)
Definition index_slice (a : list string) (i : nat) : outcome string :=
  match a !! i with
  | Some x => Done x
  | None => Panicked (IndexOutOfRange (Z.of_nat i) (Z.of_nat (length a)))
  end.

(** ** Package regexp

    Patterns are parsed from their text and matched by a backtracking search:
    the package documents its result as the leftmost match, and among those
    the one a backtracking search finds first.  The parser covers the
    operators that the patterns of package [release] use (literals, [.],
    escapes, bracket classes, groups, alternation, [*], [+], [?] and their
    lazy forms, [^] and [$]); a pattern outside this fragment is treated
    like an ill-formed one. *)

Module Regexp.
Import GoString Utf8.

Inductive regex : Type :=
| Empty
| Lit (r : rune)
| AnyCharNotNL
| CharClass (negated : bool) (ranges : list (rune * rune))
| BeginText
| EndText
| Cat (a b : regex)
| Alt (a b : regex)
| Star (greedy : bool) (a : regex)
| Plus (greedy : bool) (a : regex)
| Quest (greedy : bool) (a : regex)
| Capture (index : nat) (a : regex).

(** A compiled pattern: the expression and [NumSubexp]. *)
Record Regexp : Type := { expr : regex; numSubexp : nat }.

(** *** Parsing *)

Definition chr (c : ascii) : rune := byte_val c.
Definition isc (c : ascii) (r : rune) : bool := r =? chr c.

Definition digit_ranges : list (rune * rune) := [(chr "0", chr "9")].
Definition word_ranges : list (rune * rune) :=
  [(chr "0", chr "9"); (chr "A", chr "Z"); (chr "_", chr "_"); (chr "a", chr "z")].
Definition space_ranges : list (rune * rune) :=
  [(9, 10); (12, 13); (chr " ", chr " ")].

(** [\d \w \s] and their negations *)
Definition perlClass (e : rune) : option (bool * list (rune * rune)) :=
  if isc "d" e then Some (false, digit_ranges)
  else if isc "w" e then Some (false, word_ranges)
  else if isc "s" e then Some (false, space_ranges)
  else if isc "D" e then Some (true, digit_ranges)
  else if isc "W" e then Some (true, word_ranges)
  else if isc "S" e then Some (true, space_ranges)
  else None.

Definition isalnum (c : rune) : bool :=
  between (chr "0") (chr "9") c || between (chr "A") (chr "Z") c
  || between (chr "a") (chr "z") c.

(** A backslash followed by punctuation is that character; a few letters
    name control characters. *)
Definition escapeLit (e : rune) : option rune :=
  if isc "n" e then Some 10
  else if isc "t" e then Some 9
  else if isc "r" e then Some 13
  else if isc "f" e then Some 12
  else if isc "v" e then Some 11
  else if isc "a" e then Some 7
  else if (0 <=? e) && (e <? 0x80) && negb (isalnum e) then Some e
  else None.

(** One element of a bracket class: a single rune or a Perl class. *)
Definition classAtom (s : list rune)
  : option ((rune + list (rune * rune)) * list rune) :=
  match s with
  | [] => None
  | c :: s1 =>
      if isc "\" c then
        match s1 with
        | [] => None
        | e :: s2 =>
            match perlClass e with
            | Some (false, rs) => Some (inr rs, s2)
            | Some (true, _) => None
            | None =>
                match escapeLit e with
                | Some l => Some (inl l, s2)
                | None => None
                end
            end
        end
      else if isc "[" c && (match s1 with d :: _ => isc ":" d | [] => false end)
      then None
      else Some (inl c, s1)
  end.

Fixpoint classItems (fuel : nat) (s : list rune) (acc : list (rune * rune))
  : option (list (rune * rune) * list rune) :=
  match fuel with
  | O => None
  | S f =>
      match s with
      | [] => None
      | c :: s1 =>
          if isc "]" c && negb (bool_decide (acc = [])) then Some (reverse acc, s1)
          else
            match classAtom s with
            | None => None
            | Some (inr rs, s') => classItems f s' (reverse rs ++ acc)
            | Some (inl lo, s') =>
                match s' with
                | d :: ((h :: _) as s'') =>
                    if isc "-" d && negb (isc "]" h) then
                      match classAtom s'' with
                      | Some (inl hi, s3) =>
                          if lo <=? hi then classItems f s3 ((lo, hi) :: acc)
                          else None
                      | _ => None
                      end
                    else classItems f s' ((lo, lo) :: acc)
                | _ => classItems f s' ((lo, lo) :: acc)
                end
            end
      end
  end.

(** The text after an opening bracket. *)
Definition parseClass (s : list rune) : option (regex * list rune) :=
  let '(neg, s1) :=
    match s with
    | c :: s' => if isc "^" c then (true, s') else (false, s)
    | [] => (false, s)
    end in
  match classItems (S (length s1)) s1 [] with
  | Some (rs, s2) => Some (CharClass neg rs, s2)
  | None => None
  end.

(** A group name: [(?P<name>]. *)
Fixpoint skipName (first : bool) (s : list rune) : option (list rune) :=
  match s with
  | [] => None
  | c :: s' =>
      if isc ">" c then (if first then None else Some s')
      else if isalnum c || isc "_" c then skipName false s'
      else None
  end.

Definition mkCat (a b : regex) : regex :=
  match b with
  | Empty => a
  | _ => Cat a b
  end.

(** A repetition operator after an atom; a second one in a row is refused
    (the lazy mark [?] apart). *)
Definition parseRepeat (a : regex) (s : list rune) : option (regex * list rune) :=
  let op (c : rune) : option (bool -> regex -> regex) :=
    if isc "*" c then Some Star
    else if isc "+" c then Some Plus
    else if isc "?" c then Some Quest
    else None in
  let isop (s : list rune) : bool :=
    match s with
    | c :: _ => isc "*" c || isc "+" c || isc "?" c || isc "{" c
    | [] => false
    end in
  match s with
  | c :: s1 =>
      match op c with
      | Some mk =>
          let '(greedy, s2) :=
            match s1 with
            | q :: s' => if isc "?" q then (false, s') else (true, s1)
            | [] => (true, s1)
            end in
          if isop s2 then None else Some (mk greedy a, s2)
      | None => if isc "{" c then None else Some (a, s)
      end
  | [] => Some (a, s)
  end.

(** The recursive descent; [n] is the index of the next capturing group. *)
Fixpoint parseAlt (fuel : nat) (n : nat) (s : list rune)
  : option (regex * nat * list rune) :=
  match fuel with
  | O => None
  | S f =>
      match parseCat f n s with
      | Some (a, n1, s1) =>
          match s1 with
          | c :: s2 =>
              if isc "|" c then
                match parseAlt f n1 s2 with
                | Some (b, n2, s3) => Some (Alt a b, n2, s3)
                | None => None
                end
              else Some (a, n1, s1)
          | [] => Some (a, n1, s1)
          end
      | None => None
      end
  end
with parseCat (fuel : nat) (n : nat) (s : list rune)
  : option (regex * nat * list rune) :=
  match fuel with
  | O => None
  | S f =>
      match s with
      | [] => Some (Empty, n, s)
      | c :: _ =>
          if isc "|" c || isc ")" c then Some (Empty, n, s)
          else
            match parsePiece f n s with
            | Some (a, n1, s1) =>
                match parseCat f n1 s1 with
                | Some (b, n2, s2) => Some (mkCat a b, n2, s2)
                | None => None
                end
            | None => None
            end
      end
  end
with parsePiece (fuel : nat) (n : nat) (s : list rune)
  : option (regex * nat * list rune) :=
  match fuel with
  | O => None
  | S f =>
      let close (wrap : regex -> regex) (n' : nat) (body : list rune) :=
        match parseAlt f n' body with
        | Some (a, n1, c :: s1) =>
            if isc ")" c then
              match parseRepeat (wrap a) s1 with
              | Some (r, s2) => Some (r, n1, s2)
              | None => None
              end
            else None
        | _ => None
        end in
      let atom (a : regex) (s1 : list rune) :=
        match parseRepeat a s1 with
        | Some (r, s2) => Some (r, n, s2)
        | None => None
        end in
      match s with
      | [] => None
      | c :: s1 =>
          if isc "(" c then
            match s1 with
            | q :: s2 =>
                if isc "?" q then
                  match s2 with
                  | k :: s3 =>
                      if isc ":" k then close (fun a => a) n s3
                      else if isc "P" k then
                        match s3 with
                        | lt :: s4 =>
                            if isc "<" lt then
                              match skipName true s4 with
                              | Some s5 => close (Capture n) (S n) s5
                              | None => None
                              end
                            else None
                        | [] => None
                        end
                      else None
                  | [] => None
                  end
                else close (Capture n) (S n) s1
            | [] => None
            end
          else if isc "[" c then
            match parseClass s1 with
            | Some (a, s2) => atom a s2
            | None => None
            end
          else if isc "." c then atom AnyCharNotNL s1
          else if isc "^" c then atom BeginText s1
          else if isc "$" c then atom EndText s1
          else if isc "\" c then
            match s1 with
            | e :: s2 =>
                match perlClass e with
                | Some (neg, rs) => atom (CharClass neg rs) s2
                | None =>
                    match escapeLit e with
                    | Some l => atom (Lit l) s2
                    | None => None
                    end
                end
            | [] => None
            end
          else if isc "*" c || isc "+" c || isc "?" c || isc "{" c || isc ")" c
          then None
          else atom (Lit c) s1
      end
  end.

(** [regexp.Compile]; [None] is a compile error. *)
Definition Compile (pattern : string) : option Regexp :=
  let s := runes pattern in
  match parseAlt (4 * length s + 4) 1 s with
  | Some (a, n, []) => Some {| expr := a; numSubexp := n - 1 |}
  | _ => None
  end.

(** [regexp.MustCompile] panics on a compile error. *)
Definition MustCompile (pattern : string) : outcome Regexp :=
  match Compile pattern with
  | Some re => Done re
  | None => Panicked (RegexpMustCompile pattern)
  end.

(** *** Matching *)

(** The state of a match attempt: the number of characters before the
    current position, the characters still to read, and the groups
    captured so far (the latest capture of a group comes first). *)
Record mstate : Type :=
  { pos : nat; rest : list token; caps : list (nat * string) }.

Definition kont : Type := mstate -> option mstate.

Definition inRanges (rs : list (rune * rune)) (r : rune) : bool :=
  existsb (fun p : rune * rune => between p.1 p.2 r) rs.

(** Read one character accepted by [ok]. *)
Definition step (ok : rune -> bool) (k : kont) : kont := fun st =>
  match rest st with
  | (r, _) :: inp' =>
      if ok r then k {| pos := S (pos st); rest := inp'; caps := caps st |}
      else None
  | [] => None
  end.

Definition orElse (a b : option mstate) : option mstate :=
  match a with
  | Some _ => a
  | None => b
  end.

(** The bytes read between two states of one attempt. *)
Definition consumed (from to : mstate) : string :=
  GoString.concat ((take (pos to - pos from) (rest from)).*2).

(** [run a k st]: match [a] at [st], then continue with [k]; the first
    alternative that lets the continuation succeed is taken.  A repetition
    tries one more round first when it is greedy and the continuation first
    when it is lazy; a round that reads nothing is not repeated. *)
Fixpoint run (a : regex) (k : kont) {struct a} : kont :=
  match a with
  | Empty => k
  | Lit c => step (Z.eqb c) k
  | AnyCharNotNL => step (fun r => negb (r =? 10)) k
  | CharClass neg rs => step (fun r => xorb neg (inRanges rs r)) k
  | BeginText => fun st => if (pos st =? 0)%nat then k st else None
  | EndText => fun st => match rest st with [] => k st | _ => None end
  | Cat a1 a2 => run a1 (run a2 k)
  | Alt a1 a2 => fun st => orElse (run a1 k st) (run a2 k st)
  | Quest greedy a1 => fun st =>
      if greedy then orElse (run a1 k st) (k st)
      else orElse (k st) (run a1 k st)
  | Star greedy a1 => fun st =>
      (fix loop (n : nat) (st : mstate) {struct n} : option mstate :=
         match n with
         | O => k st
         | S n' =>
             let again :=
               run a1 (fun st' => if (pos st <? pos st')%nat
                                  then loop n' st' else None) st in
             if greedy then orElse again (k st) else orElse (k st) again
         end) (S (length (rest st))) st
  | Plus greedy a1 =>
      run a1 (fun st =>
        (fix loop (n : nat) (st : mstate) {struct n} : option mstate :=
           match n with
           | O => k st
           | S n' =>
               let again :=
                 run a1 (fun st' => if (pos st <? pos st')%nat
                                    then loop n' st' else None) st in
               if greedy then orElse again (k st) else orElse (k st) again
           end) (S (length (rest st))) st)
  | Capture i a1 => fun st =>
      run a1 (fun st' =>
                k {| pos := pos st'; rest := rest st';
                     caps := (i, consumed st st') :: caps st' |}) st
  end.

(** The leftmost match: the attempt is made at every position in turn. *)
Fixpoint search (a : regex) (p : nat) (inp : list token)
  : option (mstate * mstate) :=
  let st := {| pos := p; rest := inp; caps := [] |} in
  match run a Some st with
  | Some st' => Some (st, st')
  | None =>
      match inp with
      | [] => None
      | _ :: inp' => search a (S p) inp'
      end
  end.

Fixpoint group (cs : list (nat * string)) (i : nat) : string :=
  match cs with
  | [] => EmptyString
  | (j, text) :: cs' => if (j =? i)%nat then text else group cs' i
  end.

(** [re.FindStringSubmatch(s)]: the match and the text of each group (empty
    for a group that took no part); the empty list stands for [nil]. *)
Definition FindStringSubmatch (re : Regexp) (s : string) : list string :=
  match search (expr re) 0 (tokens s) with
  | Some (st, st') =>
      consumed st st' :: (group (caps st') <$> seq 1 (numSubexp re))
  | None => []
  end.

End Regexp.

(** ** What package release is given

    The libraries, the network and the sibling package [repository] are not
    part of the package: the functions below take them as an [Env]. *)

(** [module.Version], [modfile.Replace], [modfile.Require] and the two
    fields of [modfile.File] that the package reads. *)
Record module_Version : Type := { Path : string; Version : string }.
Record modfile_Replace : Type := { Old : module_Version; New : module_Version }.
Record modfile_Require : Type := { Mod : module_Version }.
Record modfile_File : Type :=
  { FileRequire : list modfile_Require; FileReplace : list modfile_Replace }.

(** [github.ReleaseAsset] (read through [GetID]) and
    [github.RepositoryRelease]. *)
Record ReleaseAsset : Type := { ID : Z }.
Record RepositoryRelease : Type := { Assets : list ReleaseAsset }.

(** Modelled from the spec: the entries returned by
    [repository.RetrieveChangeLogContents], whose declaration is in package
    [repository]; the spec gives a ChangelogEntry a title, a number, a url
    and a multi-line note, and the changelog template reads these four. *)
Record ChangeLog : Type :=
  { Title : string; Note : string; Number : Z; URL : string }.

(** What [http.Get] followed by [ioutil.ReadAll] can give: a failed request,
    or a status code with a body that may fail to be read. *)
Inductive HttpResult : Type :=
| GetFailed
| Response (StatusCode : Z) (Body : option string).

Record Env : Type :=
  { (* package unicode *)
    unicode_IsLetter : rune -> bool;
    unicode_ToUpper : rune -> rune;
    (* golang.org/x/mod *)
    semver_MajorMinor : string -> string;
    modfile_Parse : string -> option modfile_File;
    (* net/http *)
    http_Get : string -> HttpResult;
    (* client.Repositories of go-github: on an error the release is nil *)
    GetReleaseByTag : string -> string -> string -> result RepositoryRelease;
    DeleteReleaseAsset : string -> string -> Z -> option error;
    (* package repository *)
    OrgFromRepo : string -> result string;
    RetrieveChangeLogContents : string -> string -> string -> result (list ChangeLog) }.

Definition StatusOK : Z := 200.
Definition StatusNotFound : Z := 404.

(** ** Package bufio: [Scanner] with the default [ScanLines] *)

Module Bufio.
Import GoString.

Definition MaxScanTokenSize : Z := 64 * 1024.

(** [dropCR] on the reversed line *)
Definition dropCR (cur : string) : string :=
  match cur with
  | String "013" cur' => flush cur'
  | _ => flush cur
  end.

(** The lines that successive calls of [Scan] yield.  A line ends at a
    newline or at the end of the text (an empty rest yields nothing); a
    line that does not fit the buffer makes [Scan] return false. *)
Fixpoint scanLoop (cur : string) (n : Z) (s : string) : list string :=
  match s with
  | EmptyString => if n =? 0 then [] else [dropCR cur]
  | String c s' =>
      if Ascii.eqb c "010" then dropCR cur :: scanLoop EmptyString 0 s'
      else if MaxScanTokenSize <=? n + 1 then []
      else scanLoop (String c cur) (n + 1) s'
  end.

Definition Lines (text : string) : list string := scanLoop EmptyString 0 text.

End Bufio.

(** ** Package release *)

Section Release.
Import GoString Strings Regexp.

Variable env : Env.

Definition majMin (v : string) : result string :=
  let majMin := semver_MajorMinor env v in
  if decide (majMin = "") then Err (ErrorString "version is not valid")
  else Ok majMin.

Definition trimPeriods (v : string) : string := ReplaceAll v "." "".

(** The loop of [capitalize]: the index and the rune of the first letter. *)
Fixpoint firstLetter (i : nat) (runes : list rune) : option (nat * rune) :=
  match runes with
  | [] => None
  | r :: runes' =>
      if unicode_IsLetter env r then Some (i, r) else firstLetter (S i) runes'
  end.

(** capitalize returns a new string whose first letter is capitalized. *)
Definition capitalize (s : string) : string :=
  let runes := Utf8.runes s in
  match firstLetter 0 runes with
  | Some (i, r) => string_of_runes (<[i := unicode_ToUpper env r]> runes)
  | None => s
  end.

(** *** The scrapers *)

(** The request shared by [goModLibVersion] and [findInURL]: no body
    unless the request succeeds, the status is 200 and the body is read. *)
Definition fetch (url : string) : option string :=
  match http_Get env url with
  | GetFailed => None
  | Response status body => if status =? StatusOK then body else None
  end.

Definition repoName (repo : string) : string :=
  if decide (repo = "rke2") then "rancher/rke2" else "k3s-io/k3s".

Definition rawURL (repoName branchVersion file : string) : string :=
  "https://raw.githubusercontent.com/" +:+ repoName +:+ "/" +:+ branchVersion +:+ file.

Definition goModLibVersion (libraryName repo branchVersion : string) : string :=
  let goModURL := rawURL (repoName repo) branchVersion "/go.mod" in
  match fetch goModURL with
  | None => ""
  | Some b =>
      match modfile_Parse env b with
      | None => ""
      | Some modFile =>
          (* use replace section if found *)
          match List.find (fun replace => Contains (Path (Old replace)) libraryName)
                          (FileReplace modFile) with
          | Some replace => Version (New replace)
          | None =>
              (* if replace not found search in require *)
              match List.find (fun require => Contains (Path (Mod require)) libraryName)
                              (FileRequire modFile) with
              | Some require => Version (Mod require)
              | None => ""
              end
          end
      end
  end.

(** The scan of [findInURL] over the lines still to read, with the current
    value of [submatch]. *)
Fixpoint findLoop (regex str : string) (lines : list string) (submatch : list string)
  : outcome (list string) :=
  match lines with
  | [] => Done submatch
  | line :: lines' =>
      if Contains line str then
        if decide (regex = "") then findLoop regex str lines' (submatch ++ [line])
        else
          re ← MustCompile regex;
          let submatch := FindStringSubmatch re line in
          if (1 <? length submatch)%nat then Done submatch
          else findLoop regex str lines' submatch
      else findLoop regex str lines' submatch
  end.

(** findInURL will get and scan a url to find a slice submatch for all the
    words that matches a regex; if the regex is empty then it will return
    the lines in a file that matches the str.  The empty list is [nil]. *)
Definition findInURL (url regex str : string) : outcome (list string) :=
  match fetch url with
  | None => Done []
  | Some b => findLoop regex str (Bufio.Lines b) []
  end.

(** [if len(submatch) > 1 { return submatch[1] }; return ""] *)
Definition second (submatch : list string) : string :=
  match submatch with
  | _ :: x :: _ => x
  | _ => ""
  end.

Definition dquote : string := String "034" "".

Definition buildScriptRegex : string := "(?P<version>v[\d\.]+(-k3s.\w*)?)".

Definition buildScriptVersion (varName repo branchVersion : string) : outcome string :=
  let buildScriptURL := rawURL (repoName repo) branchVersion "/scripts/version.sh" in
  submatch ← findInURL buildScriptURL buildScriptRegex varName;
  Done (second submatch).

Definition dockerfileRegex : string :=
  "(?:FROM|RUN)\s(?:CHART_VERSION=\" +:+ dquote
    +:+ "|[\w-]+/[\w-]+:)(?P<version>.*?)([0-9][0-9])?(-build.*)?\" +:+ dquote +:+ "?\s".

Definition dockerfileVersion (chartName repo branchVersion : string) : outcome string :=
  if Contains repo "k3s" then Done ""
  else
    let dockerfileURL := rawURL "rancher/rke2" branchVersion "/Dockerfile" in
    submatch ← findInURL dockerfileURL dockerfileRegex chartName;
    Done (second submatch).

Definition imageTagRegex : string := ":(.*)(-build.*)?".

Definition imageListURL (repo branchVersion : string) : string :=
  if decide (repo = "rke2")
  then rawURL "rancher/rke2" branchVersion "/scripts/build-images"
  else rawURL "k3s-io/k3s" branchVersion "/scripts/airgap/image-list.txt".

Definition imageTagVersion (ImageName repo branchVersion : string) : outcome string :=
  submatch ← findInURL (imageListURL repo branchVersion) imageTagRegex ImageName;
  match submatch with
  | _ :: x :: _ =>
      if Contains x "-build" then
        let versionSplit := Split x "-" in
        index_slice versionSplit 0
      else Done x
  | _ => Done ""
  end.

Definition sqliteRegex : string := "\" +:+ dquote +:+ "(.*)\" +:+ dquote.

Definition sqliteVersionBinding (sqliteVersion : string) : outcome string :=
  let sqliteBindingURL :=
    "https://raw.githubusercontent.com/mattn/go-sqlite3/" +:+ sqliteVersion
      +:+ "/sqlite3-binding.h" in
  submatch ← findInURL sqliteBindingURL sqliteRegex "SQLITE_VERSION";
  Done (second submatch).

(** *** The templates

    The three templates are given by what they write.  An action
    [{{- ...}}] removes the white space that precedes it, so the rows of a
    table keep their line breaks in front. *)

Definition nl : string := String "010" "".

(** [strconv.Itoa]: how the template prints an integer field *)
Definition Itoa (n : Z) : string := DecimalString.NilZero.string_of_int (Z.to_int n).

(** The value given to [ExecuteTemplate]: one field for each key of the
    map literal of [GenReleaseNotes]. *)
Record RenderData : Type :=
  { milestone : string;
    prevMilestone : string;
    changeLogSince : string;
    content : list ChangeLog;
    k8sVersion : string;
    changeLogVersion : string;
    majorMinor : string;
    EtcdVersionRKE2 : string;
    EtcdVersionK3S : string;
    ContainerdVersionK3S : string;
    ContainerdVersionGoMod : string;
    ContainerdVersionRKE2 : string;
    RuncVersionGoMod : string;
    RuncVersionBuildScript : string;
    RuncVersionRKE2 : string;
    CNIPluginsVersion : string;
    MetricsServerVersion : string;
    TraefikVersion : string;
    CoreDNSVersion : string;
    IngressNginxVersion : string;
    HelmControllerVersion : string;
    FlannelVersionRKE2 : string;
    FlannelVersionK3S : string;
    CalicoVersion : string;
    CanalCalicoVersion : string;
    CiliumVersion : string;
    MultusVersion : string;
    KineVersion : string;
    SQLiteVersion : string;
    SQLiteVersionReplaced : string;
    LocalPathProvisionerVersion : string }.

(** One entry of the changelog: a bullet with the capitalized title and
    the link, then a sub-bullet for every non-empty line of the note. *)
Definition changelogEntry (c : ChangeLog) : string :=
  let lines := Split (Note c) nl in
  GoString.concat
    [nl; "* "; capitalize (Title c); " [(#"; Itoa (Number c); ")]("; URL c; ")";
     GoString.concat
       ((fun line => if decide (line = "") then ""
                     else GoString.concat [nl; "  * "; capitalize line])
          <$> lines)].

(** [{{define "changelog"}}] reads two fields of the data: the previous
    milestone and the entries. *)
Definition changesSince (prevMilestone : string) (content : list ChangeLog) : string :=
  GoString.concat
    ["## Changes since "; prevMilestone; ":"; nl;
     GoString.concat (changelogEntry <$> content)].

Definition changelog (d : RenderData) : string :=
  changesSince (prevMilestone d) (content d).

(** [{{define "k3s"}}] *)
Definition k3sReleaseNote (d : RenderData) : string :=
  GoString.concat
    [
     "<!-- "; milestone d; " -->"; nl;
     "This release updates Kubernetes to "; k8sVersion d; ", and fixes a number of issues."; nl;
     nl;
     "For more details on what's new, see the [Kubernetes release notes](https://github.com/kubernetes/kubernetes/blob/master/CHANGELOG/CHANGELOG-";
     majorMinor d; ".md#changelog-since-"; changeLogSince d; ")."; nl;
     nl;
     changelog d; nl;
     nl;
     "## Embedded Component Versions"; nl;
     "| Component | Version |"; nl;
     "|---|---|"; nl;
     "| Kubernetes | ["; k8sVersion d;
     "](https://github.com/kubernetes/kubernetes/blob/master/CHANGELOG/CHANGELOG-"; majorMinor d;
     ".md#"; changeLogVersion d; ") |"; nl;
     "| Kine | ["; KineVersion d; "](https://github.com/k3s-io/kine/releases/tag/";
     KineVersion d; ") |"; nl;
     "| SQLite | ["; SQLiteVersion d; "](https://sqlite.org/releaselog/";
     SQLiteVersionReplaced d; ".html) |"; nl;
     "| Etcd | ["; EtcdVersionK3S d; "](https://github.com/k3s-io/etcd/releases/tag/";
     EtcdVersionK3S d; ") |";
     (if decide (majorMinor d = "1.23") then
        GoString.concat [
        nl;
        "| Containerd | ["; ContainerdVersionGoMod d;
        "](https://github.com/k3s-io/containerd/releases/tag/"; ContainerdVersionGoMod d; ") |";
        nl;
        "| Runc | ["; RuncVersionBuildScript d;
        "](https://github.com/opencontainers/runc/releases/tag/"; RuncVersionBuildScript d;
        ") |" ]
      else
        GoString.concat [
        nl;
        "| Containerd | ["; ContainerdVersionK3S d;
        "](https://github.com/k3s-io/containerd/releases/tag/"; ContainerdVersionK3S d; ") |";
        nl;
        "| Runc | ["; RuncVersionGoMod d;
        "](https://github.com/opencontainers/runc/releases/tag/"; RuncVersionGoMod d; ") |" ]);
     nl;
     "| Flannel | ["; FlannelVersionK3S d;
     "](https://github.com/flannel-io/flannel/releases/tag/"; FlannelVersionK3S d; ") | "; nl;
     "| Metrics-server | ["; MetricsServerVersion d;
     "](https://github.com/kubernetes-sigs/metrics-server/releases/tag/"; MetricsServerVersion d;
     ") |"; nl;
     "| Traefik | [v"; TraefikVersion d; "](https://github.com/traefik/traefik/releases/tag/v";
     TraefikVersion d; ") |"; nl;
     "| CoreDNS | [v"; CoreDNSVersion d; "](https://github.com/coredns/coredns/releases/tag/v";
     CoreDNSVersion d; ") | "; nl;
     "| Helm-controller | ["; HelmControllerVersion d;
     "](https://github.com/k3s-io/helm-controller/releases/tag/"; HelmControllerVersion d; ") |";
     nl;
     "| Local-path-provisioner | ["; LocalPathProvisionerVersion d;
     "](https://github.com/rancher/local-path-provisioner/releases/tag/";
     LocalPathProvisionerVersion d; ") |"; nl;
     nl;
     "## Helpful Links"; nl;
     "As always, we welcome and appreciate feedback from our community of users. Please feel free to:";
     nl;
     "- [Open issues here](https://github.com/rancher/k3s/issues/new/choose)"; nl;
     "- [Join our Slack channel](https://slack.rancher.io/)"; nl;
     "- [Check out our documentation](https://rancher.com/docs/k3s/latest/en/) for guidance on how to get started or to dive deep into K3s.";
     nl;
     "- [Read how you can contribute here](https://github.com/rancher/k3s/blob/master/CONTRIBUTING.md)";
     nl ].

(** [{{define "rke2"}}]: the two calls of [majMin] can fail, and the
    first failure ends the execution with that error. *)
Definition rke2ReleaseNote (d : RenderData) : result string :=
  match majMin (CanalCalicoVersion d) with
  | Err e => Err (TemplateExecError "rke2" e)
  | Ok MM_CanalCalicoVersion =>
  match majMin (CalicoVersion d) with
  | Err e => Err (TemplateExecError "rke2" e)
  | Ok MM_CalicoVersion =>
  Ok (GoString.concat
    [
     "<!-- "; milestone d; " -->"; nl;
     nl;
     "This release ... <FILL ME OUT!>"; nl;
     nl;
     "**Important Note**"; nl;
     nl;
     "If your server (control-plane) nodes were not started with the `--token` CLI flag or config file key, a randomized token was generated during initial cluster startup. This key is used both for joining new nodes to the cluster, and for encrypting cluster bootstrap data within the datastore. Ensure that you retain a copy of this token, as is required when restoring from backup.";
     nl;
     nl;
     "You may retrieve the token value from any server already joined to the cluster:"; nl;
     "```bash"; nl;
     "cat /var/lib/rancher/rke2/server/token"; nl;
     "```"; nl;
     nl;
     changelog d; nl;
     nl;
     "## Packaged Component Versions"; nl;
     "| Component       | Version                                                                                           |";
     nl;
     "| --------------- | ------------------------------------------------------------------------------------------------- |";
     nl;
     "| Kubernetes      | ["; k8sVersion d;
     "](https://github.com/kubernetes/kubernetes/blob/master/CHANGELOG/CHANGELOG-"; majorMinor d;
     ".md#"; changeLogVersion d; ") |"; nl;
     "| Etcd            | ["; EtcdVersionRKE2 d;
     "](https://github.com/k3s-io/etcd/releases/tag/"; EtcdVersionRKE2 d;
     ")                       |";
     (if decide (majorMinor d = "1.23") then
        GoString.concat [
        nl;
        "| Containerd      | ["; ContainerdVersionGoMod d;
        "](https://github.com/k3s-io/containerd/releases/tag/"; ContainerdVersionGoMod d;
        ")                      |" ]
      else
        GoString.concat [
        nl;
        "| Containerd      | ["; ContainerdVersionRKE2 d;
        "](https://github.com/k3s-io/containerd/releases/tag/"; ContainerdVersionRKE2 d;
        ")                      |" ]);
     nl;
     "| Runc            | ["; RuncVersionRKE2 d;
     "](https://github.com/opencontainers/runc/releases/tag/"; RuncVersionRKE2 d;
     ")                              |"; nl;
     "| Metrics-server  | ["; MetricsServerVersion d;
     "](https://github.com/kubernetes-sigs/metrics-server/releases/tag/"; MetricsServerVersion d;
     ")                   |"; nl;
     "| CoreDNS         | ["; CoreDNSVersion d;
     "](https://github.com/coredns/coredns/releases/tag/"; CoreDNSVersion d;
     ")                                  |"; nl;
     "| Ingress-Nginx   | ["; IngressNginxVersion d;
     "](https://github.com/kubernetes/ingress-nginx/releases/tag/helm-chart-";
     IngressNginxVersion d; ")                                  |"; nl;
     "| Helm-controller | ["; HelmControllerVersion d;
     "](https://github.com/k3s-io/helm-controller/releases/tag/"; HelmControllerVersion d;
     ")                         |"; nl;
     nl;
     "### Available CNIs"; nl;
     "| Component       | Version                                                                                                                                                                             | FIPS Compliant |";
     nl;
     "| --------------- | ----------------------------------------------------------------------------------------------------------------------------------------------------------------------------------- | -------------- |";
     nl;
     "| Canal (Default) | [Flannel "; FlannelVersionRKE2 d;
     "](https://github.com/k3s-io/flannel/releases/tag/"; FlannelVersionRKE2 d; ")<br/>[Calico ";
     CanalCalicoVersion d; "](https://projectcalico.docs.tigera.io/archive/";
     MM_CanalCalicoVersion; "/release-notes/#"; trimPeriods (CanalCalicoVersion d);
     ") | Yes            |"; nl;
     "| Calico          | ["; CalicoVersion d; "](https://projectcalico.docs.tigera.io/archive/";
     MM_CalicoVersion; "/release-notes/#"; trimPeriods (CalicoVersion d);
     ")                                                                    | No             |";
     nl;
     "| Cilium          | ["; CiliumVersion d;
     "](https://github.com/cilium/cilium/releases/tag/"; CiliumVersion d;
     ")                                                                                                                      | No             |";
     nl;
     "| Multus          | ["; MultusVersion d;
     "](https://github.com/k8snetworkplumbingwg/multus-cni/releases/tag/"; MultusVersion d;
     ")                                                                                                    | No             |";
     nl;
     nl;
     "## Known Issues"; nl;
     nl;
     "- [#1447](https://github.com/rancher/rke2/issues/1447) - When restoring RKE2 from backup to a new node, you should ensure that all pods are stopped following the initial restore:";
     nl;
     nl;
     "```bash"; nl;
     "curl -sfL https://get.rke2.io | sudo INSTALL_RKE2_VERSION="; milestone d; nl;
     "rke2 server \"; nl;
     "  --cluster-reset \"; nl;
     "  --cluster-reset-restore-path=<PATH-TO-SNAPSHOT> --token <token used in the original cluster>";
     nl;
     "rke2-killall.sh"; nl;
     "systemctl enable rke2-server"; nl;
     "systemctl start rke2-server"; nl;
     "```"; nl;
     nl;
     "## Helpful Links"; nl;
     nl;
     "As always, we welcome and appreciate feedback from our community of users. Please feel free to:";
     nl;
     "- [Open issues here](https://github.com/rancher/rke2/issues/new)"; nl;
     "- [Join our Slack channel](https://slack.rancher.io/)"; nl;
     "- [Check out our documentation](https://docs.rke2.io) for guidance on how to get started.";
     nl ])
  end end.

(** [tmpl.ExecuteTemplate(buf, name, data)] on the template set that
    [GenReleaseNotes] builds: the three defined templates and the root
    template "release-notes", whose body is empty. *)
Definition ExecuteTemplate (name : string) (d : RenderData) : result string :=
  if decide (name = "k3s") then Ok (k3sReleaseNote d)
  else if decide (name = "rke2") then rke2ReleaseNote d
  else if decide (name = "changelog") then Ok (changelog d)
  else if decide (name = "release-notes") then Ok ""
  else Err (TemplateNotFound name).

(** *** GenReleaseNotes *)

(** account for processing against an rc *)
Definition milestoneNoRC (milestone : string) : outcome string :=
  let idx := Index milestone "-rc" in
  if idx =? -1 then Done milestone
  else
    let tmpMilestone := runes milestone in
    let n := Z.of_nat (length tmpMilestone) in
    (* tmpMilestone[0:idx] and tmpMilestone[idx+4:] *)
    if n <? idx + 4 then Panicked (SliceBoundsOutOfRange (idx + 4) n)
    else
      let tmpMilestone :=
        take (Z.to_nat idx) tmpMilestone ++ drop (Z.to_nat (idx + 4)) tmpMilestone in
      Done (string_of_runes tmpMilestone).

(** Lines 70 to 121 of [GenReleaseNotes]: the derived values and the map
    literal, evaluated in the order of the source. *)
Definition renderData (repo milestone prevMilestone : string) (content : list ChangeLog)
  : outcome RenderData :=
  milestoneNoRC ← milestoneNoRC milestone;
  k8sVersion ← index_slice (Split milestoneNoRC "+") 0;
  let markdownVersion := ReplaceAll k8sVersion "." "" in
  let tmp := Split (ReplaceAll k8sVersion "v" "") "." in
  tmp0 ← index_slice tmp 0;
  tmp1 ← index_slice tmp 1;
  let majorMinor := tmp0 +:+ "." +:+ tmp1 in
  prev0 ← index_slice (Split prevMilestone "+") 0;
  let changeLogSince := ReplaceAll prev0 "." "" in
  let sqliteVersionK3S := goModLibVersion "go-sqlite3" repo milestone in
  sqliteVersionBinding ← sqliteVersionBinding sqliteVersionK3S;
  vEtcdVersionRKE2 ← buildScriptVersion "ETCD_VERSION" repo milestone;
  let vEtcdVersionK3S := goModLibVersion "etcd/api/v3" repo milestone in
  vContainerdVersionK3S ← buildScriptVersion "VERSION_CONTAINERD" repo milestone;
  let vContainerdVersionGoMod := goModLibVersion "containerd/containerd" repo milestone in
  vContainerdVersionRKE2 ← dockerfileVersion "hardened-containerd" repo milestone;
  let vRuncVersionGoMod := goModLibVersion "runc" repo milestone in
  vRuncVersionBuildScript ← buildScriptVersion "VERSION_RUNC" repo milestone;
  vRuncVersionRKE2 ← dockerfileVersion "hardened-runc" repo milestone;
  vCNIPluginsVersion ← imageTagVersion "cni-plugins" repo milestone;
  vMetricsServerVersion ← imageTagVersion "metrics-server" repo milestone;
  vTraefikVersion ← imageTagVersion "traefik" repo milestone;
  vCoreDNSVersion ← imageTagVersion "coredns" repo milestone;
  vIngressNginxVersion ← dockerfileVersion "rke2-ingress-nginx" repo milestone;
  let vHelmControllerVersion := goModLibVersion "helm-controller" repo milestone in
  vFlannelVersionRKE2 ← imageTagVersion "flannel" repo milestone;
  let vFlannelVersionK3S := goModLibVersion "flannel" repo milestone in
  vCalicoVersion ← imageTagVersion "calico-node" repo milestone;
  vCanalCalicoVersion ← imageTagVersion "hardened-calico" repo milestone;
  vCiliumVersion ← imageTagVersion "cilium-cilium" repo milestone;
  vMultusVersion ← imageTagVersion "multus-cni" repo milestone;
  let vKineVersion := goModLibVersion "kine" repo milestone in
  vLocalPathProvisionerVersion ← imageTagVersion "local-path-provisioner" repo milestone;
  Done
    {| milestone := milestoneNoRC;
       prevMilestone := prevMilestone;
       changeLogSince := changeLogSince;
       content := content;
       k8sVersion := k8sVersion;
       changeLogVersion := markdownVersion;
       majorMinor := majorMinor;
       EtcdVersionRKE2 := vEtcdVersionRKE2;
       EtcdVersionK3S := vEtcdVersionK3S;
       ContainerdVersionK3S := vContainerdVersionK3S;
       ContainerdVersionGoMod := vContainerdVersionGoMod;
       ContainerdVersionRKE2 := vContainerdVersionRKE2;
       RuncVersionGoMod := vRuncVersionGoMod;
       RuncVersionBuildScript := vRuncVersionBuildScript;
       RuncVersionRKE2 := vRuncVersionRKE2;
       CNIPluginsVersion := vCNIPluginsVersion;
       MetricsServerVersion := vMetricsServerVersion;
       TraefikVersion := vTraefikVersion;
       CoreDNSVersion := vCoreDNSVersion;
       IngressNginxVersion := vIngressNginxVersion;
       HelmControllerVersion := vHelmControllerVersion;
       FlannelVersionRKE2 := vFlannelVersionRKE2;
       FlannelVersionK3S := vFlannelVersionK3S;
       CalicoVersion := vCalicoVersion;
       CanalCalicoVersion := vCanalCalicoVersion;
       CiliumVersion := vCiliumVersion;
       MultusVersion := vMultusVersion;
       KineVersion := vKineVersion;
       SQLiteVersion := sqliteVersionBinding;
       SQLiteVersionReplaced := ReplaceAll sqliteVersionBinding "." "_";
       LocalPathProvisionerVersion := vLocalPathProvisionerVersion |}.

(** GenReleaseNotes genereates release notes based on the given milestone,
    previous milestone, and repository.  The result is the content of the
    buffer, or the error. *)
Definition GenReleaseNotes (repo milestone prevMilestone : string)
  : outcome (result string) :=
  match RetrieveChangeLogContents env repo prevMilestone milestone with
  | Err err => Done (Err err)
  | Ok content =>
      d ← renderData repo milestone prevMilestone content;
      Done (ExecuteTemplate repo d)
  end.

End Release.

(** ** Release assets *)

Section Assets.

Variable env : Env.

(** The loop of [CheckUpstreamRelease] over the tags still to check. *)
Fixpoint checkLoop (org repo : string) (tags : list string) (releases : gmap string bool)
  : result (gmap string bool) :=
  match tags with
  | [] => Ok releases
  | tag :: tags' =>
      match GetReleaseByTag env org repo tag with
      | Err (GithubErrorResponse status) =>
          if decide (status ≠ StatusNotFound) then Err (GithubErrorResponse status)
          else checkLoop org repo tags' (<[tag := false]> releases)
      | Err err => Err err
      | Ok _ => checkLoop org repo tags' (<[tag := true]> releases)
      end
  end.

(** CheckUpstreamRelease takes the given org, repo, and tags and checks for
    the tags' existence. *)
Definition CheckUpstreamRelease (org repo : string) (tags : list string)
  : result (gmap string bool) :=
  checkLoop org repo tags ∅.

Definition rke2Assets : Z := 50.
Definition k3sAssets : Z := 18.
Definition rke2Packaging : Z := 23.

(** [len(release.Assets)] *)
Definition nAssets (release : RepositoryRelease) : Z := Z.of_nat (length (Assets release)).

(** The three tests that close one round of the loop of [VerifyAssets]. *)
Definition markVerified (repo tag : string) (release : RepositoryRelease)
  (releases : gmap string bool) : gmap string bool :=
  let releases :=
    if bool_decide (repo = "rke2") && (nAssets release =? rke2Assets)
    then <[tag := true]> releases else releases in
  let releases :=
    if bool_decide (repo = "k3s") && (nAssets release =? k3sAssets)
    then <[tag := true]> releases else releases in
  let releases :=
    if bool_decide (repo = "rke2-packing") && (nAssets release =? rke2Packaging)
    then <[tag := true]> releases else releases in
  releases.

Fixpoint verifyLoop (org repo : string) (tags : list string) (releases : gmap string bool)
  : result (gmap string bool) :=
  match tags with
  | [] => Ok releases
  | tag :: tags' =>
      if decide (tag = "") then verifyLoop org repo tags' releases
      else
        match GetReleaseByTag env org repo tag with
        | Err (GithubErrorResponse status) =>
            if decide (status ≠ StatusNotFound) then Err (GithubErrorResponse status)
            else verifyLoop org repo tags' (<[tag := false]> releases)
        | Err err => Err err
        | Ok release => verifyLoop org repo tags' (markVerified repo tag release releases)
        end
  end.

(** VerifyAssets checks the number of assets for the given release and
    indicates if the expected number has been met. *)
Definition VerifyAssets (repo : string) (tags : list string) : result (gmap string bool) :=
  if decide (length tags = 0%nat) then Err (ErrorString "no tags provided")
  else
    match OrgFromRepo env repo with
    | Err err => Err err
    | Ok org => verifyLoop org repo tags ∅
    end.

(** The lookup shared by [ListAssets] and [DeleteAssetsByRelease]: a
    "not found" response is let through, and [release] is then nil. *)
Definition releaseOrNil (org repo tag : string) : result (option RepositoryRelease) :=
  match GetReleaseByTag env org repo tag with
  | Err (GithubErrorResponse status) =>
      if decide (status ≠ StatusNotFound) then Err (GithubErrorResponse status)
      else Ok None
  | Err err => Err err
  | Ok release => Ok (Some release)
  end.

(** [release.Assets] on a pointer that may be nil *)
Definition assetsOf (release : option RepositoryRelease) : outcome (list ReleaseAsset) :=
  match release with
  | Some r => Done (Assets r)
  | None => Panicked NilPointerDereference
  end.

(** ListAssets gets all assets associated with the given release. *)
Definition ListAssets (repo tag : string) : outcome (result (list ReleaseAsset)) :=
  match OrgFromRepo env repo with
  | Err err => Done (Err err)
  | Ok org =>
      if decide (tag = "") then Done (Err (ErrorString "invalid tag provided"))
      else
        match releaseOrNil org repo tag with
        | Err err => Done (Err err)
        | Ok release =>
            assets ← assetsOf release;
            Done (Ok assets)
        end
  end.

(** The loop of [DeleteAssetsByRelease]: the ids deleted so far are
    collected in [deleted]; the first failure ends the loop. *)
Fixpoint deleteLoop (org repo : string) (assets : list ReleaseAsset) (deleted : list Z)
  : list Z * option error :=
  match assets with
  | [] => (deleted, None)
  | asset :: assets' =>
      match DeleteReleaseAsset env org repo (ID asset) with
      | Some err => (deleted, Some err)
      | None => deleteLoop org repo assets' (deleted ++ [ID asset])
      end
  end.

(** DeleteAssetsByRelease deletes all release assets for the given release
    tag.  The result is the list of the ids deleted and the error, if any. *)
Definition DeleteAssetsByRelease (repo tag : string) : outcome (list Z * option error) :=
  match OrgFromRepo env repo with
  | Err err => Done ([], Some err)
  | Ok org =>
      if decide (tag = "") then Done ([], Some (ErrorString "invalid tag provided"))
      else
        match releaseOrNil org repo tag with
        | Err err => Done ([], Some err)
        | Ok release =>
            assets ← assetsOf release;
            Done (deleteLoop org repo assets [])
        end
  end.

(** DeleteAssetByID deletes the release asset associated with the given ID. *)
Definition DeleteAssetByID (repo tag : string) (id : Z) : option error :=
  match OrgFromRepo env repo with
  | Err err => Some err
  | Ok org =>
      if decide (tag = "") then Some (ErrorString "invalid tag provided")
      else DeleteReleaseAsset env org repo id
  end.

End Assets.

(** ** Package rke2: the image-build-base release and the image-build update

    The functions of this package only call other packages: the calls they
    make are collected, in order, beside their result.  Logging is left
    out. *)

Module Rke2.

Definition goDevURL : string := "https://go.dev/dl/?mode=json".
Definition imageBuildBaseRepo : string := "image-build-base".
Definition updateImageBuildScriptFileName : string := "update_image_build_base.sh".

Record UpdateImageBuildArgs : Type :=
  { RepoName : string;
    RepoOwner : string;
    BranchName : string;
    DryRun : bool;
    CloneDir : string;
    NewTag : string }.

Definition imageBuildRepos : gmap string bool :=
  list_to_map
    [ ("image-build-dns-nodecache", true);
      ("image-build-k8s-metrics-server", true);
      ("image-build-sriov-cni", true);
      ("image-build-ib-sriov-cni", true);
      ("image-build-sriov-network-device-plugin", true);
      ("image-build-sriov-network-resources-injector", true);
      ("image-build-calico", true);
      ("image-build-cni-plugins", true);
      ("image-build-whereabouts", true);
      ("image-build-flannel", true);
      ("image-build-etcd", true);
      ("image-build-containerd", true);
      ("image-build-runc", true);
      ("image-build-multus", true);
      ("image-build-rke2-cloud-provider", true) ].

Record goVersionRecord : Type := { Version : string; Stable : bool }.

(** The fields that the package sets in a [github.RepositoryRelease] and in
    a [github.NewPullRequest]. *)
Record NewRelease : Type := { TagName : string; Name : string; Prerelease : bool }.
Record NewPullRequest : Type :=
  { Title : string; Base : string; Head : string; MaintainerCanModify : bool }.

(** [httpClient.Get]: an error, or a response with its status and body. *)
Inductive GetResult : Type :=
| GetError (err : error)
| GetResponse (StatusCode : Z) (Body : string).

(** What the package calls: the HTTP client and the JSON decoder, package
    docker, the GitHub client (the tag name of the latest release is a
    pointer that may be nil), package exec (the script text and file name
    are constants of the package). *)
Record World : Type :=
  { httpClient_Get : string -> GetResult;
    json_Decode : string -> result (list goVersionRecord);
    docker_CheckImageArchs : string -> string -> string -> list string -> option error;
    GetReleaseByTag : string -> string -> string -> result RepositoryRelease;
    CreateRelease : string -> string -> NewRelease -> option error;
    GetLatestRelease : string -> string -> result (option string);
    exec_RunTemplatedScript : string -> string -> UpdateImageBuildArgs -> result string;
    PullRequests_Create : string -> string -> NewPullRequest -> option error }.

Inductive Call : Type :=
| CallGet (url : string)
| CallCheckImageArchs (org repo tag : string) (archs : list string)
| CallGetReleaseByTag (org repo tag : string)
| CallCreateRelease (org repo : string) (release : NewRelease)
| CallGetLatestRelease (owner repo : string)
| CallRunTemplatedScript (dir file : string) (data : UpdateImageBuildArgs)
| CallCreatePullRequest (org repo : string) (pull : NewPullRequest).

Section Functions.

Variable w : World.

Definition goVersions (goDevURL : string) : result (list goVersionRecord) :=
  match httpClient_Get w goDevURL with
  | GetError err => Err err
  | GetResponse status body =>
      if decide (status ≠ StatusOK) then Err (ErrorString "failed to get stable go versions")
      else json_Decode w body
  end.

Definition archs : list string := ["amd64"; "arm64"; "s390x"].

(** The loop of [ImageBuildBaseRelease] over the versions still to treat;
    [calls] are the calls made so far. *)
Fixpoint releaseLoop (alpineVersion : string) (dryRun : bool)
  (versions : list goVersionRecord) (calls : list Call)
  : list Call * outcome (option error) :=
  match versions with
  | [] => (calls, Done None)
  | version :: versions' =>
      if negb (Stable version) then releaseLoop alpineVersion dryRun versions' calls
      else
        match index_slice (Split (Version version) "go") 1 with
        | Panicked p => (calls, Panicked p)
        | Done version =>
            let alpineTag := version +:+ "-alpine" +:+ alpineVersion in
            let calls := calls ++ [CallCheckImageArchs "library" "golang" alpineTag archs] in
            match docker_CheckImageArchs w "library" "golang" alpineTag archs with
            | Some err => (calls, Done (Some err))
            | None =>
                let imageBuildBaseTag := "v" +:+ version +:+ "b1" in
                let calls :=
                  calls ++ [CallGetReleaseByTag "rancher" imageBuildBaseRepo imageBuildBaseTag] in
                match GetReleaseByTag w "rancher" imageBuildBaseRepo imageBuildBaseTag with
                | Ok _ => releaseLoop alpineVersion dryRun versions' calls
                | Err _ =>
                    if dryRun then (calls, Done None)
                    else
                      let release :=
                        {| TagName := imageBuildBaseTag;
                           Name := imageBuildBaseTag;
                           Prerelease := false |} in
                      let calls :=
                        calls ++ [CallCreateRelease "rancher" imageBuildBaseRepo release] in
                      match CreateRelease w "rancher" imageBuildBaseRepo release with
                      | Some err => (calls, Done (Some err))
                      | None => releaseLoop alpineVersion dryRun versions' calls
                      end
                end
            end
        end
  end.

Definition ImageBuildBaseRelease (alpineVersion : string) (dryRun : bool)
  : list Call * outcome (option error) :=
  match goVersions goDevURL with
  | Err err => ([CallGet goDevURL], Done (Some err))
  | Ok versions => releaseLoop alpineVersion dryRun versions [CallGet goDevURL]
  end.

Definition latestTag (owner repo : string) : outcome (result string) :=
  match GetLatestRelease w owner repo with
  | Err err => Done (Err err)
  | Ok None => Panicked NilPointerDereference
  | Ok (Some tagName) => Done (Ok tagName)
  end.

Definition createPRFromRancher (title branchName forkOwner repo : string)
  : Call * option error :=
  let pull :=
    {| Title := title;
       Base := "master";
       Head := forkOwner +:+ ":" +:+ branchName;
       MaintainerCanModify := true |} in
  (CallCreatePullRequest "rancher" repo pull, PullRequests_Create w "rancher" repo pull).

Definition UpdateImageBuild (repo owner cloneDir : string) (dryRun createPR : bool)
  : list Call * outcome (option error) :=
  match imageBuildRepos !! repo with
  | None =>
      ([], Done (Some (ErrorString "invalid repo, please review the `imageBuildRepos` map")))
  | Some _ =>
      let calls := [CallGetLatestRelease owner repo] in
      match latestTag owner repo with
      | Panicked p => (calls, Panicked p)
      | Done (Err err) => (calls, Done (Some err))
      | Done (Ok newTag) =>
          let branchName := "update-to-" +:+ newTag in
          let data :=
            {| RepoName := repo;
               RepoOwner := owner;
               BranchName := branchName;
               DryRun := dryRun;
               CloneDir := cloneDir;
               NewTag := newTag |} in
          let calls :=
            calls ++ [CallRunTemplatedScript cloneDir updateImageBuildScriptFileName data] in
          match exec_RunTemplatedScript w cloneDir updateImageBuildScriptFileName data with
          | Err err => (calls, Done (Some err))
          | Ok output =>
              if createPR then
                let prName := "Update hardened build base to " +:+ newTag in
                if dryRun then (calls, Done None)
                else
                  let '(call, err) := createPRFromRancher prName branchName owner repo in
                  (calls ++ [call], Done err)
              else (calls, Done None)
          end
      end
  end.

End Functions.

End Rke2.

Import Regexp.

(** * The vocabulary of the statements *)

(** ** Strings *)

(** Whether the byte [c] occurs in [s]. *)
Fixpoint hasByte (c : ascii) (s : string) : bool :=
  match s with
  | EmptyString => false
  | String a s' => Ascii.eqb c a || hasByte c s'
  end.

Definition isASCII (s : string) : Prop :=
  Forall (fun c => byte_val c < 0x80) (list_ascii_of_string s).

Definition bytes (s : string) : list rune := byte_val <$> list_ascii_of_string s.

(** The pieces of a text between its newlines. *)
Definition rawLines (text : string) : list string := Split text nl.

(** ** Letters *)

Definition notLetter (env : Env) (r : rune) : Prop := unicode_IsLetter env r = false.

(** The letters and the upper-case mapping of package unicode on ASCII:
    [IsLetter] holds of [A-Z] and [a-z], and [ToUpper] moves [a-z] onto
    [A-Z] and leaves every other ASCII character in place. *)
Definition asciiLetter (r : rune) : bool := between 65 90 r || between 97 122 r.
Definition asciiUpper (r : rune) : rune := if between 97 122 r then r - 32 else r.

Definition unicodeOnASCII (env : Env) : Prop :=
  forall r, 0 <= r < 128 ->
    unicode_IsLetter env r = asciiLetter r /\ unicode_ToUpper env r = asciiUpper r.

(** ** The answers of the release platform *)

(** The three kinds of answer of the release platform for a tag. *)
Definition found (env : Env) (org repo tag : string) : Prop :=
  exists release, GetReleaseByTag env org repo tag = Ok release.
Definition notFound (env : Env) (org repo tag : string) : Prop :=
  GetReleaseByTag env org repo tag = Err (GithubErrorResponse StatusNotFound).
Definition failsWith (env : Env) (org repo tag : string) (err : error) : Prop :=
  GetReleaseByTag env org repo tag = Err err /\ err <> GithubErrorResponse StatusNotFound.

(** ** The k3s scenario *)

(** The release notes of the scenario: the k3s template filled with the
    values of milestone v1.25.3+k3s1, "v0.9.0" in the Kine row and the empty
    string in place of every other scraped version. *)
Definition scenarioNotes (env : Env) (content : list ChangeLog) : string :=
  GoString.concat
    [
     "<!-- v1.25.3+k3s1 -->"; nl;
     "This release updates Kubernetes to v1.25.3, and fixes a number of issues."; nl;
     nl;
     "For more details on what's new, see the [Kubernetes release notes](https://github.com/kubernetes/kubernetes/blob/master/CHANGELOG/CHANGELOG-1.25.md#changelog-since-v1252)."; nl;
     nl;
     changesSince env "v1.25.2+k3s1" content;
     nl;
     nl;
     "## Embedded Component Versions"; nl;
     "| Component | Version |"; nl;
     "|---|---|"; nl;
     "| Kubernetes | [v1.25.3](https://github.com/kubernetes/kubernetes/blob/master/CHANGELOG/CHANGELOG-1.25.md#v1253) |"; nl;
     "| Kine | [v0.9.0](https://github.com/k3s-io/kine/releases/tag/v0.9.0) |"; nl;
     "| SQLite | [](https://sqlite.org/releaselog/.html) |"; nl;
     "| Etcd | [](https://github.com/k3s-io/etcd/releases/tag/) |"; nl;
     "| Containerd | [](https://github.com/k3s-io/containerd/releases/tag/) |"; nl;
     "| Runc | [](https://github.com/opencontainers/runc/releases/tag/) |"; nl;
     "| Flannel | [](https://github.com/flannel-io/flannel/releases/tag/) | "; nl;
     "| Metrics-server | [](https://github.com/kubernetes-sigs/metrics-server/releases/tag/) |"; nl;
     "| Traefik | [v](https://github.com/traefik/traefik/releases/tag/v) |"; nl;
     "| CoreDNS | [v](https://github.com/coredns/coredns/releases/tag/v) | "; nl;
     "| Helm-controller | [](https://github.com/k3s-io/helm-controller/releases/tag/) |"; nl;
     "| Local-path-provisioner | [](https://github.com/rancher/local-path-provisioner/releases/tag/) |"; nl;
     nl;
     "## Helpful Links"; nl;
     "As always, we welcome and appreciate feedback from our community of users. Please feel free to:"; nl;
     "- [Open issues here](https://github.com/rancher/k3s/issues/new/choose)"; nl;
     "- [Join our Slack channel](https://slack.rancher.io/)"; nl;
     "- [Check out our documentation](https://rancher.com/docs/k3s/latest/en/) for guidance on how to get started or to dive deep into K3s."; nl;
     "- [Read how you can contribute here](https://github.com/rancher/k3s/blob/master/CONTRIBUTING.md)"; nl ].

(** Every scraper that [GenReleaseNotes] calls for k3s at milestone
    v1.25.3+k3s1 finds nothing, except the go.mod lookup of "kine". *)
Definition onlyKine (env : Env) : Prop :=
  goModLibVersion env "kine" "k3s" "v1.25.3+k3s1" = "v0.9.0" /\
  Forall (fun lib => goModLibVersion env lib "k3s" "v1.25.3+k3s1" = "")
    ["go-sqlite3"; "etcd/api/v3"; "containerd/containerd"; "runc"; "helm-controller";
     "flannel"] /\
  Forall (fun var => buildScriptVersion env var "k3s" "v1.25.3+k3s1" = Done "")
    ["ETCD_VERSION"; "VERSION_CONTAINERD"; "VERSION_RUNC"] /\
  Forall (fun chart => dockerfileVersion env chart "k3s" "v1.25.3+k3s1" = Done "")
    ["hardened-containerd"; "hardened-runc"; "rke2-ingress-nginx"] /\
  Forall (fun image => imageTagVersion env image "k3s" "v1.25.3+k3s1" = Done "")
    ["cni-plugins"; "metrics-server"; "traefik"; "coredns"; "flannel"; "calico-node";
     "hardened-calico"; "cilium-cilium"; "multus-cni"; "local-path-provisioner"] /\
  sqliteVersionBinding env "" = Done "".

(** ** Environments for the examples *)

(** An environment with nothing on the network; its Unicode functions are
    the ASCII ones (no letter beyond ASCII), its go.mod parser reads
    nothing. *)
Definition offline : Env :=
  {| unicode_IsLetter := asciiLetter;
     unicode_ToUpper := asciiUpper;
     semver_MajorMinor := fun _ => "";
     modfile_Parse := fun _ => None;
     http_Get := fun _ => GetFailed;
     GetReleaseByTag := fun _ _ _ => Err (GithubErrorResponse StatusNotFound);
     DeleteReleaseAsset := fun _ _ _ => None;
     OrgFromRepo := fun _ => Err (ErrorString "repo not found");
     RetrieveChangeLogContents := fun _ _ _ => Ok [] |}.

(** An environment that serves one text at every URL. *)
Definition serving (text : string) : Env :=
  {| unicode_IsLetter := asciiLetter;
     unicode_ToUpper := asciiUpper;
     semver_MajorMinor := fun _ => "";
     modfile_Parse := fun _ => None;
     http_Get := fun _ => Response StatusOK (Some text);
     GetReleaseByTag := fun _ _ _ => Err (GithubErrorResponse StatusNotFound);
     DeleteReleaseAsset := fun _ _ _ => None;
     OrgFromRepo := fun _ => Err (ErrorString "repo not found");
     RetrieveChangeLogContents := fun _ _ _ => Ok [] |}.

(** A go.mod of k3s reduced to the two directives on kine. *)
Definition kineGoMod : modfile_File :=
  {| FileRequire := [ {| Mod := {| Path := "github.com/k3s-io/kine"; Version := "v0.9.3" |} |} ];
     FileReplace :=
       [ {| Old := {| Path := "github.com/rancher/kine"; Version := "" |};
            New := {| Path := "github.com/k3s-io/kine"; Version := "v0.9.6" |} |} ] |}.

Definition kineEnv : Env :=
  {| unicode_IsLetter := asciiLetter;
     unicode_ToUpper := asciiUpper;
     semver_MajorMinor := fun _ => "";
     modfile_Parse := fun _ => Some kineGoMod;
     http_Get := fun _ => Response StatusOK (Some "module github.com/k3s-io/k3s");
     GetReleaseByTag := fun _ _ _ => Err (GithubErrorResponse StatusNotFound);
     DeleteReleaseAsset := fun _ _ _ => None;
     OrgFromRepo := fun _ => Err (ErrorString "repo not found");
     RetrieveChangeLogContents := fun _ _ _ => Ok [] |}.

(** A platform with two releases, one missing tag, and one tag for which
    the request is refused. *)
Definition platform : Env :=
  {| unicode_IsLetter := asciiLetter;
     unicode_ToUpper := asciiUpper;
     semver_MajorMinor := fun _ => "";
     modfile_Parse := fun _ => None;
     http_Get := fun _ => GetFailed;
     GetReleaseByTag := fun _ _ tag =>
       if decide (tag = "v1.25.3+rke2r1")
       then Ok {| Assets := (fun n => {| ID := Z.of_nat n |}) <$> seq 0 50 |}
       else if decide (tag = "v1.25.2+rke2r1")
       then Ok {| Assets := (fun n => {| ID := Z.of_nat n |}) <$> seq 0 49 |}
       else if decide (tag = "v0.0.0")
       then Err (GithubErrorResponse 403)
       else Err (GithubErrorResponse StatusNotFound);
     DeleteReleaseAsset := fun _ _ _ => None;
     OrgFromRepo := fun repo =>
       if decide (repo = "rke2") then Ok "rancher" else Err (ErrorString "repo not found");
     RetrieveChangeLogContents := fun _ _ _ => Ok [] |}.

(** A network on which k3s at v1.25.3+k3s1 has a go.mod that requires kine
    v0.9.0 and nothing else can be fetched; [changes] is what the changelog
    retrieval gives. *)
Definition kineGoModText : string :=
  "module github.com/k3s-io/k3s" +:+ nl +:+ "require github.com/k3s-io/kine v0.9.0" +:+ nl.

Definition kineWorld (changes : result (list ChangeLog)) : Env :=
  {| unicode_IsLetter := asciiLetter;
     unicode_ToUpper := asciiUpper;
     semver_MajorMinor := fun _ => "";
     modfile_Parse := fun text =>
       if decide (text = kineGoModText)
       then Some {| FileRequire :=
                      [ {| Mod := {| Path := "github.com/k3s-io/kine";
                                     Version := "v0.9.0" |} |} ];
                    FileReplace := [] |}
       else None;
     http_Get := fun url =>
       if decide (url = "https://raw.githubusercontent.com/k3s-io/k3s/v1.25.3+k3s1/go.mod")
       then Response StatusOK (Some kineGoModText)
       else Response StatusNotFound (Some "404: Not Found");
     GetReleaseByTag := fun _ _ _ => Err (GithubErrorResponse StatusNotFound);
     DeleteReleaseAsset := fun _ _ _ => None;
     OrgFromRepo := fun _ => Ok "k3s-io";
     RetrieveChangeLogContents := fun _ _ _ => changes |}.

Definition fixEntry : ChangeLog :=
  {| Title := "fix etcd snapshot retention";
     Note := "snapshots are pruned per node" +:+ nl +:+ nl +:+ "see the docs";
     Number := 6319;
     URL := "https://github.com/k3s-io/k3s/pull/6319" |}.

Ltac split_Forall :=
  repeat match goal with
         | H : Forall _ (_ :: _) |- _ => apply Forall_cons in H as [? H]
         | H : Forall _ [] |- _ => clear H
         end.

(** ** Bytes, digits and joined lines *)

(** [s] without its bytes equal to [c]. *)
Fixpoint removeByte (c : ascii) (s : string) : string :=
  match s with
  | EmptyString => EmptyString
  | String a s' => if Ascii.eqb c a then removeByte c s' else String a (removeByte c s')
  end.

Definition isDigit (c : ascii) : bool := between 48 57 (byte_val c).

(** A non-empty run of decimal digits. *)
Definition isNumber (s : string) : Prop :=
  s <> "" /\ forallb isDigit (list_ascii_of_string s) = true.

(** [strings.Join(elems, sep)] *)
Fixpoint Join (elems : list string) (sep : string) : string :=
  match elems with
  | [] => EmptyString
  | [x] => x
  | x :: rest => x +:+ sep +:+ Join rest sep
  end.

(** The sub-bullet that the changelog template writes for a line of a note. *)
Definition subBullet (env : Env) (line : string) : string :=
  GoString.concat [nl; "  * "; capitalize env line].

(** ** The scan of a fetched text *)

(** A line on which the scan goes on: it lacks the marker, or the pattern
    finds no group in it. *)
Definition passedOver (re : Regexp) (str line : string) : Prop :=
  Contains line str = false \/ (length (FindStringSubmatch re line) <= 1)%nat.

(** What makes [fetch] give nothing: the request fails, the status is not
    200, or the body cannot be read. *)
Definition unavailable (env : Env) (url : string) : Prop :=
  match http_Get env url with
  | GetFailed => True
  | Response status body => status <> StatusOK \/ body = None
  end.

(** ** The expected number of assets *)

(** The number of assets that [VerifyAssets] expects for a repository: the
    three constants and the three names of its tests. *)
Definition expectedAssets (repo : string) : option Z :=
  if decide (repo = "rke2") then Some rke2Assets
  else if decide (repo = "k3s") then Some k3sAssets
  else if decide (repo = "rke2-packing") then Some rke2Packaging
  else None.

(** The release of [tag] exists and has the expected number of assets. *)
Definition complete (env : Env) (org repo tag : string) : Prop :=
  exists release,
    GetReleaseByTag env org repo tag = Ok release /\
    expectedAssets repo = Some (nAssets release).

(** The platform of the examples, on which the deletion of the asset [id]
    is refused. *)
Definition refusing (id : Z) : Env :=
  {| unicode_IsLetter := asciiLetter;
     unicode_ToUpper := asciiUpper;
     semver_MajorMinor := fun _ => "";
     modfile_Parse := fun _ => None;
     http_Get := fun _ => GetFailed;
     GetReleaseByTag := GetReleaseByTag platform;
     DeleteReleaseAsset := fun _ _ i =>
       if decide (i = id) then Some (GithubErrorResponse 403) else None;
     OrgFromRepo := OrgFromRepo platform;
     RetrieveChangeLogContents := fun _ _ _ => Ok [] |}.

(** An environment like [offline] in which every version has the
    major.minor "v3.24". *)
Definition versioned : Env :=
  {| unicode_IsLetter := asciiLetter;
     unicode_ToUpper := asciiUpper;
     semver_MajorMinor := fun _ => "v3.24";
     modfile_Parse := fun _ => None;
     http_Get := fun _ => GetFailed;
     GetReleaseByTag := fun _ _ _ => Err (GithubErrorResponse StatusNotFound);
     DeleteReleaseAsset := fun _ _ _ => None;
     OrgFromRepo := fun _ => Err (ErrorString "repo not found");
     RetrieveChangeLogContents := fun _ _ _ => Ok [] |}.

(** ** Package rke2 *)

Section Rke2Vocabulary.

Import Rke2.

Variable w : World.
Variable alpineVersion : string.

Definition isCreateRelease (c : Call) : bool :=
  match c with
  | CallCreateRelease _ _ _ => true
  | _ => false
  end.

(** The release that [ImageBuildBaseRelease] creates for the Go version
    [x], and the tag of the golang image that it wants first. *)
Definition baseTag (x : string) : string := "v" +:+ x +:+ "b1".
Definition baseRelease (x : string) : NewRelease :=
  {| TagName := baseTag x; Name := baseTag x; Prerelease := false |}.
Definition golangTag (x : string) : string := x +:+ "-alpine" +:+ alpineVersion.

(** A stable record whose name has [x] after its first "go", and whose
    golang image exists for the three architectures. *)
Definition usable (v : goVersionRecord) (x : string) : Prop :=
  Stable v = true /\
  index_slice (Split (Version v) "go") 1 = Done x /\
  docker_CheckImageArchs w "library" "golang" (golangTag x) archs = None.

Definition released (x : string) : Prop :=
  exists r, GetReleaseByTag w "rancher" imageBuildBaseRepo (baseTag x) = Ok r.

(** The lookup of the release fails, for whatever reason. *)
Definition missing (x : string) : Prop :=
  exists e, GetReleaseByTag w "rancher" imageBuildBaseRepo (baseTag x) = Err e.

(** A record after which the loop goes on to the next one: it is not
    stable, or it is usable and its release exists or, outside a dry run,
    is created. *)
Definition goesOn (dryRun : bool) (v : goVersionRecord) : Prop :=
  Stable v = false \/
  exists x, usable v x /\
    (released x \/
     (missing x /\ dryRun = false /\
      CreateRelease w "rancher" imageBuildBaseRepo (baseRelease x) = None)).

(** The two calls that inspect a stable record. *)
Definition inspection (v : goVersionRecord) : list Call :=
  if Stable v then
    match index_slice (Split (Version v) "go") 1 with
    | Done x =>
        [CallCheckImageArchs "library" "golang" (golangTag x) archs;
         CallGetReleaseByTag "rancher" imageBuildBaseRepo (baseTag x)]
    | Panicked _ => []
    end
  else [].

(** What a call that creates a release looks like. *)
Definition wellCreated (dryRun : bool) (versions : list goVersionRecord) (c : Call) : Prop :=
  forall org repo release, c = CallCreateRelease org repo release ->
    dryRun = false /\ org = "rancher" /\ repo = "image-build-base" /\
    exists v x, In v versions /\ usable v x /\ missing x /\ release = baseRelease x.

(** The pull request of [UpdateImageBuild] for the tag [newTag], and the
    data that it gives to the script. *)
Definition updatePull (owner newTag : string) : NewPullRequest :=
  {| Title := "Update hardened build base to " +:+ newTag;
     Base := "master";
     Head := owner +:+ ":" +:+ "update-to-" +:+ newTag;
     MaintainerCanModify := true |}.

Definition updateData (repo owner cloneDir : string) (dryRun : bool) (newTag : string)
  : UpdateImageBuildArgs :=
  {| RepoName := repo;
     RepoOwner := owner;
     BranchName := "update-to-" +:+ newTag;
     DryRun := dryRun;
     CloneDir := cloneDir;
     NewTag := newTag |}.

(** A world for the examples: go.dev lists [versions]; every golang image
    exists; release v1.21.3b1 exists and the lookup of any other is
    refused; the creation of v1.20.10b1 fails; the latest release of every
    repository is v1.21.3b1. *)
Definition goWorld (versions : list goVersionRecord) : World :=
  {| httpClient_Get := fun _ => GetResponse 200 "versions";
     json_Decode := fun _ => Ok versions;
     docker_CheckImageArchs := fun _ _ _ _ => None;
     GetReleaseByTag := fun _ _ tag =>
       if decide (tag = "v1.21.3b1") then Ok {| Assets := [] |}
       else Err (GithubErrorResponse 403);
     CreateRelease := fun _ _ release =>
       if decide (TagName release = "v1.20.10b1")
       then Some (OtherError "creation refused") else None;
     GetLatestRelease := fun _ _ => Ok (Some "v1.21.3b1");
     exec_RunTemplatedScript := fun _ _ _ => Ok "done";
     PullRequests_Create := fun _ _ _ => None |}.

Definition go1_21_3 : goVersionRecord := {| Version := "go1.21.3"; Stable := true |}.
Definition go1_22rc1 : goVersionRecord := {| Version := "go1.22rc1"; Stable := false |}.
Definition go1_20_10 : goVersionRecord := {| Version := "go1.20.10"; Stable := true |}.
Definition go1_19_13 : goVersionRecord := {| Version := "go1.19.13"; Stable := true |}.

End Rke2Vocabulary.

(** * Properties *)

(** ** Facts on strings *)

Section StringFacts.

Lemma IndexFrom_shift (s substr : string) (i : Z) :
  IndexFrom i s substr
  = if IndexFrom 0 s substr =? -1 then -1 else i + IndexFrom 0 s substr.
Proof.
  assert (H : forall s i, 0 <= i ->
            (IndexFrom i s substr = -1 \/ i <= IndexFrom i s substr) /\
            forall j, IndexFrom j s substr
                      = if IndexFrom i s substr =? -1 then -1
                        else j + (IndexFrom i s substr - i)).
  { clear s i. induction s as [|c s IH]; intros i Hi; cbn [IndexFrom].
    - destruct (HasPrefix "" substr).
      + split; [right; lia|]. intros j.
        destruct (Z.eqb_spec i (-1)); lia.
      + split; [now left|]. reflexivity.
    - destruct (HasPrefix (String c s) substr).
      + split; [right; lia|]. intros j.
        destruct (Z.eqb_spec i (-1)); lia.
      + destruct (IH (i + 1)) as [Hr Hs]; [lia|]. split.
        * destruct Hr as [Hr|Hr]; [now left | right; lia].
        * intros j. rewrite (Hs (j + 1)).
          destruct (Z.eqb_spec (IndexFrom (i + 1) s substr) (-1)); [reflexivity | lia]. }
  destruct (H s 0) as [_ Hs]; [lia|]. rewrite (Hs i).
  destruct (Z.eqb_spec (IndexFrom 0 s substr) (-1)); [reflexivity | lia].
Qed.

Lemma IndexFrom_ge (s substr : string) (i : Z) :
  0 <= i -> IndexFrom i s substr = -1 \/ i <= IndexFrom i s substr.
Proof.
  revert i. induction s as [|c s IH]; intros i Hi; cbn [IndexFrom].
  - destruct (HasPrefix "" substr); [right; lia | now left].
  - destruct (HasPrefix (String c s) substr); [right; lia|].
    destruct (IH (i + 1)) as [H|H]; [lia | now left | right; lia].
Qed.

Lemma Contains_cons (a : ascii) (s substr : string) :
  Contains (String a s) substr = HasPrefix (String a s) substr || Contains s substr.
Proof.
  unfold Contains, Index. cbn [IndexFrom].
  destruct (HasPrefix (String a s) substr); [reflexivity|]. simpl.
  rewrite (IndexFrom_shift s substr (0 + 1)).
  destruct (Z.eqb_spec (IndexFrom 0 s substr) (-1)) as [E|E].
  - now rewrite E.
  - destruct (IndexFrom_ge s substr 0) as [H|H]; [lia | contradiction |].
    transitivity true; [apply Z.leb_le; lia | symmetry; apply Z.leb_le; lia].
Qed.

Lemma Contains_byte (c : ascii) (s : string) :
  Contains s (String c "") = hasByte c s.
Proof.
  induction s as [|a s IH].
  - reflexivity.
  - rewrite Contains_cons, IH. cbn [HasPrefix hasByte].
    now destruct (Ascii.eqb c a), s.
Qed.

End StringFacts.

Section SplitFacts.

Variable c : ascii.

Local Abbreviation sep := (String c "").

Lemma HasPrefix_byte (a : ascii) (s : string) :
  HasPrefix (String a s) sep = Ascii.eqb c a.
Proof. cbn [HasPrefix]. now destruct (Ascii.eqb c a), s. Qed.

Lemma splitLoop_head (sep' : string) (skip : nat) (cur s : string) :
  exists x rest, splitLoop sep' skip cur s = x :: rest.
Proof.
  revert skip cur. induction s as [|a s IH]; intros skip cur; cbn [splitLoop].
  - eauto.
  - destruct skip; [|apply IH]. destruct (HasPrefix (String a s) sep'); [eauto | apply IH].
Qed.

(** Without the separator in it, a string is the only piece. *)
Lemma splitLoop_no_sep (cur s : string) :
  hasByte c s = false -> splitLoop sep 0 cur s = [rev_append cur s].
Proof.
  revert cur. induction s as [|a s IH]; intros cur H; cbn [splitLoop].
  - reflexivity.
  - cbn [hasByte] in H. apply orb_false_elim in H as [Ha Hs].
    rewrite HasPrefix_byte, Ha. now rewrite IH.
Qed.

(** The first piece ends at the first separator. *)
Lemma splitLoop_first (cur pre post : string) :
  hasByte c pre = false ->
  splitLoop sep 0 cur (pre +:+ String c post)
  = rev_append cur pre :: splitLoop sep 0 "" post.
Proof.
  revert cur. induction pre as [|a pre IH]; intros cur H.
  - change ("" +:+ String c post) with (String c post). cbn [splitLoop].
    rewrite HasPrefix_byte, Ascii.eqb_refl. reflexivity.
  - cbn [hasByte] in H. apply orb_false_elim in H as [Ha Hs].
    change (String a pre +:+ String c post) with (String a (pre +:+ String c post)).
    cbn [splitLoop]. rewrite HasPrefix_byte, Ha. now rewrite IH.
Qed.

(** Taking out every [c] brings in no other byte. *)
Lemma hasByte_replaceLoop (b : ascii) (s : string) :
  hasByte b s = false -> hasByte b (replaceLoop sep "" 0 s) = false.
Proof.
  induction s as [|a s IH]; intros H; cbn [replaceLoop].
  - reflexivity.
  - cbn [hasByte] in H. apply orb_false_elim in H as [Ha Hs].
    rewrite HasPrefix_byte. destruct (Ascii.eqb c a).
    + change ("" +:+ ?x) with x. now apply IH.
    + cbn [hasByte]. rewrite Ha. now apply IH.
Qed.

End SplitFacts.

Lemma Split_no_sep (c : ascii) (s : string) :
  Contains s (String c "") = false -> Split s (String c "") = [s].
Proof.
  intros H. rewrite Contains_byte in H. unfold Split.
  destruct (decide (String c "" = "")) as [E|_]; [discriminate|].
  now rewrite splitLoop_no_sep.
Qed.

Lemma Split_first (c : ascii) (pre post : string) :
  Contains pre (String c "") = false ->
  exists rest, Split (pre +:+ String c post) (String c "") = pre :: rest.
Proof.
  intros H. rewrite Contains_byte in H. unfold Split.
  destruct (decide (String c "" = "")) as [E|_]; [discriminate|].
  rewrite splitLoop_first by exact H. eauto.
Qed.

Lemma Split_head (s sep : string) :
  sep <> "" -> exists x, index_slice (Split s sep) 0 = Done x.
Proof.
  intros H. unfold Split. destruct (decide (sep = "")); [contradiction|].
  destruct (splitLoop_head sep 0 "" s) as (x & rest & ->). now exists x.
Qed.

(** ** ASCII strings: bytes and runes coincide *)

Lemma byte_val_range (c : ascii) : 0 <= byte_val c < 256.
Proof.
  unfold byte_val. pose proof (N_ascii_bounded c) as H. lia.
Qed.

Lemma byte_of_val (c : ascii) : byte_of (byte_val c) = c.
Proof. unfold byte_of, byte_val. rewrite N2Z.id. apply ascii_N_embedding. Qed.

Lemma runes_ascii (s : string) : isASCII s -> runes s = bytes s.
Proof.
  unfold runes, tokens, bytes, isASCII. induction s as [|c s IH]; intros H.
  - reflexivity.
  - cbn [list_ascii_of_string] in H. apply Forall_cons in H as [Hc Hs].
    cbn [tokensLoop]. unfold decodeRune.
    destruct (Z.ltb_spec (byte_val c) 128) as [_|]; [|lia].
    cbn. f_equal. now apply IH.
Qed.

Lemma encodeRune_ascii (c : ascii) : byte_val c < 0x80 -> encodeRune (byte_val c) = String c "".
Proof.
  intros H. pose proof (byte_val_range c) as R. unfold encodeRune, surrogate, between.
  destruct (Z.ltb_spec (byte_val c) 0); [lia|].
  destruct (Z.ltb_spec 1114111 (byte_val c)); [lia|].
  destruct (Z.leb_spec 55296 (byte_val c)); [lia|].
  destruct (Z.leb_spec (byte_val c) 127); [|lia].
  cbn. now rewrite byte_of_val.
Qed.

Lemma append_assoc (a b c : string) : (a +:+ b) +:+ c = a +:+ (b +:+ c).
Proof.
  induction a as [|x a IH]; [reflexivity|].
  change (String x ((a +:+ b) +:+ c) = String x (a +:+ (b +:+ c))). now rewrite IH.
Qed.

Lemma string_of_runes_app (a b : list rune) :
  string_of_runes (a ++ b) = string_of_runes a +:+ string_of_runes b.
Proof.
  unfold string_of_runes. induction a as [|r a IH]; [reflexivity|].
  cbn [fmap list_fmap app GoString.concat]. rewrite IH.
  symmetry. apply append_assoc.
Qed.

Lemma bytes_app (a b : string) : bytes (a +:+ b) = bytes a ++ bytes b.
Proof.
  unfold bytes. induction a as [|x a IH]; [reflexivity|].
  change (String x a +:+ b) with (String x (a +:+ b)).
  cbn [list_ascii_of_string fmap list_fmap app]. f_equal. exact IH.
Qed.

Lemma length_bytes (s : string) : length (bytes s) = String.length s.
Proof.
  unfold bytes. induction s as [|x s IH]; [reflexivity|].
  cbn [list_ascii_of_string fmap list_fmap length String.length]. now rewrite IH.
Qed.

Lemma isASCII_app (a b : string) : isASCII (a +:+ b) <-> isASCII a /\ isASCII b.
Proof.
  unfold isASCII. induction a as [|x a IH].
  - change ("" +:+ b) with b. split; [intros H; split; [constructor | exact H] | tauto].
  - change (String x a +:+ b) with (String x (a +:+ b)). cbn [list_ascii_of_string].
    rewrite !Forall_cons, IH. tauto.
Qed.

Lemma string_of_runes_bytes (s : string) : isASCII s -> string_of_runes (bytes s) = s.
Proof.
  unfold isASCII, bytes, string_of_runes. induction s as [|x s IH]; intros H; [reflexivity|].
  cbn [list_ascii_of_string] in H. apply Forall_cons in H as [Hx Hs].
  cbn [list_ascii_of_string fmap list_fmap GoString.concat].
  rewrite encodeRune_ascii by exact Hx. rewrite IH by exact Hs. reflexivity.
Qed.

(** ** The lines of the scanner and the lines of the text *)

Lemma rev_append_app (cur s t : string) : rev_append cur (s +:+ t) = rev_append cur s +:+ t.
Proof.
  revert s. induction cur as [|c cur IH]; intros s; [reflexivity|].
  cbn [rev_append]. change (String c (s +:+ t)) with (String c s +:+ t). apply IH.
Qed.

Lemma HasPrefix_app (s t p : string) : HasPrefix s p = true -> HasPrefix (s +:+ t) p = true.
Proof.
  revert s. induction p as [|a p IH]; intros s H; [now destruct (s +:+ t)|].
  destruct s as [|b s]; [discriminate|].
  change (String b s +:+ t) with (String b (s +:+ t)). cbn [HasPrefix] in *.
  destruct (Ascii.eqb a b); [now apply IH | discriminate].
Qed.

Lemma Contains_app_l (s t p : string) : Contains s p = true -> Contains (s +:+ t) p = true.
Proof.
  induction s as [|a s IH]; intros H.
  - unfold Contains, Index in H. cbn [IndexFrom] in H.
    destruct (HasPrefix "" p) eqn:E; [|discriminate].
    destruct p; [|discriminate]. now destruct t.
  - change (String a s +:+ t) with (String a (s +:+ t)).
    rewrite Contains_cons in *. apply orb_true_iff in H as [H|H].
    + change (String a (s +:+ t)) with (String a s +:+ t).
      rewrite (HasPrefix_app _ _ _ H). reflexivity.
    + rewrite (IH H). apply orb_true_r.
Qed.

Lemma dropCR_flush (cur : string) :
  Bufio.dropCR cur = flush cur \/ flush cur = Bufio.dropCR cur +:+ String "013" "".
Proof.
  destruct cur as [|c cur]; [now left|].
  destruct (Ascii.eqb_spec c "013") as [->|Hc].
  - right. cbn [Bufio.dropCR]. unfold flush. cbn [rev_append].
    now rewrite <- rev_append_app.
  - left. unfold Bufio.dropCR.
    destruct c as [[] [] [] [] [] [] [] []]; try reflexivity. now destruct Hc.
Qed.

(** A line that the scanner yields is a piece of the text between newlines,
    less a carriage return at its end. *)
Lemma scanLoop_rawLines (s cur : string) (n : Z) :
  Forall (fun line => exists raw, In raw (splitLoop nl 0 cur s) /\
                        (line = raw \/ raw = line +:+ String "013" ""))
         (Bufio.scanLoop cur n s).
Proof.
  revert cur n. induction s as [|c s IH]; intros cur n.
  - cbn [Bufio.scanLoop splitLoop]. destruct (n =? 0); constructor; [|constructor].
    exists (flush cur). split; [now left|]. destruct (dropCR_flush cur); auto.
  - cbn [Bufio.scanLoop splitLoop]. unfold nl at 1. rewrite HasPrefix_byte.
    rewrite (Ascii.eqb_sym "010" c).
    destruct (Ascii.eqb c "010").
    + constructor.
      * exists (flush cur). split; [now left|]. destruct (dropCR_flush cur); auto.
      * eapply Forall_impl; [apply IH|]. intros line (raw & Hin & Hraw).
        exists raw. split; [now right | exact Hraw].
    + destruct (Bufio.MaxScanTokenSize <=? n + 1); [constructor | apply IH].
Qed.

Lemma no_marker_rawLines (text str : string) :
  Forall (fun raw => Contains raw str = false) (rawLines text) ->
  Forall (fun line => Contains line str = false) (Bufio.Lines text).
Proof.
  intros H. unfold Bufio.Lines.
  eapply Forall_impl; [apply scanLoop_rawLines|]. intros line (raw & Hin & Hraw).
  assert (Hr : Contains raw str = false).
  { rewrite Forall_forall in H. apply H. apply list_elem_of_In.
    unfold rawLines, Split. destruct (decide (nl = "")); [discriminate | exact Hin]. }
  destruct Hraw as [->| ->]; [exact Hr|].
  destruct (Contains line str) eqn:E; [|reflexivity].
  now rewrite (Contains_app_l _ _ _ E) in Hr.
Qed.

(** ** The scrapers never panic: their patterns compile *)

Section Totality.

Variable env : Env.

Lemma findLoop_total (regex str : string) (lines submatch : list string) :
  (regex = "" \/ exists re, MustCompile regex = Done re) ->
  exists l, findLoop regex str lines submatch = Done l.
Proof.
  intros H. revert submatch. induction lines as [|line lines IH]; intros submatch; simpl.
  - eauto.
  - destruct (Contains line str); [|apply IH].
    destruct (decide (regex = "")) as [|Hne]; [apply IH|].
    destruct H as [|[re ->]]; [contradiction|]. simpl.
    destruct (1 <? length (FindStringSubmatch re line))%nat; [eauto | apply IH].
Qed.

Lemma findInURL_total (url regex str : string) :
  (regex = "" \/ exists re, MustCompile regex = Done re) ->
  exists l, findInURL env url regex str = Done l.
Proof.
  intros H. unfold findInURL. destruct (fetch env url); [|eauto].
  now apply findLoop_total.
Qed.

Lemma buildScriptVersion_total (varName repo branchVersion : string) :
  exists v, buildScriptVersion env varName repo branchVersion = Done v.
Proof.
  unfold buildScriptVersion.
  destruct (findInURL_total (rawURL (repoName repo) branchVersion "/scripts/version.sh")
              buildScriptRegex varName) as [l ->].
  - right. eexists. vm_compute. reflexivity.
  - simpl. eauto.
Qed.

Lemma dockerfileVersion_total (chartName repo branchVersion : string) :
  exists v, dockerfileVersion env chartName repo branchVersion = Done v.
Proof.
  unfold dockerfileVersion. destruct (Contains repo "k3s"); [eauto|].
  destruct (findInURL_total (rawURL "rancher/rke2" branchVersion "/Dockerfile")
              dockerfileRegex chartName) as [l ->].
  - right. eexists. vm_compute. reflexivity.
  - simpl. eauto.
Qed.

Lemma imageTagVersion_total (ImageName repo branchVersion : string) :
  exists v, imageTagVersion env ImageName repo branchVersion = Done v.
Proof.
  unfold imageTagVersion.
  destruct (findInURL_total (imageListURL repo branchVersion) imageTagRegex ImageName)
    as [l ->].
  - right. eexists. vm_compute. reflexivity.
  - simpl. destruct l as [|m [|x l]]; [eauto | eauto |].
    destruct (Contains x "-build"); [|eauto].
    apply Split_head. discriminate.
Qed.

Lemma sqliteVersionBinding_total (sqliteVersion : string) :
  exists v, sqliteVersionBinding env sqliteVersion = Done v.
Proof.
  unfold sqliteVersionBinding.
  match goal with
  | |- context [findInURL env ?u sqliteRegex ?w] =>
      destruct (findInURL_total u sqliteRegex w) as [l ->]
  end.
  - right. eexists. vm_compute. reflexivity.
  - simpl. eauto.
Qed.

End Totality.

(** ** capitalize *)

Section CapitalizeFacts.

Variable env : Env.

Lemma firstLetter_none (runes : list rune) (i : nat) :
  Forall (notLetter env) runes -> firstLetter env i runes = None.
Proof.
  intros H. revert i. induction H as [|r runes Hr _ IH]; intros i; simpl.
  - reflexivity.
  - rewrite Hr. apply IH.
Qed.

Lemma firstLetter_split (pre post : list rune) (r : rune) (i : nat) :
  Forall (notLetter env) pre -> unicode_IsLetter env r = true ->
  firstLetter env i (pre ++ r :: post) = Some ((i + length pre)%nat, r).
Proof.
  intros Hpre Hr. revert i. induction Hpre as [|x pre Hx _ IH]; intros i; simpl.
  - rewrite Hr. do 2 f_equal. lia.
  - rewrite Hx, IH. do 2 f_equal. lia.
Qed.

Lemma firstLetter_decompose (runes : list rune) (i j : nat) (r : rune) :
  firstLetter env i runes = Some (j, r) ->
  exists pre post,
    runes = pre ++ r :: post /\ Forall (notLetter env) pre /\
    unicode_IsLetter env r = true /\ j = (i + length pre)%nat.
Proof.
  revert i. induction runes as [|x runes IH]; intros i; simpl; [discriminate|].
  destruct (unicode_IsLetter env x) eqn:Hx.
  - intros [= <- <-]. exists [], runes. simpl. repeat split; auto; lia.
  - intros H. destruct (IH _ H) as (pre & post & -> & Hpre & Hr & ->).
    exists (x :: pre), post. simpl. repeat split; auto; lia.
Qed.

Lemma insert_middle (pre post : list rune) (r u : rune) :
  <[length pre := u]> (pre ++ r :: post) = pre ++ u :: post.
Proof.
  induction pre as [|x pre IH]; simpl; [reflexivity|]. now rewrite IH.
Qed.

End CapitalizeFacts.

(** C7. For every string [s]: when no character of [s] is a letter,
    [capitalize] returns [s] itself; otherwise, with [r] the first letter of
    [s], [pre] the characters before it and [post] the characters after it,
    [capitalize] returns [pre], then the upper case of [r], then [post]: only
    the first letter changes.  With the ASCII letters of package unicode,
    "-fix" becomes "-Fix". *)
Theorem capitalize_first_letter_only (env : Env) (s : string) :
  (Forall (notLetter env) (runes s) -> capitalize env s = s) /\
  (forall pre r post,
     runes s = pre ++ r :: post -> Forall (notLetter env) pre ->
     unicode_IsLetter env r = true ->
     capitalize env s = string_of_runes (pre ++ unicode_ToUpper env r :: post)) /\
  (unicodeOnASCII env -> capitalize env "-fix" = "-Fix").
Proof.
  repeat split.
  - intros H. unfold capitalize. now rewrite firstLetter_none.
  - intros pre r post Hs Hpre Hr. unfold capitalize.
    rewrite Hs, (firstLetter_split env pre post r 0 Hpre Hr). simpl.
    now rewrite insert_middle.
  - intros H. unfold capitalize.
    destruct (H 45) as [H45 _]; [lia|]. destruct (H 102) as [H102 U102]; [lia|].
    change (runes "-fix") with [45; 102; 105; 120]. simpl.
    rewrite H45, H102. cbn. rewrite U102. reflexivity.
Qed.

Lemma capitalize_first_letter_only_witness :
  capitalize offline "  fix bug" = "  Fix bug" /\
  capitalize offline "12 %" = "12 %" /\
  capitalize offline "-fix" = "-Fix".
Proof.
  pose proof (capitalize_first_letter_only offline "  fix bug") as (_ & H1 & _).
  pose proof (capitalize_first_letter_only offline "12 %") as (H2 & _ & _).
  pose proof (capitalize_first_letter_only offline "-fix") as (_ & _ & H3).
  split; [|split].
  - apply (H1 [32; 32] 102 [105; 120; 32; 98; 117; 103]).
    + reflexivity.
    + repeat constructor.
    + reflexivity.
  - apply H2. repeat constructor.
  - apply H3. intros r Hr. split; reflexivity.
Defined.

(** ** The pattern extractor *)

Lemma findLoop_no_marker (regex str : string) (lines submatch : list string) :
  Forall (fun line => Contains line str = false) lines ->
  findLoop regex str lines submatch = Done submatch.
Proof.
  intros H. induction H as [|line lines Hline _ IH]; simpl.
  - reflexivity.
  - now rewrite Hline.
Qed.

(** Lines without the marker in front of the others are passed over. *)
Lemma findLoop_skip (regex str : string) (before lines submatch : list string) :
  Forall (fun line => Contains line str = false) before ->
  findLoop regex str (before ++ lines) submatch = findLoop regex str lines submatch.
Proof.
  intros H. induction H as [|line before Hline _ IH]; simpl.
  - reflexivity.
  - now rewrite Hline.
Qed.

(** C5. Whatever the regular expression (the empty one, one that does not
    compile), [findInURL] returns the empty result when no line contains
    the marker: no line among those that the scanner reads from the fetched
    text, and so also no line among the pieces of the text between newlines.
    A text that cannot be fetched has no line at all. *)
Theorem findInURL_no_marker_not_found (env : Env) (url regex str : string) :
  ((forall text, fetch env url = Some text ->
      Forall (fun line => Contains line str = false) (Bufio.Lines text)) ->
   findInURL env url regex str = Done []) /\
  ((forall text, fetch env url = Some text ->
      Forall (fun line => Contains line str = false) (rawLines text)) ->
   findInURL env url regex str = Done []).
Proof.
  assert (Hscan : (forall text, fetch env url = Some text ->
                     Forall (fun line => Contains line str = false) (Bufio.Lines text)) ->
                  findInURL env url regex str = Done []).
  { intros H. unfold findInURL. destruct (fetch env url) as [text|] eqn:Hf.
    - apply findLoop_no_marker. now apply H.
    - reflexivity. }
  split; [exact Hscan|].
  intros H. apply Hscan. intros text Hf. apply no_marker_rawLines. now apply H.
Qed.

Lemma findInURL_no_marker_not_found_witness :
  findInURL (serving ("VERSION_RUNC=v1.1.4" +:+ nl +:+ "VERSION_CNI=v1.1.1")) "u" "(" "ETCD"
  = Done [] /\
  findInURL (serving ("VERSION_RUNC=v1.1.4" +:+ nl +:+ "VERSION_CNI=v1.1.1")) "u" "" "ETCD"
  = Done [].
Proof.
  split.
  - apply (proj1 (findInURL_no_marker_not_found _ "u" "(" "ETCD")).
    intros text [= <-]. vm_compute. repeat constructor.
  - apply (proj2 (findInURL_no_marker_not_found _ "u" "" "ETCD")).
    intros text [= <-]. vm_compute. repeat constructor.
Defined.

(** ** The dependency-manifest resolver *)

Lemma find_first {A : Type} (p : A -> bool) (l : list A) :
  (exists x, In x l /\ p x = true) ->
  exists before x after,
    l = before ++ x :: after /\ Forall (fun y => p y = false) before /\
    p x = true /\ List.find p l = Some x.
Proof.
  induction l as [|a l IH]; intros (x & Hin & Hx); [destruct Hin|].
  simpl. destruct (p a) eqn:Ha.
  - exists [], a, l. repeat split; auto.
  - destruct Hin as [->|Hin]; [congruence|].
    destruct IH as (before & y & after & -> & Hb & Hy & Hf); [eauto|].
    exists (a :: before), y, after. repeat split; auto.
Qed.

(** C3. When the fetched go.mod holds a replace directive and a require
    directive whose module paths contain the library name,
    [goModLibVersion] returns the version of the first such replace
    directive, whatever the require directives say. *)
Theorem goModLibVersion_replace_wins
  (env : Env) (libraryName repo branchVersion text : string) (modFile : modfile_File) :
  fetch env (rawURL (repoName repo) branchVersion "/go.mod") = Some text ->
  modfile_Parse env text = Some modFile ->
  (exists replace, In replace (FileReplace modFile) /\
     Contains (Path (Old replace)) libraryName = true) ->
  (exists require, In require (FileRequire modFile) /\
     Contains (Path (Mod require)) libraryName = true) ->
  exists before replace after,
    FileReplace modFile = before ++ replace :: after /\
    Forall (fun r => Contains (Path (Old r)) libraryName = false) before /\
    Contains (Path (Old replace)) libraryName = true /\
    goModLibVersion env libraryName repo branchVersion = Version (New replace).
Proof.
  intros Hf Hp Hrep _.
  destruct (find_first (fun r => Contains (Path (Old r)) libraryName) _ Hrep)
    as (before & replace & after & Hl & Hb & Hr & Hfind).
  exists before, replace, after. repeat split; auto.
  unfold goModLibVersion. now rewrite Hf, Hp, Hfind.
Qed.

Lemma goModLibVersion_replace_wins_witness :
  exists before replace after,
    FileReplace kineGoMod = before ++ replace :: after /\
    Forall (fun r => Contains (Path (Old r)) "kine" = false) before /\
    Contains (Path (Old replace)) "kine" = true /\
    goModLibVersion kineEnv "kine" "k3s" "v1.25.3+k3s1" = Version (New replace).
Proof.
  apply (goModLibVersion_replace_wins kineEnv "kine" "k3s" "v1.25.3+k3s1"
           "module github.com/k3s-io/k3s" kineGoMod).
  - reflexivity.
  - reflexivity.
  - eexists. split; [left; reflexivity | reflexivity].
  - eexists. split; [left; reflexivity | reflexivity].
Defined.

(** ** The image-manifest resolver *)

Lemma findLoop_hit (regex str line : string) (lines submatch : list string) (re : Regexp) :
  Contains line str = true ->
  regex <> "" ->
  MustCompile regex = Done re ->
  (1 <? length (FindStringSubmatch re line))%nat = true ->
  findLoop regex str (line :: lines) submatch = Done (FindStringSubmatch re line).
Proof.
  intros Hc Hne Hre Hlen. cbn [findLoop]. rewrite Hc.
  destruct (decide (regex = "")); [contradiction|].
  rewrite Hre. cbn [mbind outcome_bind]. now rewrite Hlen.
Qed.

(** What the pattern of [imageTagVersion] finds in the line of the claim. *)
Lemma imageTag_submatch (re : Regexp) :
  MustCompile imageTagRegex = Done re ->
  FindStringSubmatch re "cni-plugins:v1.2.3-build20220101"
  = [":v1.2.3-build20220101"; "v1.2.3-build20220101"; ""].
Proof. intros [= <-]. vm_compute. reflexivity. Qed.

Lemma imageTagRegex_compiles : exists re, MustCompile imageTagRegex = Done re.
Proof. eexists. vm_compute. reflexivity. Qed.

(** C6. When the first line of the image list that contains "cni-plugins"
    is [cni-plugins:v1.2.3-build20220101], [imageTagVersion] returns
    "v1.2.3".  In general, with [x] the version that the pattern captures:
    [x] is returned as it is when it does not contain "-build", and when it
    does, the result is the part of [x] before its first hyphen. *)
Theorem imageTagVersion_build_suffix (env : Env) (repo branchVersion : string) :
  (forall text before after,
     fetch env (imageListURL repo branchVersion) = Some text ->
     Bufio.Lines text = before ++ "cni-plugins:v1.2.3-build20220101" :: after ->
     Forall (fun line => Contains line "cni-plugins" = false) before ->
     imageTagVersion env "cni-plugins" repo branchVersion = Done "v1.2.3") /\
  (forall ImageName whole x others,
     findInURL env (imageListURL repo branchVersion) imageTagRegex ImageName
     = Done (whole :: x :: others) ->
     (Contains x "-build" = false ->
      imageTagVersion env ImageName repo branchVersion = Done x) /\
     (forall pre post,
        x = pre +:+ String "-" post -> Contains pre "-" = false ->
        Contains x "-build" = true ->
        imageTagVersion env ImageName repo branchVersion = Done pre)).
Proof.
  split.
  - intros text before after Hf Hl Hb. unfold imageTagVersion, findInURL.
    rewrite Hf, Hl, findLoop_skip by exact Hb.
    destruct imageTagRegex_compiles as [re Hre].
    pose proof (imageTag_submatch re Hre) as Hsub.
    rewrite (findLoop_hit _ _ _ _ _ re); [| reflexivity | discriminate | exact Hre
                                          | now rewrite Hsub].
    rewrite Hsub. reflexivity.
  - intros ImageName whole x others Hfind. unfold imageTagVersion. rewrite Hfind. cbn.
    split.
    + now intros ->.
    + intros pre post -> Hpre ->.
      destruct (Split_first "-" pre post Hpre) as [rest ->]. reflexivity.
Qed.

Lemma imageTagVersion_build_suffix_witness :
  imageTagVersion
    (serving ("docker.io/rancher/klipper-helm:v0.7.3-build20220613" +:+ nl
              +:+ "cni-plugins:v1.2.3-build20220101" +:+ nl
              +:+ "cni-plugins:v9.9.9" +:+ nl))
    "cni-plugins" "rke2" "v1.25.3+rke2r1" = Done "v1.2.3".
Proof.
  refine (proj1 (imageTagVersion_build_suffix _ "rke2" "v1.25.3+rke2r1") _
            ["docker.io/rancher/klipper-helm:v0.7.3-build20220613"]
            ["cni-plugins:v9.9.9"] _ _ _).
  - reflexivity.
  - vm_compute. reflexivity.
  - vm_compute. repeat constructor.
Defined.

(** ** GenReleaseNotes: the major.minor derivation *)

(** C9. When the changelog is retrieved and the bare version of the
    milestone (the RC suffix taken out, then the part before the first [+])
    contains no period, [GenReleaseNotes] returns neither notes nor an
    error: reading [tmp[1]] panics with an index out of range. *)
Theorem GenReleaseNotes_no_period_panics
  (env : Env) (repo milestone prevMilestone noRC k8s : string) (content : list ChangeLog) :
  RetrieveChangeLogContents env repo prevMilestone milestone = Ok content ->
  milestoneNoRC milestone = Done noRC ->
  index_slice (Split noRC "+") 0 = Done k8s ->
  Contains k8s "." = false ->
  GenReleaseNotes env repo milestone prevMilestone = Panicked (IndexOutOfRange 1 1).
Proof.
  intros Hc Hrc Hk Hdot. unfold GenReleaseNotes. rewrite Hc. unfold renderData.
  rewrite Hrc. cbn [mbind outcome_bind]. rewrite Hk. cbn [mbind outcome_bind].
  assert (Hsplit : Split (ReplaceAll k8s "v" "") "." = [ReplaceAll k8s "v" ""]).
  { apply Split_no_sep. rewrite Contains_byte in *. unfold ReplaceAll.
    destruct (decide ("v" = "")) as [|_]; [discriminate|].
    destruct (decide ("v" = "")) as [|_]; [discriminate|].
    now apply hasByte_replaceLoop. }
  rewrite Hsplit. reflexivity.
Qed.

Lemma GenReleaseNotes_no_period_panics_witness :
  GenReleaseNotes offline "k3s" "v1-rc1+k3s1" "v1.25.2+k3s1" = Panicked (IndexOutOfRange 1 1).
Proof.
  apply (GenReleaseNotes_no_period_panics offline "k3s" "v1-rc1+k3s1" "v1.25.2+k3s1"
           "v1+k3s1" "v1" []); reflexivity.
Defined.

(** ** GenReleaseNotes: the k3s scenario *)

(** C2 (as amended). For k3s with milestone v1.25.3+k3s1 and previous
    milestone v1.25.2+k3s1: when the changelog is retrieved and every
    scraper finds nothing except the go.mod lookup of "kine", which gives
    "v0.9.0", [GenReleaseNotes] returns no error and the notes are
    [scenarioNotes]: the Kine row shows "v0.9.0", every other row that shows
    a scraped version shows the empty string in its place, and the
    Kubernetes row shows the version of the milestone. *)
Theorem GenReleaseNotes_k3s_only_kine (env : Env) (content : list ChangeLog) :
  RetrieveChangeLogContents env "k3s" "v1.25.2+k3s1" "v1.25.3+k3s1" = Ok content ->
  onlyKine env ->
  GenReleaseNotes env "k3s" "v1.25.3+k3s1" "v1.25.2+k3s1"
  = Done (Ok (scenarioNotes env content)).
Proof.
  intros Hc (Hkine & Hgo & Hbs & Hdf & Himg & Hsql). split_Forall.
  unfold GenReleaseNotes. rewrite Hc. unfold renderData. cbv zeta.
  repeat match goal with
         | H : goModLibVersion _ _ _ _ = _ |- _ => rewrite H; clear H
         | H : buildScriptVersion _ _ _ _ = _ |- _ => rewrite H; clear H
         | H : dockerfileVersion _ _ _ _ = _ |- _ => rewrite H; clear H
         | H : imageTagVersion _ _ _ _ = _ |- _ => rewrite H; clear H
         end.
  rewrite Hsql. lazy - [changesSince]. reflexivity.
Qed.

Lemma kineWorld_onlyKine (changes : result (list ChangeLog)) : onlyKine (kineWorld changes).
Proof.
  unfold onlyKine. repeat split; try (vm_compute; reflexivity);
    repeat (constructor; [vm_compute; reflexivity|]); constructor.
Defined.

(** C2 as it is stated fails where the code returns early: the scrapers
    behave as the scenario says, the changelog cannot be retrieved, and
    [GenReleaseNotes] returns that error. *)
Lemma GenReleaseNotes_k3s_changelog_error :
  onlyKine (kineWorld (Err (OtherError "changelog unavailable"))) /\
  GenReleaseNotes (kineWorld (Err (OtherError "changelog unavailable")))
    "k3s" "v1.25.3+k3s1" "v1.25.2+k3s1"
  = Done (Err (OtherError "changelog unavailable")).
Proof. split; [apply kineWorld_onlyKine | reflexivity]. Qed.

Lemma GenReleaseNotes_k3s_only_kine_witness :
  GenReleaseNotes (kineWorld (Ok [fixEntry])) "k3s" "v1.25.3+k3s1" "v1.25.2+k3s1"
  = Done (Ok (scenarioNotes (kineWorld (Ok [fixEntry])) [fixEntry])).
Proof.
  apply GenReleaseNotes_k3s_only_kine; [reflexivity | apply kineWorld_onlyKine].
Defined.

Example changesSince_fixEntry :
  changesSince (kineWorld (Ok [fixEntry])) "v1.25.2+k3s1" [fixEntry]
  = GoString.concat
      ["## Changes since v1.25.2+k3s1:"; nl; nl;
       "* Fix etcd snapshot retention [(#6319)](https://github.com/k3s-io/k3s/pull/6319)"; nl;
       "  * Snapshots are pruned per node"; nl;
       "  * See the docs"].
Proof. vm_compute. reflexivity. Qed.

(** ** GenReleaseNotes: the release-candidate suffix *)

(** Where the suffix is "-rc" and one more character, and the text is
    ASCII up to its end, the four characters are what the code removes. *)
Lemma milestoneNoRC_one_digit (pre post : string) (d : ascii) :
  isASCII (pre +:+ "-rc" +:+ String d post) ->
  Index (pre +:+ "-rc" +:+ String d post) "-rc" = Z.of_nat (String.length pre) ->
  milestoneNoRC (pre +:+ "-rc" +:+ String d post) = Done (pre +:+ post).
Proof.
  intros Hascii Hidx. unfold milestoneNoRC. rewrite Hidx.
  destruct (Z.eqb_spec (Z.of_nat (String.length pre)) (-1)); [lia|].
  rewrite runes_ascii by exact Hascii.
  change ("-rc" +:+ String d post) with (String "-" (String "r" (String "c" (String d post)))).
  rewrite length_bytes.
  assert (Hlen : String.length (pre +:+ String "-" (String "r" (String "c" (String d post))))
                 = (String.length pre + 4 + String.length post)%nat).
  { rewrite <- (length_bytes (pre +:+ _)), bytes_app, length_app, !length_bytes.
    cbn [String.length]. lia. }
  rewrite Hlen.
  destruct (Z.ltb_spec (Z.of_nat (String.length pre + 4 + String.length post))
              (Z.of_nat (String.length pre) + 4)); [lia|].
  rewrite bytes_app.
  rewrite Nat2Z.id.
  replace (Z.to_nat (Z.of_nat (String.length pre) + 4)) with (length (bytes pre) + 4)%nat
    by (rewrite length_bytes; lia).
  rewrite take_app_length', drop_app_add' by (rewrite ?length_bytes; reflexivity).
  change (drop 4 (bytes (String "-" (String "r" (String "c" (String d post))))))
    with (bytes post).
  rewrite <- bytes_app. f_equal. apply string_of_runes_bytes.
  change (String "-" (String "r" (String "c" (String d post)))) with ("-rc" +:+ String d post) in Hascii.
  apply isASCII_app in Hascii as [Hpre Hrest].
  change ("-rc" +:+ String d post) with ("-rc" +:+ (String d "" +:+ post)) in Hrest.
  apply isASCII_app in Hrest as [_ Hrest]. apply isASCII_app in Hrest as [_ Hpost].
  apply isASCII_app. now split.
Qed.

Example milestoneNoRC_rc1 : milestoneNoRC "v1.25.3-rc1+k3s1" = Done "v1.25.3+k3s1".
Proof.
  apply (milestoneNoRC_one_digit "v1.25.3" "+k3s1" "1"); [|reflexivity].
  unfold isASCII. vm_compute. repeat constructor.
Qed.

(** Whatever the milestone, when the data is built each scraped field is
    the answer of its scraper for the milestone as it was given, and the
    displayed milestone is the result of the cut. *)
Lemma renderData_branch_reference
  (env : Env) (repo original prevMilestone : string) (content : list ChangeLog)
  (d : RenderData) :
  renderData env repo original prevMilestone content = Done d ->
  milestoneNoRC original = Done (milestone d) /\
  (EtcdVersionK3S d = goModLibVersion env "etcd/api/v3" repo original /\
   ContainerdVersionGoMod d = goModLibVersion env "containerd/containerd" repo original /\
   RuncVersionGoMod d = goModLibVersion env "runc" repo original /\
   HelmControllerVersion d = goModLibVersion env "helm-controller" repo original /\
   FlannelVersionK3S d = goModLibVersion env "flannel" repo original /\
   KineVersion d = goModLibVersion env "kine" repo original) /\
  (Done (EtcdVersionRKE2 d) = buildScriptVersion env "ETCD_VERSION" repo original /\
   Done (ContainerdVersionK3S d) = buildScriptVersion env "VERSION_CONTAINERD" repo original /\
   Done (RuncVersionBuildScript d) = buildScriptVersion env "VERSION_RUNC" repo original) /\
  (Done (ContainerdVersionRKE2 d) = dockerfileVersion env "hardened-containerd" repo original /\
   Done (RuncVersionRKE2 d) = dockerfileVersion env "hardened-runc" repo original /\
   Done (IngressNginxVersion d) = dockerfileVersion env "rke2-ingress-nginx" repo original) /\
  (Done (CNIPluginsVersion d) = imageTagVersion env "cni-plugins" repo original /\
   Done (MetricsServerVersion d) = imageTagVersion env "metrics-server" repo original /\
   Done (TraefikVersion d) = imageTagVersion env "traefik" repo original /\
   Done (CoreDNSVersion d) = imageTagVersion env "coredns" repo original /\
   Done (FlannelVersionRKE2 d) = imageTagVersion env "flannel" repo original /\
   Done (CalicoVersion d) = imageTagVersion env "calico-node" repo original /\
   Done (CanalCalicoVersion d) = imageTagVersion env "hardened-calico" repo original /\
   Done (CiliumVersion d) = imageTagVersion env "cilium-cilium" repo original /\
   Done (MultusVersion d) = imageTagVersion env "multus-cni" repo original /\
   Done (LocalPathProvisionerVersion d)
   = imageTagVersion env "local-path-provisioner" repo original).
Proof.
  unfold renderData. cbv zeta. intros H.
  repeat match type of H with
         | mbind _ ?m = Done _ =>
             destruct m eqn:?; cbn [mbind outcome_bind] in H; [|discriminate H]
         end.
  injection H as <-. cbn. repeat split; reflexivity.
Qed.

Lemma milestoneNoRC_rc10 : milestoneNoRC "v1.25.3-rc10+k3s1" = Done "v1.25.30+k3s1".
Proof. vm_compute. reflexivity. Qed.

Lemma bare_version_rc10 :
  index_slice (Split "v1.25.30+k3s1" "+") 0 = Done "v1.25.30" /\
  index_slice (Split (ReplaceAll "v1.25.30" "v" "") ".") 0 = Done "1" /\
  index_slice (Split (ReplaceAll "v1.25.30" "v" "") ".") 1 = Done "25".
Proof. repeat split; vm_compute; reflexivity. Qed.

(** C1, at the milestone v1.25.3-rc10+k3s1.  Whatever the network answers,
    the data handed to the template is built, and every scraper is called
    with the milestone as it was given; but the displayed milestone is
    v1.25.30+k3s1 and the Kubernetes version v1.25.30: four characters are
    cut at the suffix, so the last digit of "-rc10" stays and joins the
    patch number.  The milestone with its suffix removed is v1.25.3+k3s1. *)
Theorem renderData_rc10_display
  (env : Env) (repo prevMilestone : string) (content : list ChangeLog) :
  exists d,
    renderData env repo "v1.25.3-rc10+k3s1" prevMilestone content = Done d /\
    milestone d = "v1.25.30+k3s1" /\
    milestone d <> "v1.25.3+k3s1" /\
    k8sVersion d = "v1.25.30" /\
    KineVersion d = goModLibVersion env "kine" repo "v1.25.3-rc10+k3s1" /\
    Done (EtcdVersionRKE2 d) = buildScriptVersion env "ETCD_VERSION" repo "v1.25.3-rc10+k3s1" /\
    Done (RuncVersionRKE2 d) = dockerfileVersion env "hardened-runc" repo "v1.25.3-rc10+k3s1" /\
    Done (CoreDNSVersion d) = imageTagVersion env "coredns" repo "v1.25.3-rc10+k3s1".
Proof.
  unfold renderData. cbv zeta.
  destruct bare_version_rc10 as (E1 & E2 & E3).
  destruct (Split_head prevMilestone "+") as [prev0 Hprev]; [discriminate|].
  rewrite milestoneNoRC_rc10. cbn [mbind outcome_bind].
  rewrite E1. cbn [mbind outcome_bind]. rewrite E2. cbn [mbind outcome_bind].
  rewrite E3. cbn [mbind outcome_bind]. rewrite Hprev. cbn [mbind outcome_bind].
  repeat match goal with
         | |- context [buildScriptVersion env ?a ?b ?c] =>
             destruct (buildScriptVersion_total env a b c) as [? ->]
         | |- context [dockerfileVersion env ?a ?b ?c] =>
             destruct (dockerfileVersion_total env a b c) as [? ->]
         | |- context [imageTagVersion env ?a ?b ?c] =>
             destruct (imageTagVersion_total env a b c) as [? ->]
         | |- context [sqliteVersionBinding env ?a] =>
             destruct (sqliteVersionBinding_total env a) as [? ->]
         end.
  cbn [mbind outcome_bind].
  eexists. split; [reflexivity|]. cbn.
  repeat split; try reflexivity. discriminate.
Qed.

(** ** Release assets *)

Section AssetFacts.

Variable env : Env.
Variables org repo : string.

Lemma found_not_notFound (tag : string) : found env org repo tag -> notFound env org repo tag -> False.
Proof. intros [r Hr] Hn. unfold notFound in Hn. congruence. Qed.

Lemma checkLoop_error (before after : list string) (tag : string) (err : error)
  (releases : gmap string bool) :
  Forall (fun t => found env org repo t \/ notFound env org repo t) before ->
  failsWith env org repo tag err ->
  checkLoop env org repo (before ++ tag :: after) releases = Err err.
Proof.
  intros Hb [Ht Hne]. revert releases.
  induction Hb as [|t before [[r Hr]|Hn] _ IH]; intros releases; simpl.
  - rewrite Ht. destruct err as [| status | | |]; try reflexivity.
    destruct (decide (status ≠ StatusNotFound)) as [|Heq]; [reflexivity|].
    exfalso. apply Hne. f_equal. destruct (decide (status = StatusNotFound)); tauto.
  - rewrite Hr. apply IH.
  - rewrite Hn. simpl. apply IH.
Qed.

Lemma checkLoop_ok (tags : list string) (releases : gmap string bool) :
  Forall (fun t => found env org repo t \/ notFound env org repo t) tags ->
  exists m,
    checkLoop env org repo tags releases = Ok m /\
    (forall t, In t tags -> found env org repo t -> m !! t = Some true) /\
    (forall t, In t tags -> notFound env org repo t -> m !! t = Some false) /\
    (forall t, ~ In t tags -> m !! t = releases !! t).
Proof.
  intros H. revert releases.
  induction H as [|t tags Ht _ IH]; intros releases; simpl.
  - exists releases. repeat split; auto; intros ? [].
  - assert (Hstep : exists b : bool,
               (if b then found env org repo t else notFound env org repo t) /\
               checkLoop env org repo (t :: tags) releases
               = checkLoop env org repo tags (<[t := b]> releases)).
    { destruct Ht as [[r Hr]|Hn].
      - exists true. split; [now exists r|]. simpl. now rewrite Hr.
      - exists false. split; [exact Hn|]. simpl. now rewrite Hn. }
    destruct Hstep as (b & Hb & Hstep). simpl in Hstep. rewrite Hstep.
    destruct (IH (<[t := b]> releases)) as (m & -> & Hf & Hn & Hother).
    exists m. split; [reflexivity|].
    assert (Hhere : ~ In t tags -> m !! t = Some b).
    { intros Hnin. rewrite (Hother t Hnin). apply lookup_insert_eq. }
    repeat split.
    + intros t' [<-|Hin] Hfound; [|now apply Hf].
      destruct (in_dec string_dec t tags) as [Hin|Hnin]; [now apply Hf|].
      rewrite (Hhere Hnin). destruct b; [reflexivity|].
      exfalso. eapply found_not_notFound; eauto.
    + intros t' [<-|Hin] Hnf; [|now apply Hn].
      destruct (in_dec string_dec t tags) as [Hin|Hnin]; [now apply Hn|].
      rewrite (Hhere Hnin). destruct b; [|reflexivity].
      exfalso. eapply found_not_notFound; eauto.
    + intros t' Hnin. rewrite Hother by tauto.
      apply lookup_insert_ne. intros ->. apply Hnin. now left.
Qed.

End AssetFacts.

(** C8. [CheckUpstreamRelease] over any list of tags.  When every tag is
    either found or answered "not found", the call returns a map, with no
    error, that maps each found tag to true, each tag answered "not found"
    to false, and holds no other key.  When a tag fails with any other
    error (after tags that are found or not found), the call returns that
    error, and no map. *)
Theorem CheckUpstreamRelease_batch (env : Env) (org repo : string) (tags : list string) :
  (Forall (fun t => found env org repo t \/ notFound env org repo t) tags ->
   exists m : gmap string bool,
     CheckUpstreamRelease env org repo tags = Ok m /\
     (forall t, In t tags -> found env org repo t -> m !! t = Some true) /\
     (forall t, In t tags -> notFound env org repo t -> m !! t = Some false) /\
     (forall t, ~ In t tags -> m !! t = None)) /\
  (forall before tag after err,
     tags = before ++ tag :: after ->
     Forall (fun t => found env org repo t \/ notFound env org repo t) before ->
     failsWith env org repo tag err ->
     CheckUpstreamRelease env org repo tags = Err err).
Proof.
  split.
  - intros H. destruct (checkLoop_ok env org repo tags ∅ H) as (m & Hm & Hf & Hn & Ho).
    exists m. split; [exact Hm|]. split; [exact Hf|]. split; [exact Hn|].
    intros t Ht. rewrite Ho by exact Ht. apply lookup_empty.
  - intros before tag after err -> Hb Hfail. now apply checkLoop_error.
Qed.

Lemma CheckUpstreamRelease_batch_witness :
  (exists m : gmap string bool,
     CheckUpstreamRelease platform "rancher" "rke2" ["v1.25.3+rke2r1"; "v9.9.9"] = Ok m /\
     m !! "v1.25.3+rke2r1" = Some true /\ m !! "v9.9.9" = Some false) /\
  CheckUpstreamRelease platform "rancher" "rke2" ["v1.25.3+rke2r1"; "v0.0.0"; "v9.9.9"]
  = Err (GithubErrorResponse 403).
Proof.
  split.
  - destruct (CheckUpstreamRelease_batch platform "rancher" "rke2"
                ["v1.25.3+rke2r1"; "v9.9.9"]) as [H _].
    destruct H as (m & Hm & Hf & Hn & _).
    + constructor; [left; eexists; reflexivity|].
      constructor; [right; reflexivity | constructor].
    + exists m. split; [exact Hm|]. split.
      * apply Hf; [now left|]. eexists. reflexivity.
      * apply Hn; [right; now left|]. reflexivity.
  - destruct (CheckUpstreamRelease_batch platform "rancher" "rke2"
                ["v1.25.3+rke2r1"; "v0.0.0"; "v9.9.9"]) as [_ H].
    apply (H ["v1.25.3+rke2r1"] "v0.0.0" ["v9.9.9"]).
    + reflexivity.
    + constructor; [left; eexists; reflexivity | constructor].
    + split; [reflexivity | discriminate].
Defined.

Section VerifyFacts.

Variable env : Env.
Variable org : string.

Lemma markVerified_rke2 (tag : string) (release : RepositoryRelease)
  (releases : gmap string bool) :
  markVerified "rke2" tag release releases
  = if nAssets release =? rke2Assets then <[tag := true]> releases else releases.
Proof.
  unfold markVerified. cbn. now destruct (nAssets release =? rke2Assets).
Qed.

(** What the loop of [VerifyAssets] leaves in the map for repository
    "rke2": true for a release with 50 assets, false for a missing release,
    and for a release with another number of assets the entry, if any,
    that was there before. *)
Lemma verifyLoop_rke2 (tags : list string) (releases : gmap string bool) :
  Forall (fun t => found env org "rke2" t \/ notFound env org "rke2" t) tags ->
  exists m,
    verifyLoop env org "rke2" tags releases = Ok m /\
    (forall t release, In t tags -> t <> "" ->
       GetReleaseByTag env org "rke2" t = Ok release ->
       m !! t = if nAssets release =? rke2Assets then Some true else releases !! t) /\
    (forall t, ~ In t tags -> m !! t = releases !! t).
Proof.
  intros H. revert releases.
  induction H as [|t tags Ht _ IH]; intros releases.
  - exists releases. repeat split; auto. intros ? ? [].
  - assert (Hstep : exists new : gmap string bool,
               verifyLoop env org "rke2" (t :: tags) releases
               = verifyLoop env org "rke2" tags new /\
               (forall t', t' <> t -> new !! t' = releases !! t') /\
               (forall release, t <> "" -> GetReleaseByTag env org "rke2" t = Ok release ->
                  new !! t = if nAssets release =? rke2Assets
                             then Some true else releases !! t)).
    { simpl. destruct (decide (t = "")) as [Ht0|Ht0].
      - exists releases. repeat split; auto. intros; tauto.
      - destruct Ht as [[r Hr]|Hn].
        + rewrite Hr, markVerified_rke2. eexists. split; [reflexivity|]. split.
          * intros t' Hne. destruct (nAssets r =? rke2Assets); [|reflexivity].
            now apply lookup_insert_ne.
          * intros release _ [= <-]. destruct (nAssets r =? rke2Assets); [|reflexivity].
            apply lookup_insert_eq.
        + rewrite Hn. simpl. eexists. split; [reflexivity|]. split.
          * intros t' Hne. now apply lookup_insert_ne.
          * intros release _ Hr. unfold notFound in Hn. congruence. }
    destruct Hstep as (new & -> & Hother & Hhere).
    destruct (IH new) as (m & -> & Hin & Hout).
    exists m. split; [reflexivity|]. split.
    + intros t' release [<-|Ht'] Hne Hr.
      * destruct (in_dec string_dec t tags) as [Hi|Hni].
        -- rewrite (Hin t release Hi Hne Hr).
           destruct (nAssets release =? rke2Assets) eqn:Hc; [reflexivity|].
           rewrite (Hhere release Hne Hr), Hc. reflexivity.
        -- rewrite (Hout t Hni). now apply Hhere.
      * rewrite (Hin t' release Ht' Hne Hr).
        destruct (nAssets release =? rke2Assets) eqn:Hc; [reflexivity|].
        destruct (string_dec t' t) as [->|Hd]; [|now apply Hother].
        now rewrite (Hhere release Hne Hr), Hc.
    + intros t' Hni. rewrite Hout by (intros Hi; apply Hni; now right).
      apply Hother. intros ->. apply Hni. now left.
Qed.

End VerifyFacts.

(** C4. [VerifyAssets] for repository "rke2", over tags that are all found
    or answered "not found": a non-empty tag whose release has exactly 50
    assets is mapped to true, and a non-empty tag whose release has any
    other number of assets has no entry in the map at all (no explicit
    false). *)
Theorem VerifyAssets_rke2_count (env : Env) (org : string) (tags : list string) :
  tags <> [] ->
  OrgFromRepo env "rke2" = Ok org ->
  Forall (fun t => found env org "rke2" t \/ notFound env org "rke2" t) tags ->
  exists m : gmap string bool,
    VerifyAssets env "rke2" tags = Ok m /\
    forall t release,
      In t tags -> t <> "" -> GetReleaseByTag env org "rke2" t = Ok release ->
      m !! t = if nAssets release =? rke2Assets then Some true else None.
Proof.
  intros Hne Horg Hall. unfold VerifyAssets.
  destruct (decide (length tags = 0%nat)) as [H0|_].
  { destruct tags; [congruence | discriminate]. }
  rewrite Horg.
  destruct (verifyLoop_rke2 env org tags ∅ Hall) as (m & Hm & Hin & _).
  exists m. split; [exact Hm|].
  intros t release Ht Hnonempty Hr. rewrite (Hin t release Ht Hnonempty Hr).
  destruct (nAssets release =? rke2Assets); [reflexivity | apply lookup_empty].
Qed.

Lemma VerifyAssets_rke2_count_witness :
  exists m : gmap string bool,
    VerifyAssets platform "rke2" ["v1.25.3+rke2r1"; "v1.25.2+rke2r1"; "v9.9.9"] = Ok m /\
    m !! "v1.25.3+rke2r1" = Some true /\
    m !! "v1.25.2+rke2r1" = None.
Proof.
  destruct (VerifyAssets_rke2_count platform "rancher"
              ["v1.25.3+rke2r1"; "v1.25.2+rke2r1"; "v9.9.9"]) as (m & Hm & H).
  - discriminate.
  - reflexivity.
  - constructor; [left; eexists; reflexivity|].
    constructor; [left; eexists; reflexivity|].
    constructor; [right; reflexivity | constructor].
  - exists m. split; [exact Hm|]. split.
    + etrans.
      * apply (H "v1.25.3+rke2r1" {| Assets := (fun n => {| ID := Z.of_nat n |}) <$> seq 0 50 |});
          [now left | discriminate | reflexivity].
      * reflexivity.
    + etrans.
      * apply (H "v1.25.2+rke2r1" {| Assets := (fun n => {| ID := Z.of_nat n |}) <$> seq 0 49 |});
          [right; now left | discriminate | reflexivity].
      * reflexivity.
Defined.

(** C10. For a repository whose organization resolves and a non-empty tag
    that the release platform answers with "not found", [ListAssets] and
    [DeleteAssetsByRelease] return neither an error nor an empty result:
    both read the assets of the nil release and panic. *)
Theorem assets_of_missing_release_panic (env : Env) (org repo tag : string) :
  OrgFromRepo env repo = Ok org ->
  tag <> "" ->
  notFound env org repo tag ->
  ListAssets env repo tag = Panicked NilPointerDereference /\
  DeleteAssetsByRelease env repo tag = Panicked NilPointerDereference.
Proof.
  intros Horg Htag Hnf. unfold notFound in Hnf.
  unfold ListAssets, DeleteAssetsByRelease, releaseOrNil.
  rewrite Horg, Hnf.
  destruct (decide (tag = "")) as [|_]; [contradiction|].
  destruct (decide (StatusNotFound ≠ StatusNotFound)) as [Hd|_]; [now destruct Hd|].
  split; reflexivity.
Qed.

Lemma assets_of_missing_release_panic_witness :
  ListAssets platform "rke2" "v9.9.9" = Panicked NilPointerDereference /\
  DeleteAssetsByRelease platform "rke2" "v9.9.9" = Panicked NilPointerDereference.
Proof.
  apply (assets_of_missing_release_panic platform "rancher" "rke2" "v9.9.9").
  - reflexivity.
  - discriminate.
  - reflexivity.
Defined.

(** * Further properties *)

(** ** Bytes removed and pieces of a split *)

Lemma replaceLoop_removeByte (c : ascii) (s : string) :
  replaceLoop (String c "") "" 0 s = removeByte c s.
Proof.
  induction s as [|a s IH]; [reflexivity|].
  cbn [replaceLoop removeByte]. rewrite HasPrefix_byte.
  destruct (Ascii.eqb c a).
  - change (String.length (String c "") - 1)%nat with 0%nat. exact IH.
  - now rewrite IH.
Qed.

Lemma hasByte_removeByte (b c : ascii) (s : string) :
  hasByte b (removeByte c s) = negb (Ascii.eqb b c) && hasByte b s.
Proof.
  induction s as [|a s IH]; cbn [removeByte hasByte].
  - now rewrite andb_false_r.
  - destruct (Ascii.eqb_spec c a) as [->|Hca].
    + rewrite IH. destruct (Ascii.eqb b a); reflexivity.
    + cbn [hasByte]. rewrite IH.
      destruct (Ascii.eqb_spec b a) as [->|Hba]; [|reflexivity].
      destruct (Ascii.eqb_spec a c) as [->|_]; [now destruct Hca | reflexivity].
Qed.

Lemma removeByte_absent (c : ascii) (s : string) :
  hasByte c s = false -> removeByte c s = s.
Proof.
  induction s as [|a s IH]; intros H; [reflexivity|].
  cbn [hasByte] in H. apply orb_false_elim in H as [Ha Hs].
  cbn [removeByte]. rewrite Ha. now rewrite IH.
Qed.

Lemma hasByte_app (c : ascii) (x y : string) :
  hasByte c (x +:+ y) = hasByte c x || hasByte c y.
Proof.
  induction x as [|a x IH]; [reflexivity|].
  change (String a x +:+ y) with (String a (x +:+ y)). cbn [hasByte].
  rewrite IH. apply orb_assoc.
Qed.

Lemma removeByte_app (c : ascii) (x y : string) :
  removeByte c (x +:+ y) = removeByte c x +:+ removeByte c y.
Proof.
  induction x as [|a x IH]; [reflexivity|].
  change (String a x +:+ y) with (String a (x +:+ y)). cbn [removeByte].
  rewrite IH. now destruct (Ascii.eqb c a).
Qed.

Lemma isNumber_hasByte (c : ascii) (s : string) :
  isNumber s -> isDigit c = false -> hasByte c s = false.
Proof.
  intros [_ H] Hc. induction s as [|a s IH]; [reflexivity|].
  cbn [list_ascii_of_string forallb] in H. apply andb_true_iff in H as [Ha Hs].
  cbn [hasByte]. rewrite (IH Hs).
  destruct (Ascii.eqb_spec c a) as [->|]; [congruence | reflexivity].
Qed.

Lemma hasByte_split (c : ascii) (s : string) :
  hasByte c s = true ->
  exists pre post, s = pre +:+ String c post /\ hasByte c pre = false.
Proof.
  induction s as [|a s IH]; intros H; [discriminate|].
  cbn [hasByte] in H. destruct (Ascii.eqb_spec c a) as [->|Hca].
  - now exists "", s.
  - destruct (IH H) as (pre & post & -> & Hpre). exists (String a pre), post.
    split; [reflexivity|]. cbn [hasByte]. rewrite Hpre.
    destruct (Ascii.eqb_spec c a); [contradiction | reflexivity].
Qed.

Lemma Contains_hasByte (c : ascii) (p s : string) :
  Contains s (String c p) = true -> hasByte c s = true.
Proof.
  induction s as [|a s IH]; intros H.
  - discriminate.
  - rewrite Contains_cons in H. cbn [hasByte]. apply orb_true_iff in H as [H|H].
    + cbn [HasPrefix] in H. destruct (Ascii.eqb c a); [reflexivity | discriminate].
    + rewrite (IH H). apply orb_true_r.
Qed.

(** A prefix without the first byte of [substr] holds no start of it. *)
Lemma Contains_app_absent (c : ascii) (p x y : string) :
  hasByte c x = false ->
  Contains (x +:+ y) (String c p) = Contains y (String c p).
Proof.
  induction x as [|a x IH]; intros H; [reflexivity|].
  cbn [hasByte] in H. apply orb_false_elim in H as [Ha Hx].
  change (String a x +:+ y) with (String a (x +:+ y)).
  rewrite Contains_cons. cbn [HasPrefix]. rewrite Ha. now apply IH.
Qed.

Lemma Index_absent (s substr : string) : Contains s substr = false -> Index s substr = -1.
Proof.
  unfold Contains, Index. intros H.
  destruct (IndexFrom_ge s substr 0) as [E|E]; [lia | exact E |].
  apply Z.leb_le in E. congruence.
Qed.

(** The first piece of a split holds no separator. *)
Lemma Split_head_no_sep (c : ascii) (s x : string) :
  index_slice (Split s (String c "")) 0 = Done x -> hasByte c x = false.
Proof.
  unfold Split. destruct (decide (String c "" = "")) as [|_]; [discriminate|].
  destruct (hasByte c s) eqn:E.
  - destruct (hasByte_split c s E) as (pre & post & -> & Hpre).
    rewrite splitLoop_first by exact Hpre. now intros [= <-].
  - rewrite splitLoop_no_sep by exact E. now intros [= <-].
Qed.

(** Two pieces at least when the separator occurs. *)
Lemma Split_two (c : ascii) (s : string) :
  Contains s (String c "") = true ->
  exists x y rest, Split s (String c "") = x :: y :: rest.
Proof.
  rewrite Contains_byte. intros H.
  destruct (hasByte_split c s H) as (pre & post & -> & Hpre).
  unfold Split. destruct (decide (String c "" = "")) as [|_]; [discriminate|].
  rewrite splitLoop_first by exact Hpre.
  destruct (splitLoop_head (String c "") 0 "" post) as (y & rest & ->). eauto.
Qed.

Lemma Split_first_exact (c : ascii) (pre post : string) :
  hasByte c pre = false ->
  Split (pre +:+ String c post) (String c "") = pre :: Split post (String c "").
Proof.
  intros H. unfold Split. destruct (decide (String c "" = "")) as [|_]; [discriminate|].
  now rewrite splitLoop_first.
Qed.

(** Without the separator, a split gives the whole string. *)
Lemma splitLoop_absent (sep cur s : string) :
  sep <> "" -> Contains s sep = false -> splitLoop sep 0 cur s = [rev_append cur s].
Proof.
  intros Hsep. revert cur. induction s as [|a s IH]; intros cur H; [reflexivity|].
  rewrite Contains_cons in H. apply orb_false_elim in H as [Hp Hs].
  cbn [splitLoop]. rewrite Hp. rewrite IH by exact Hs. reflexivity.
Qed.

Lemma Split_absent (s sep : string) :
  sep <> "" -> Contains s sep = false -> Split s sep = [s].
Proof.
  intros Hsep H. unfold Split. destruct (decide (sep = "")); [contradiction|].
  now rewrite splitLoop_absent.
Qed.

Lemma Split_Join (c : ascii) (lines : list string) :
  lines <> [] ->
  Forall (fun l => hasByte c l = false) lines ->
  Split (Join lines (String c "")) (String c "") = lines.
Proof.
  intros Hne H. unfold Split.
  destruct (decide (String c "" = "")) as [|_]; [discriminate|].
  induction H as [|x lines Hx Hrest IH]; [contradiction|].
  destruct lines as [|y lines].
  - cbn [Join]. now rewrite splitLoop_no_sep.
  - change (Join (x :: y :: lines) (String c ""))
      with (x +:+ String c (Join (y :: lines) (String c ""))).
    rewrite splitLoop_first by exact Hx. cbn [rev_append]. f_equal.
    apply IH. discriminate.
Qed.

Lemma concat_skip_empty (g : string -> string) (lines : list string) :
  GoString.concat ((fun line => if decide (line = "") then "" else g line) <$> lines)
  = GoString.concat (g <$> filter (fun line => line <> "") lines).
Proof.
  induction lines as [|l lines IH]; [reflexivity|].
  cbn [fmap list_fmap GoString.concat]. rewrite filter_cons.
  destruct (decide (l = "")) as [->|Hl].
  - destruct (decide ("" <> "")) as [H|_]; [now destruct H|]. exact IH.
  - destruct (decide (l <> "")) as [_|H]; [|contradiction].
    cbn [fmap list_fmap GoString.concat]. now rewrite IH.
Qed.

(** ** trimPeriods *)

(** X1. [trimPeriods v] is [v] without its periods: no period is left,
    every other byte is kept (so [v] comes back unchanged when it has no
    period), and nothing else is removed. *)
Theorem trimPeriods_removes_every_period (v : string) :
  trimPeriods v = removeByte "." v /\
  Contains (trimPeriods v) "." = false /\
  (forall b : ascii, b <> "."%char -> hasByte b (trimPeriods v) = hasByte b v) /\
  (Contains v "." = false -> trimPeriods v = v).
Proof.
  assert (E : trimPeriods v = removeByte "." v).
  { unfold trimPeriods, ReplaceAll.
    destruct (decide ("." = "")) as [|_]; [discriminate|].
    destruct (decide ("." = "")) as [|_]; [discriminate|].
    apply replaceLoop_removeByte. }
  rewrite E. split; [reflexivity|]. split; [|split].
  - rewrite Contains_byte, hasByte_removeByte. now rewrite Ascii.eqb_refl.
  - intros b Hb. rewrite hasByte_removeByte.
    destruct (Ascii.eqb_spec b "."); [contradiction | reflexivity].
  - rewrite Contains_byte. apply removeByte_absent.
Qed.

(** ** GenReleaseNotes: the values derived from the milestones *)

Lemma milestoneNoRC_absent (s : string) :
  Contains s "-rc" = false -> milestoneNoRC s = Done s.
Proof. intros H. unfold milestoneNoRC. now rewrite (Index_absent _ _ H). Qed.

(** X2. For a milestone "v<major>.<minor>.<patch>+<suffix>" made of three
    numbers and a suffix without "-rc", and a previous milestone
    "<bare>+<suffix>", the derivation does not panic and gives: the
    milestone itself, the Kubernetes version "v<major>.<minor>.<patch>",
    the major.minor "<major>.<minor>", the changelog anchor
    "v<major><minor><patch>" and, as the anchor of the previous version,
    [bare] without its periods. *)
Theorem renderData_versions
  (env : Env) (repo major minor patch suffix prevBare prevSuffix : string)
  (content : list ChangeLog) :
  isNumber major -> isNumber minor -> isNumber patch ->
  Contains suffix "-rc" = false ->
  Contains prevBare "+" = false ->
  exists d,
    renderData env repo (("v" +:+ major +:+ "." +:+ minor +:+ "." +:+ patch) +:+ "+" +:+ suffix)
      (prevBare +:+ "+" +:+ prevSuffix) content = Done d /\
    milestone d = ("v" +:+ major +:+ "." +:+ minor +:+ "." +:+ patch) +:+ "+" +:+ suffix /\
    k8sVersion d = "v" +:+ major +:+ "." +:+ minor +:+ "." +:+ patch /\
    majorMinor d = major +:+ "." +:+ minor /\
    changeLogVersion d = "v" +:+ major +:+ minor +:+ patch /\
    changeLogSince d = removeByte "." prevBare.
Proof.
  intros Ha Hb Hc Hrc Hprev.
  set (bare := "v" +:+ major +:+ "." +:+ minor +:+ "." +:+ patch).
  assert (Hnb : forall x : ascii, isDigit x = false ->
                  hasByte x major = false /\ hasByte x minor = false
                  /\ hasByte x patch = false).
  { intros x Hx. auto using isNumber_hasByte. }
  destruct (Hnb "-"%char eq_refl) as (Ha1 & Hb1 & Hc1).
  destruct (Hnb "+"%char eq_refl) as (Ha2 & Hb2 & Hc2).
  destruct (Hnb "."%char eq_refl) as (Ha3 & Hb3 & Hc3).
  destruct (Hnb "v"%char eq_refl) as (Ha4 & Hb4 & Hc4).
  assert (Hbyte : forall x : ascii,
            hasByte x bare
            = hasByte x "v" || (hasByte x major || (hasByte x "."
                || (hasByte x minor || (hasByte x "." || hasByte x patch))))).
  { intros x. unfold bare. now rewrite !hasByte_app. }
  assert (Hms : Contains (bare +:+ "+" +:+ suffix) "-rc" = false).
  { rewrite Contains_app_absent; [|rewrite Hbyte, Ha1, Hb1, Hc1; reflexivity].
    now rewrite (Contains_app_absent "-" "rc" "+" suffix eq_refl). }
  assert (Hk : Split (bare +:+ "+" +:+ suffix) "+" = bare :: Split suffix "+").
  { apply (Split_first_exact "+"). rewrite Hbyte, Ha2, Hb2, Hc2. reflexivity. }
  assert (Hmd : ReplaceAll bare "." "" = "v" +:+ major +:+ minor +:+ patch).
  { unfold ReplaceAll.
    destruct (decide ("." = "")) as [|_]; [discriminate|].
    destruct (decide ("." = "")) as [|_]; [discriminate|].
    rewrite replaceLoop_removeByte. unfold bare. rewrite !removeByte_app.
    rewrite (removeByte_absent "." major), (removeByte_absent "." minor),
      (removeByte_absent "." patch) by assumption.
    reflexivity. }
  assert (Htmp : Split (ReplaceAll bare "v" "") "." = [major; minor; patch]).
  { unfold ReplaceAll.
    destruct (decide ("v" = "")) as [|_]; [discriminate|].
    destruct (decide ("v" = "")) as [|_]; [discriminate|].
    rewrite replaceLoop_removeByte. unfold bare. rewrite !removeByte_app.
    rewrite (removeByte_absent "v" major), (removeByte_absent "v" minor),
      (removeByte_absent "v" patch) by assumption.
    change (Split (major +:+ String "." (minor +:+ String "." patch)) "."
            = [major; minor; patch]).
    rewrite (Split_first_exact "." major) by assumption.
    rewrite (Split_first_exact "." minor) by assumption.
    rewrite (Split_no_sep "." patch); [reflexivity|]. now rewrite Contains_byte. }
  assert (Hp : Split (prevBare +:+ "+" +:+ prevSuffix) "+" = prevBare :: Split prevSuffix "+").
  { apply (Split_first_exact "+"). now rewrite <- Contains_byte. }
  unfold renderData. cbv zeta.
  rewrite (milestoneNoRC_absent _ Hms). cbn [mbind outcome_bind].
  rewrite Hk. cbn [index_slice lookup list_lookup mbind outcome_bind].
  rewrite Htmp. cbn [index_slice lookup list_lookup mbind outcome_bind].
  rewrite Hp. cbn [index_slice lookup list_lookup mbind outcome_bind].
  repeat match goal with
         | |- context [buildScriptVersion env ?a ?b ?c] =>
             destruct (buildScriptVersion_total env a b c) as [? ->]
         | |- context [dockerfileVersion env ?a ?b ?c] =>
             destruct (dockerfileVersion_total env a b c) as [? ->]
         | |- context [imageTagVersion env ?a ?b ?c] =>
             destruct (imageTagVersion_total env a b c) as [? ->]
         | |- context [sqliteVersionBinding env ?a] =>
             destruct (sqliteVersionBinding_total env a) as [? ->]
         end.
  cbn [mbind outcome_bind]. eexists. split; [reflexivity|].
  cbn [milestone k8sVersion majorMinor changeLogVersion changeLogSince].
  repeat split; try reflexivity.
  - exact Hmd.
  - unfold ReplaceAll.
    destruct (decide ("." = "")) as [|_]; [discriminate|].
    destruct (decide ("." = "")) as [|_]; [discriminate|].
    apply replaceLoop_removeByte.
Qed.

Lemma renderData_versions_witness :
  exists d,
    renderData offline "k3s" "v1.25.3+k3s1" "v1.25.2+k3s1" [] = Done d /\
    milestone d = "v1.25.3+k3s1" /\
    k8sVersion d = "v1.25.3" /\
    majorMinor d = "1.25" /\
    changeLogVersion d = "v1253" /\
    changeLogSince d = "v1252".
Proof.
  apply (renderData_versions offline "k3s" "1" "25" "3" "k3s1" "v1.25.2" "k3s1" []).
  - split; [discriminate | reflexivity].
  - split; [discriminate | reflexivity].
  - split; [discriminate | reflexivity].
  - reflexivity.
  - reflexivity.
Defined.

(** X3. When an ASCII milestone has "-rc" first at the end of [pre],
    followed by one byte [n] and then [post], the milestone that is
    rendered is [pre] followed by [post]: the four bytes "-rc" and [n] are
    dropped, whatever [n] is. *)
Theorem renderData_one_character_rc
  (env : Env) (repo pre post prevMilestone : string) (n : ascii)
  (content : list ChangeLog) (d : RenderData) :
  isASCII (pre +:+ "-rc" +:+ String n post) ->
  Index (pre +:+ "-rc" +:+ String n post) "-rc" = Z.of_nat (String.length pre) ->
  renderData env repo (pre +:+ "-rc" +:+ String n post) prevMilestone content = Done d ->
  milestone d = pre +:+ post.
Proof.
  intros Hascii Hidx Hd.
  apply renderData_branch_reference in Hd as [Hm _].
  rewrite (milestoneNoRC_one_digit pre post n Hascii Hidx) in Hm. now injection Hm.
Qed.

Lemma renderData_one_character_rc_witness :
  exists d,
    renderData offline "k3s" "v1.25.3-rc1+k3s1" "v1.25.2+k3s1" [] = Done d /\
    milestone d = "v1.25.3+k3s1".
Proof.
  destruct (renderData offline "k3s" "v1.25.3-rc1+k3s1" "v1.25.2+k3s1" []) as [d|p] eqn:E.
  - exists d. split; [reflexivity|].
    apply (renderData_one_character_rc offline "k3s" "v1.25.3" "+k3s1" "v1.25.2+k3s1"
             "1" [] d).
    + unfold isASCII. vm_compute. repeat constructor.
    + reflexivity.
    + exact E.
  - exfalso. vm_compute in E. discriminate E.
Defined.

(** X4. A milestone that ends with "-rc" (ASCII, "-rc" first at the end of
    [pre]) makes [GenReleaseNotes] panic once the changelog is retrieved:
    the slice that starts four bytes after the start of "-rc" begins beyond
    the end of the milestone. *)
Theorem GenReleaseNotes_bare_rc_panics
  (env : Env) (repo pre prevMilestone : string) (content : list ChangeLog) :
  RetrieveChangeLogContents env repo prevMilestone (pre +:+ "-rc") = Ok content ->
  isASCII (pre +:+ "-rc") ->
  Index (pre +:+ "-rc") "-rc" = Z.of_nat (String.length pre) ->
  GenReleaseNotes env repo (pre +:+ "-rc") prevMilestone
  = Panicked (SliceBoundsOutOfRange (Z.of_nat (String.length pre) + 4)
                                    (Z.of_nat (String.length pre) + 3)).
Proof.
  intros Hc Hascii Hidx. unfold GenReleaseNotes. rewrite Hc.
  unfold renderData, milestoneNoRC. rewrite Hidx.
  destruct (Z.eqb_spec (Z.of_nat (String.length pre)) (-1)); [lia|].
  rewrite runes_ascii by exact Hascii. rewrite length_bytes.
  assert (Hlen : String.length (pre +:+ "-rc") = (String.length pre + 3)%nat).
  { rewrite <- (length_bytes (pre +:+ _)), bytes_app, length_app, !length_bytes.
    reflexivity. }
  rewrite Hlen.
  destruct (Z.ltb_spec (Z.of_nat (String.length pre + 3)) (Z.of_nat (String.length pre) + 4));
    [|lia].
  cbn [mbind outcome_bind]. do 2 f_equal. lia.
Qed.

Lemma GenReleaseNotes_bare_rc_panics_witness :
  GenReleaseNotes offline "k3s" "v1.25.3-rc" "v1.25.2+k3s1"
  = Panicked (SliceBoundsOutOfRange 11 10).
Proof.
  apply (GenReleaseNotes_bare_rc_panics offline "k3s" "v1.25.3" "v1.25.2+k3s1" []).
  - reflexivity.
  - unfold isASCII. vm_compute. repeat constructor.
  - reflexivity.
Defined.

(** ** GenReleaseNotes: panics and errors *)

(** The derivation does not panic when the release-candidate suffix can be
    removed and the bare version holds a period. *)
Lemma renderData_no_panic
  (env : Env) (repo original prevMilestone noRC k8s : string) (content : list ChangeLog) :
  milestoneNoRC original = Done noRC ->
  index_slice (Split noRC "+") 0 = Done k8s ->
  Contains k8s "." = true ->
  exists d, renderData env repo original prevMilestone content = Done d.
Proof.
  intros Hrc Hk Hdot.
  unfold renderData. cbv zeta. rewrite Hrc. cbn [mbind outcome_bind].
  rewrite Hk. cbn [mbind outcome_bind].
  assert (Hdot' : Contains (ReplaceAll k8s "v" "") "." = true).
  { rewrite Contains_byte in *. unfold ReplaceAll.
    destruct (decide ("v" = "")) as [|_]; [discriminate|].
    destruct (decide ("v" = "")) as [|_]; [discriminate|].
    rewrite replaceLoop_removeByte, hasByte_removeByte, Hdot. reflexivity. }
  destruct (Split_two "." _ Hdot') as (x & y & rest & ->).
  cbn [index_slice lookup list_lookup mbind outcome_bind].
  destruct (Split_head prevMilestone "+") as [prev0 ->]; [discriminate|].
  cbn [mbind outcome_bind].
  repeat match goal with
         | |- context [buildScriptVersion env ?a ?b ?c] =>
             destruct (buildScriptVersion_total env a b c) as [? ->]
         | |- context [dockerfileVersion env ?a ?b ?c] =>
             destruct (dockerfileVersion_total env a b c) as [? ->]
         | |- context [imageTagVersion env ?a ?b ?c] =>
             destruct (imageTagVersion_total env a b c) as [? ->]
         | |- context [sqliteVersionBinding env ?a] =>
             destruct (sqliteVersionBinding_total env a) as [? ->]
         end.
  cbn [mbind outcome_bind]. eauto.
Qed.

(** X5. [GenReleaseNotes] does not panic when the release-candidate suffix
    can be removed and the part of the result before its first "+" holds a
    period: none of the scrapers panics, and the previous milestone cannot
    make it panic. *)
Theorem GenReleaseNotes_no_panic
  (env : Env) (repo original prevMilestone noRC k8s : string) :
  milestoneNoRC original = Done noRC ->
  index_slice (Split noRC "+") 0 = Done k8s ->
  Contains k8s "." = true ->
  exists r, GenReleaseNotes env repo original prevMilestone = Done r.
Proof.
  intros Hrc Hk Hdot. unfold GenReleaseNotes.
  destruct (RetrieveChangeLogContents env repo prevMilestone original) as [content|e];
    [|eauto].
  destruct (renderData_no_panic env repo original prevMilestone noRC k8s content Hrc Hk Hdot)
    as [d ->].
  cbn [mbind outcome_bind]. eauto.
Qed.

Lemma GenReleaseNotes_no_panic_witness :
  exists r, GenReleaseNotes offline "rke2" "v1.25.3-rc2+rke2r1" "v1.25.2+rke2r1" = Done r.
Proof.
  apply (GenReleaseNotes_no_panic offline "rke2" "v1.25.3-rc2+rke2r1" "v1.25.2+rke2r1"
           "v1.25.3+rke2r1" "v1.25.3"); vm_compute; reflexivity.
Defined.



(** X7. The name of the repository is not checked before the end: for a
    name that is none of the templates of the set, with a milestone as in
    X5, the changelog is retrieved and every value is derived, and the
    result is the error of the template that does not exist. *)
Theorem GenReleaseNotes_unknown_repo
  (env : Env) (repo original prevMilestone noRC k8s : string) (content : list ChangeLog) :
  ~ In repo ["k3s"; "rke2"; "changelog"; "release-notes"] ->
  RetrieveChangeLogContents env repo prevMilestone original = Ok content ->
  milestoneNoRC original = Done noRC ->
  index_slice (Split noRC "+") 0 = Done k8s ->
  Contains k8s "." = true ->
  GenReleaseNotes env repo original prevMilestone = Done (Err (TemplateNotFound repo)).
Proof.
  intros Hrepo Hc Hrc Hk Hdot. unfold GenReleaseNotes. rewrite Hc.
  destruct (renderData_no_panic env repo original prevMilestone noRC k8s content Hrc Hk Hdot)
    as [d ->].
  cbn [mbind outcome_bind]. unfold ExecuteTemplate.
  repeat match goal with
         | |- context [decide (repo = ?x)] =>
             destruct (decide (repo = x)) as [->|_]; [exfalso; apply Hrepo; cbn; tauto|]
         end.
  reflexivity.
Qed.

Lemma GenReleaseNotes_unknown_repo_witness :
  GenReleaseNotes offline "k8s" "v1.25.3+k3s1" "v1.25.2+k3s1"
  = Done (Err (TemplateNotFound "k8s")).
Proof.
  apply (GenReleaseNotes_unknown_repo offline "k8s" "v1.25.3+k3s1" "v1.25.2+k3s1"
           "v1.25.3+k3s1" "v1.25.3" []).
  - cbn. intros [H|[H|[H|[H|[]]]]]; discriminate H.
  - reflexivity.
  - reflexivity.
  - reflexivity.
  - reflexivity.
Defined.

(** X8. For repository "rke2", once the changelog is retrieved and the
    values are derived, the rendering fails with "version is not valid"
    when [semver.MajorMinor] is empty on the version scraped for
    "hardened-calico" or on the one scraped for "calico-node"; otherwise
    notes are returned. *)
Theorem GenReleaseNotes_rke2_calico_versions
  (env : Env) (original prevMilestone : string) (content : list ChangeLog) (d : RenderData) :
  RetrieveChangeLogContents env "rke2" prevMilestone original = Ok content ->
  renderData env "rke2" original prevMilestone content = Done d ->
  (semver_MajorMinor env (CanalCalicoVersion d) = ""
   \/ semver_MajorMinor env (CalicoVersion d) = "" ->
   GenReleaseNotes env "rke2" original prevMilestone
   = Done (Err (TemplateExecError "rke2" (ErrorString "version is not valid")))) /\
  (semver_MajorMinor env (CanalCalicoVersion d) <> ""
   /\ semver_MajorMinor env (CalicoVersion d) <> "" ->
   exists notes, GenReleaseNotes env "rke2" original prevMilestone = Done (Ok notes)).
Proof.
  intros Hc Hd. unfold GenReleaseNotes. rewrite Hc, Hd. cbn [mbind outcome_bind].
  unfold ExecuteTemplate.
  destruct (decide ("rke2" = "k3s")) as [|_]; [discriminate|].
  destruct (decide ("rke2" = "rke2")) as [_|]; [|contradiction].
  unfold rke2ReleaseNote, majMin. split.
  - intros [H|H].
    + rewrite H. destruct (decide ("" = "")); [reflexivity | contradiction].
    + destruct (decide (semver_MajorMinor env (CanalCalicoVersion d) = "")); [reflexivity|].
      rewrite H. destruct (decide ("" = "")); [reflexivity | contradiction].
  - intros [H1 H2].
    destruct (decide (semver_MajorMinor env (CanalCalicoVersion d) = "")); [contradiction|].
    destruct (decide (semver_MajorMinor env (CalicoVersion d) = "")); [contradiction|].
    eauto.
Qed.

Lemma GenReleaseNotes_rke2_calico_versions_witness :
  GenReleaseNotes offline "rke2" "v1.25.3+rke2r1" "v1.25.2+rke2r1"
  = Done (Err (TemplateExecError "rke2" (ErrorString "version is not valid")))
  /\ exists notes,
       GenReleaseNotes versioned "rke2" "v1.25.3+rke2r1" "v1.25.2+rke2r1" = Done (Ok notes).
Proof.
  split.
  - destruct (renderData offline "rke2" "v1.25.3+rke2r1" "v1.25.2+rke2r1" [])
      as [d|p] eqn:E; [|exfalso; vm_compute in E; discriminate E].
    apply (proj1 (GenReleaseNotes_rke2_calico_versions offline "v1.25.3+rke2r1"
                    "v1.25.2+rke2r1" [] d eq_refl E)).
    left. reflexivity.
  - destruct (renderData versioned "rke2" "v1.25.3+rke2r1" "v1.25.2+rke2r1" [])
      as [d|p] eqn:E; [|exfalso; vm_compute in E; discriminate E].
    apply (proj2 (GenReleaseNotes_rke2_calico_versions versioned "v1.25.3+rke2r1"
                    "v1.25.2+rke2r1" [] d eq_refl E)).
    split; discriminate.
Defined.

(** ** The changelog *)

(** X9. The entry of a change whose note is made of [lines] joined by
    newlines: a bullet with the capitalized title and the link to the pull
    request, then one sub-bullet, capitalized, for each line that is not
    empty, in order; the empty lines leave no trace. *)
Theorem changelogEntry_bullets (env : Env) (title url : string) (number : Z)
  (lines : list string) :
  lines <> [] ->
  Forall (fun l => hasByte "010" l = false) lines ->
  changelogEntry env {| Title := title; Note := Join lines nl; Number := number; URL := url |}
  = GoString.concat
      [nl; "* "; capitalize env title; " [(#"; Itoa number; ")]("; url; ")";
       GoString.concat (subBullet env <$> filter (fun line => line <> "") lines)].
Proof.
  intros Hne H. unfold changelogEntry. cbn [Note Title Number URL].
  unfold subBullet, nl. rewrite (Split_Join "010" lines Hne H).
  now rewrite (concat_skip_empty (fun line => GoString.concat [_; _; capitalize env line])).
Qed.

Lemma changelogEntry_bullets_witness :
  changelogEntry offline fixEntry
  = GoString.concat
      [nl; "* "; "Fix etcd snapshot retention"; " [(#"; "6319"; ")](";
       "https://github.com/k3s-io/k3s/pull/6319"; ")";
       GoString.concat [nl; "  * "; "Snapshots are pruned per node"];
       GoString.concat [nl; "  * "; "See the docs"]].
Proof.
  etrans.
  - apply (changelogEntry_bullets offline "fix etcd snapshot retention"
             "https://github.com/k3s-io/k3s/pull/6319" 6319
             ["snapshots are pruned per node"; ""; "see the docs"]).
    + discriminate.
    + vm_compute. repeat constructor.
  - vm_compute. reflexivity.
Defined.

(** ** VerifyAssets *)

Lemma markVerified_expected (repo tag : string) (release : RepositoryRelease)
  (releases : gmap string bool) :
  markVerified repo tag release releases
  = if decide (expectedAssets repo = Some (nAssets release))
    then <[tag := true]> releases else releases.
Proof.
  unfold markVerified, expectedAssets, rke2Assets, k3sAssets, rke2Packaging.
  destruct (decide (repo = "rke2")) as [->|H1].
  - cbn. destruct (Z.eqb_spec (nAssets release) 50) as [->|Hn].
    + destruct (decide (Some 50 = Some 50)); [reflexivity | contradiction].
    + destruct (decide (Some 50 = Some (nAssets release))) as [[= E]|]; [|reflexivity].
      now destruct Hn.
  - rewrite (bool_decide_eq_false_2 _ H1). cbn [andb].
    destruct (decide (repo = "k3s")) as [->|H2].
    + cbn. destruct (Z.eqb_spec (nAssets release) 18) as [->|Hn].
      * destruct (decide (Some 18 = Some 18)); [reflexivity | contradiction].
      * destruct (decide (Some 18 = Some (nAssets release))) as [[= E]|]; [|reflexivity].
        now destruct Hn.
    + rewrite (bool_decide_eq_false_2 _ H2). cbn [andb].
      destruct (decide (repo = "rke2-packing")) as [->|H3].
      * cbn. destruct (Z.eqb_spec (nAssets release) 23) as [->|Hn].
        -- destruct (decide (Some 23 = Some 23)); [reflexivity | contradiction].
        -- destruct (decide (Some 23 = Some (nAssets release))) as [[= E]|]; [|reflexivity].
           now destruct Hn.
      * rewrite (bool_decide_eq_false_2 _ H3). cbn [andb].
        destruct (decide (None = Some (nAssets release))); [discriminate | reflexivity].
Qed.

Section VerifyLoopFacts.

Variable env : Env.
Variables org repo : string.

(** One round of the loop writes at most the entry of its tag. *)
Lemma verifyLoop_step (t : string) (tags : list string) (releases : gmap string bool) :
  found env org repo t \/ notFound env org repo t ->
  exists new : gmap string bool,
    verifyLoop env org repo (t :: tags) releases = verifyLoop env org repo tags new /\
    (forall t', t' <> t -> new !! t' = releases !! t') /\
    (t = "" -> new = releases) /\
    (t <> "" -> complete env org repo t -> new !! t = Some true) /\
    (t <> "" -> notFound env org repo t -> new !! t = Some false) /\
    (t <> "" -> ~ complete env org repo t -> ~ notFound env org repo t ->
     new !! t = releases !! t).
Proof.
  intros Ht. cbn [verifyLoop]. destruct (decide (t = "")) as [Ht0|Ht0].
  - exists releases. repeat split; auto; intros; contradiction.
  - destruct Ht as [[r Hr]|Hn].
    + rewrite Hr, markVerified_expected. eexists. split; [reflexivity|].
      destruct (decide (expectedAssets repo = Some (nAssets r))) as [He|He].
      * repeat split.
        -- intros t' Hne. now apply lookup_insert_ne.
        -- intros; contradiction.
        -- intros _ _. apply lookup_insert_eq.
        -- intros _ Hnf. unfold notFound in Hnf. congruence.
        -- intros _ Hc. destruct Hc. now exists r.
      * repeat split; auto.
        -- intros _ (r' & Hr' & He'). congruence.
        -- intros _ Hnf. unfold notFound in Hnf. congruence.
    + rewrite Hn. cbn. eexists. split; [reflexivity|]. repeat split.
      * intros t' Hne. now apply lookup_insert_ne.
      * intros; contradiction.
      * intros _ (r' & Hr' & _). unfold notFound in Hn. congruence.
      * intros _ _. apply lookup_insert_eq.
      * intros _ _ Hnn. contradiction.
Qed.

Lemma verifyLoop_spec (tags : list string) (releases : gmap string bool) :
  Forall (fun t => found env org repo t \/ notFound env org repo t) tags ->
  exists m,
    verifyLoop env org repo tags releases = Ok m /\
    (forall t, In t tags -> t <> "" -> complete env org repo t -> m !! t = Some true) /\
    (forall t, In t tags -> t <> "" -> notFound env org repo t -> m !! t = Some false) /\
    (forall t, ~ complete env org repo t -> ~ notFound env org repo t ->
               m !! t = releases !! t) /\
    (forall t, ~ In t tags -> m !! t = releases !! t) /\
    m !! "" = releases !! "".
Proof.
  intros H. revert releases. induction H as [|t tags Ht _ IH]; intros releases.
  - exists releases. repeat split; auto; intros ? [].
  - destruct (verifyLoop_step t tags releases Ht)
      as (new & -> & Hother & Hempty & Hc & Hn & Hrest).
    destruct (IH new) as (m & -> & Hmc & Hmn & Hmrest & Hmout & Hme).
    exists m. split; [reflexivity|].
    assert (Hnew : forall t', t' <> "" -> ~ complete env org repo t' ->
                     ~ notFound env org repo t' -> new !! t' = releases !! t').
    { intros t' Hne Hcc Hnn. destruct (string_dec t' t) as [->|Hd]; auto. }
    repeat split.
    + intros t' [<-|Hin] Hne Hcomp; [|now apply Hmc].
      destruct (in_dec string_dec t tags) as [Hi|Hni]; [now apply Hmc|].
      rewrite (Hmout t Hni). now apply Hc.
    + intros t' [<-|Hin] Hne Hnf; [|now apply Hmn].
      destruct (in_dec string_dec t tags) as [Hi|Hni]; [now apply Hmn|].
      rewrite (Hmout t Hni). now apply Hn.
    + intros t' Hcc Hnn. rewrite (Hmrest t' Hcc Hnn).
      destruct (string_dec t' "") as [->|Hne]; [|now apply Hnew].
      destruct (string_dec t "") as [->|Hd]; [now rewrite (Hempty eq_refl)|].
      apply Hother. congruence.
    + intros t' Hni. rewrite Hmout by (intros Hi; apply Hni; now right).
      apply Hother. intros ->. apply Hni. now left.
    + rewrite Hme. destruct (string_dec t "") as [->|Hd]; [now rewrite (Hempty eq_refl)|].
      apply Hother. congruence.
Qed.

Lemma verifyLoop_error (before after : list string) (tag : string) (err : error)
  (releases : gmap string bool) :
  Forall (fun t => t = "" \/ found env org repo t \/ notFound env org repo t) before ->
  tag <> "" ->
  failsWith env org repo tag err ->
  verifyLoop env org repo (before ++ tag :: after) releases = Err err.
Proof.
  intros Hb Htag [Ht Hne]. revert releases.
  induction Hb as [|t before Ht' _ IH]; intros releases; cbn [app verifyLoop].
  - destruct (decide (tag = "")); [contradiction|]. rewrite Ht.
    destruct err as [| status | | |]; try reflexivity.
    destruct (decide (status ≠ StatusNotFound)) as [|Heq]; [reflexivity|].
    exfalso. apply Hne. f_equal. destruct (decide (status = StatusNotFound)); tauto.
  - destruct (decide (t = "")) as [|Hne']; [apply IH|].
    destruct Ht' as [|[[r Hr]|Hn]]; [contradiction | |].
    + rewrite Hr. apply IH.
    + rewrite Hn. cbn. apply IH.
Qed.

End VerifyLoopFacts.

Lemma complete_dec (env : Env) (org repo tag : string) :
  complete env org repo tag \/ ~ complete env org repo tag.
Proof.
  unfold complete. destruct (GetReleaseByTag env org repo tag) as [r|e].
  - destruct (decide (expectedAssets repo = Some (nAssets r))) as [He|He].
    + left. now exists r.
    + right. intros (r' & [= <-] & He'). contradiction.
  - right. intros (r' & Hr' & _). discriminate.
Qed.

Lemma notFound_dec (env : Env) (org repo tag : string) :
  notFound env org repo tag \/ ~ notFound env org repo tag.
Proof.
  unfold notFound. destruct (GetReleaseByTag env org repo tag) as [r|e].
  - right. discriminate.
  - destruct e as [| status | | |]; try (right; discriminate).
    destruct (decide (status = StatusNotFound)) as [->|Hs]; [now left|].
    right. intros [= E]. contradiction.
Qed.

(** X10. When the owner of the repository is known and every tag has a
    release or is reported as not found, [VerifyAssets] returns a map in
    which a tag is [true] exactly when it is a non-empty tag of the list
    whose release has the number of assets expected for the repository,
    and [false] exactly when it is a non-empty tag of the list that is not
    found; every other tag, and the empty one, has no entry. *)
Theorem VerifyAssets_result_map (env : Env) (org repo : string) (tags : list string) :
  tags <> [] ->
  OrgFromRepo env repo = Ok org ->
  Forall (fun t => found env org repo t \/ notFound env org repo t) tags ->
  exists m : gmap string bool,
    VerifyAssets env repo tags = Ok m /\
    forall t,
      (m !! t = Some true <-> In t tags /\ t <> "" /\ complete env org repo t) /\
      (m !! t = Some false <-> In t tags /\ t <> "" /\ notFound env org repo t).
Proof.
  intros Hne Horg Hall. unfold VerifyAssets.
  destruct (decide (length tags = 0%nat)) as [H0|_].
  { destruct tags; [congruence | discriminate]. }
  rewrite Horg.
  destruct (verifyLoop_spec env org repo tags ∅ Hall)
    as (m & Hm & Hc & Hn & Hrest & Hout & Hempty).
  exists m. split; [exact Hm|]. intros t.
  assert (Hkey : forall b, m !! t = Some b -> In t tags /\ t <> "").
  { intros b Hb. split.
    - destruct (in_dec string_dec t tags) as [|Hni]; [assumption|].
      rewrite (Hout t Hni), lookup_empty in Hb. discriminate.
    - intros ->. rewrite Hempty, lookup_empty in Hb. discriminate. }
  assert (Hcases : forall b, m !! t = Some b ->
            (complete env org repo t /\ b = true) \/ (notFound env org repo t /\ b = false)).
  { intros b Hb. destruct (Hkey b Hb) as [Hin Hne'].
    destruct (complete_dec env org repo t) as [Hcomp|Hcomp].
    - left. split; [exact Hcomp|]. rewrite (Hc t Hin Hne' Hcomp) in Hb. now injection Hb.
    - destruct (notFound_dec env org repo t) as [Hnf|Hnf].
      + right. split; [exact Hnf|]. rewrite (Hn t Hin Hne' Hnf) in Hb. now injection Hb.
      + rewrite (Hrest t Hcomp Hnf), lookup_empty in Hb. discriminate. }
  split; split.
  - intros Hb. destruct (Hkey _ Hb) as [Hin Hne']. repeat split; auto.
    destruct (Hcases _ Hb) as [[Hcomp _]|[_ ?]]; [exact Hcomp | discriminate].
  - intros (Hin & Hne' & Hcomp). now apply Hc.
  - intros Hb. destruct (Hkey _ Hb) as [Hin Hne']. repeat split; auto.
    destruct (Hcases _ Hb) as [[_ ?]|[Hnf _]]; [discriminate | exact Hnf].
  - intros (Hin & Hne' & Hnf). now apply Hn.
Qed.

Lemma VerifyAssets_result_map_witness :
  exists m : gmap string bool,
    VerifyAssets platform "rke2" ["v1.25.3+rke2r1"; ""; "v1.25.2+rke2r1"; "v9.9.9"] = Ok m /\
    forall t,
      (m !! t = Some true <->
       In t ["v1.25.3+rke2r1"; ""; "v1.25.2+rke2r1"; "v9.9.9"] /\ t <> "" /\
       complete platform "rancher" "rke2" t) /\
      (m !! t = Some false <->
       In t ["v1.25.3+rke2r1"; ""; "v1.25.2+rke2r1"; "v9.9.9"] /\ t <> "" /\
       notFound platform "rancher" "rke2" t).
Proof.
  apply (VerifyAssets_result_map platform "rancher" "rke2"
           ["v1.25.3+rke2r1"; ""; "v1.25.2+rke2r1"; "v9.9.9"]).
  - discriminate.
  - reflexivity.
  - repeat apply Forall_cons_2; [| | | | apply Forall_nil_2].
    + left. eexists. reflexivity.
    + right. reflexivity.
    + left. eexists. reflexivity.
    + right. reflexivity.
Defined.

(** X11. [VerifyAssets] returns an error, and no map, in three cases: the
    list of tags is empty ("no tags provided"); the owner of the repository
    is unknown; the lookup of a non-empty tag fails with something else
    than "not found", the tags before it being empty, found or not
    found. *)
Theorem VerifyAssets_errors (env : Env) (repo : string) :
  VerifyAssets env repo [] = Err (ErrorString "no tags provided") /\
  (forall tags err, tags <> [] -> OrgFromRepo env repo = Err err ->
     VerifyAssets env repo tags = Err err) /\
  (forall org before tag after err,
     OrgFromRepo env repo = Ok org ->
     Forall (fun t => t = "" \/ found env org repo t \/ notFound env org repo t) before ->
     tag <> "" ->
     failsWith env org repo tag err ->
     VerifyAssets env repo (before ++ tag :: after) = Err err).
Proof.
  split; [reflexivity|]. split.
  - intros tags err Hne Horg. unfold VerifyAssets.
    destruct (decide (length tags = 0%nat)) as [H0|_].
    { destruct tags; [congruence | discriminate]. }
    now rewrite Horg.
  - intros org before tag after err Horg Hb Htag Hfail. unfold VerifyAssets.
    destruct (decide (length (before ++ tag :: after) = 0%nat)) as [H0|_].
    { rewrite length_app in H0. cbn in H0. lia. }
    rewrite Horg. now apply verifyLoop_error.
Qed.

Lemma VerifyAssets_errors_witness :
  VerifyAssets platform "rke2" ["v1.25.3+rke2r1"; ""; "v9.9.9"; "v0.0.0"; "v1.25.2+rke2r1"]
  = Err (GithubErrorResponse 403).
Proof.
  apply (proj2 (proj2 (VerifyAssets_errors platform "rke2")) "rancher"
           ["v1.25.3+rke2r1"; ""; "v9.9.9"] "v0.0.0" ["v1.25.2+rke2r1"]).
  - reflexivity.
  - repeat apply Forall_cons_2; [| | | apply Forall_nil_2].
    + right. left. eexists. reflexivity.
    + left. reflexivity.
    + right. right. reflexivity.
  - discriminate.
  - split; [reflexivity | discriminate].
Defined.

(** ** ListAssets and the deletions *)

Lemma deleteLoop_all (env : Env) (org repo : string) (assets : list ReleaseAsset)
  (deleted : list Z) :
  Forall (fun a => DeleteReleaseAsset env org repo (ID a) = None) assets ->
  deleteLoop env org repo assets deleted = (deleted ++ (ID <$> assets), None).
Proof.
  intros H. revert deleted. induction H as [|a assets Ha _ IH]; intros deleted; cbn.
  - now rewrite app_nil_r.
  - rewrite Ha, IH, <- app_assoc. reflexivity.
Qed.

Lemma deleteLoop_stops (env : Env) (org repo : string) (before after : list ReleaseAsset)
  (a : ReleaseAsset) (err : error) (deleted : list Z) :
  Forall (fun b => DeleteReleaseAsset env org repo (ID b) = None) before ->
  DeleteReleaseAsset env org repo (ID a) = Some err ->
  deleteLoop env org repo (before ++ a :: after) deleted
  = (deleted ++ (ID <$> before), Some err).
Proof.
  intros H Ha. revert deleted. induction H as [|b before Hb _ IH]; intros deleted; cbn.
  - now rewrite Ha, app_nil_r.
  - rewrite Hb, IH, <- app_assoc. reflexivity.
Qed.

(** X12. [DeleteAssetsByRelease] deletes the assets of the release in their
    order and stops at the first deletion that fails: the assets before it
    stay deleted, the ones after it are not touched, and the error is
    returned.  When no deletion fails, every asset is deleted. *)
Theorem DeleteAssetsByRelease_stops_at_first_failure
  (env : Env) (org repo tag : string) (release : RepositoryRelease) :
  OrgFromRepo env repo = Ok org ->
  tag <> "" ->
  GetReleaseByTag env org repo tag = Ok release ->
  (Forall (fun a => DeleteReleaseAsset env org repo (ID a) = None) (Assets release) ->
   DeleteAssetsByRelease env repo tag = Done (ID <$> Assets release, None)) /\
  (forall before a after err,
     Assets release = before ++ a :: after ->
     Forall (fun b => DeleteReleaseAsset env org repo (ID b) = None) before ->
     DeleteReleaseAsset env org repo (ID a) = Some err ->
     DeleteAssetsByRelease env repo tag = Done (ID <$> before, Some err)).
Proof.
  intros Horg Htag Hr. unfold DeleteAssetsByRelease, releaseOrNil. rewrite Horg, Hr.
  destruct (decide (tag = "")); [contradiction|]. cbn [assetsOf mbind outcome_bind].
  split.
  - intros H. now rewrite deleteLoop_all.
  - intros before a after err -> Hb Ha. now rewrite (deleteLoop_stops _ _ _ _ _ _ err).
Qed.

Lemma DeleteAssetsByRelease_stops_at_first_failure_witness :
  DeleteAssetsByRelease (refusing 2) "rke2" "v1.25.3+rke2r1"
  = Done ([0; 1], Some (GithubErrorResponse 403)).
Proof.
  refine (proj2 (DeleteAssetsByRelease_stops_at_first_failure (refusing 2) "rancher" "rke2"
                   "v1.25.3+rke2r1"
                   {| Assets := (fun n => {| ID := Z.of_nat n |}) <$> seq 0 50 |} _ _ _)
            [ {| ID := 0 |}; {| ID := 1 |} ] {| ID := 2 |}
            ((fun n => {| ID := Z.of_nat n |}) <$> seq 3 47) (GithubErrorResponse 403) _ _ _).
  - reflexivity.
  - discriminate.
  - reflexivity.
  - reflexivity.
  - vm_compute. repeat constructor.
  - reflexivity.
Defined.

(** X13. What the operations on one tag check before they act: an unknown
    owner and an empty tag are errors of the three of them; [ListAssets]
    and [DeleteAssetsByRelease] pass on a failed lookup that is not "not
    found"; [DeleteAssetByID] looks up no release at all, and its answer is
    the answer of the deletion of that id in the repository. *)
Theorem asset_operations_validation (env : Env) (repo tag : string) (id : Z) :
  (forall err, OrgFromRepo env repo = Err err ->
     ListAssets env repo tag = Done (Err err) /\
     DeleteAssetsByRelease env repo tag = Done ([], Some err) /\
     DeleteAssetByID env repo tag id = Some err) /\
  (forall org, OrgFromRepo env repo = Ok org -> tag = "" ->
     ListAssets env repo tag = Done (Err (ErrorString "invalid tag provided")) /\
     DeleteAssetsByRelease env repo tag = Done ([], Some (ErrorString "invalid tag provided")) /\
     DeleteAssetByID env repo tag id = Some (ErrorString "invalid tag provided")) /\
  (forall org release, OrgFromRepo env repo = Ok org -> tag <> "" ->
     GetReleaseByTag env org repo tag = Ok release ->
     ListAssets env repo tag = Done (Ok (Assets release))) /\
  (forall org err, OrgFromRepo env repo = Ok org -> tag <> "" ->
     failsWith env org repo tag err ->
     ListAssets env repo tag = Done (Err err) /\
     DeleteAssetsByRelease env repo tag = Done ([], Some err)) /\
  (forall org, OrgFromRepo env repo = Ok org -> tag <> "" ->
     DeleteAssetByID env repo tag id = DeleteReleaseAsset env org repo id).
Proof.
  assert (Hfail : forall org err, failsWith env org repo tag err ->
            releaseOrNil env org repo tag = Err err).
  { intros org err [Hg Hne]. unfold releaseOrNil. rewrite Hg.
    destruct err as [| status | | |]; try reflexivity.
    destruct (decide (status ≠ StatusNotFound)) as [|Heq]; [reflexivity|].
    exfalso. apply Hne. f_equal. destruct (decide (status = StatusNotFound)); tauto. }
  unfold ListAssets, DeleteAssetsByRelease, DeleteAssetByID.
  split; [|split; [|split; [|split]]].
  - intros err ->. auto.
  - intros org -> ->. destruct (decide ("" = "")); [auto | contradiction].
  - intros org release -> Hne Hg. destruct (decide (tag = "")); [contradiction|].
    unfold releaseOrNil. now rewrite Hg.
  - intros org err -> Hne Hf. destruct (decide (tag = "")); [contradiction|].
    rewrite (Hfail org err Hf). auto.
  - intros org -> Hne. destruct (decide (tag = "")); [contradiction | reflexivity].
Qed.

(** ** The scrapers *)

Lemma find_none {A : Type} (p : A -> bool) (l : list A) :
  Forall (fun x => p x = false) l -> List.find p l = None.
Proof.
  intros H. induction H as [|x l Hx _ IH]; [reflexivity|]. cbn. now rewrite Hx.
Qed.

Lemma find_after {A : Type} (p : A -> bool) (before after : list A) (x : A) :
  Forall (fun y => p y = false) before -> p x = true ->
  List.find p (before ++ x :: after) = Some x.
Proof.
  intros H Hx. induction H as [|y l Hy _ IH]; cbn; [now rewrite Hx | now rewrite Hy].
Qed.

(** X14. When no replace directive of go.mod has an old path that contains
    the library name, [goModLibVersion] returns the version of the first
    requirement whose path contains it, and the empty string when there is
    none. *)
Theorem goModLibVersion_require_fallback
  (env : Env) (libraryName repo branchVersion text : string) (modFile : modfile_File) :
  fetch env (rawURL (repoName repo) branchVersion "/go.mod") = Some text ->
  modfile_Parse env text = Some modFile ->
  Forall (fun r => Contains (Path (Old r)) libraryName = false) (FileReplace modFile) ->
  (forall before require after,
     FileRequire modFile = before ++ require :: after ->
     Forall (fun r => Contains (Path (Mod r)) libraryName = false) before ->
     Contains (Path (Mod require)) libraryName = true ->
     goModLibVersion env libraryName repo branchVersion = Version (Mod require)) /\
  (Forall (fun r => Contains (Path (Mod r)) libraryName = false) (FileRequire modFile) ->
   goModLibVersion env libraryName repo branchVersion = "").
Proof.
  intros Hf Hp Hrep. unfold goModLibVersion. rewrite Hf, Hp.
  rewrite (find_none _ _ Hrep). split.
  - intros before require after -> Hb Hr. now rewrite (find_after _ _ _ _ Hb Hr).
  - intros Hreq. now rewrite (find_none _ _ Hreq).
Qed.

Lemma goModLibVersion_require_fallback_witness :
  goModLibVersion (kineWorld (Ok [])) "kine" "k3s" "v1.25.3+k3s1" = "v0.9.0" /\
  goModLibVersion (kineWorld (Ok [])) "runc" "k3s" "v1.25.3+k3s1" = "".
Proof.
  pose proof (goModLibVersion_require_fallback (kineWorld (Ok [])) "kine" "k3s" "v1.25.3+k3s1"
                kineGoModText
                {| FileRequire :=
                     [ {| Mod := {| Path := "github.com/k3s-io/kine";
                                    Version := "v0.9.0" |} |} ];
                   FileReplace := [] |} eq_refl eq_refl (Forall_nil_2 _)) as [H1 _].
  pose proof (goModLibVersion_require_fallback (kineWorld (Ok [])) "runc" "k3s" "v1.25.3+k3s1"
                kineGoModText
                {| FileRequire :=
                     [ {| Mod := {| Path := "github.com/k3s-io/kine";
                                    Version := "v0.9.0" |} |} ];
                   FileReplace := [] |} eq_refl eq_refl (Forall_nil_2 _)) as [_ H2].
  split.
  - apply (H1 [] {| Mod := {| Path := "github.com/k3s-io/kine"; Version := "v0.9.0" |} |} []);
      [reflexivity | constructor | reflexivity].
  - apply H2. repeat constructor.
Defined.

Lemma fetch_unavailable (env : Env) (url : string) :
  unavailable env url <-> fetch env url = None.
Proof.
  unfold unavailable, fetch. destruct (http_Get env url) as [|status body]; [tauto|].
  destruct (Z.eqb_spec status StatusOK) as [->|Hs].
  - split; [intros [H|H]; [contradiction | exact H] | now right].
  - split; [reflexivity | now left].
Qed.

(** X15. A file that cannot be fetched (the request fails, the status is
    not 200 or the body cannot be read) makes each scraper return the empty
    string, without a panic. *)
Theorem scrapers_degrade_to_empty (env : Env) (name repo branchVersion : string) :
  (unavailable env (rawURL (repoName repo) branchVersion "/go.mod") ->
   goModLibVersion env name repo branchVersion = "") /\
  (unavailable env (rawURL (repoName repo) branchVersion "/scripts/version.sh") ->
   buildScriptVersion env name repo branchVersion = Done "") /\
  (unavailable env (rawURL "rancher/rke2" branchVersion "/Dockerfile") ->
   dockerfileVersion env name repo branchVersion = Done "") /\
  (unavailable env (imageListURL repo branchVersion) ->
   imageTagVersion env name repo branchVersion = Done "") /\
  (unavailable env ("https://raw.githubusercontent.com/mattn/go-sqlite3/" +:+ name
                    +:+ "/sqlite3-binding.h") ->
   sqliteVersionBinding env name = Done "").
Proof.
  repeat split; intros H; apply fetch_unavailable in H.
  - unfold goModLibVersion. now rewrite H.
  - unfold buildScriptVersion, findInURL. now rewrite H.
  - unfold dockerfileVersion, findInURL. rewrite H. now destruct (Contains repo "k3s").
  - unfold imageTagVersion, findInURL. now rewrite H.
  - unfold sqliteVersionBinding, findInURL. now rewrite H.
Qed.

(** X16. [imageTagVersion] never returns a version that contains
    "-build". *)
Theorem imageTagVersion_never_build (env : Env) (ImageName repo branchVersion v : string) :
  imageTagVersion env ImageName repo branchVersion = Done v ->
  Contains v "-build" = false.
Proof.
  unfold imageTagVersion.
  destruct (findInURL env (imageListURL repo branchVersion) imageTagRegex ImageName)
    as [l|]; [|discriminate].
  cbn [mbind outcome_bind]. destruct l as [|whole [|x l]]; try (intros [= <-]; reflexivity).
  destruct (Contains x "-build") eqn:E; [|now intros [= <-]].
  intros H. apply Split_head_no_sep in H.
  destruct (Contains v "-build") eqn:Ev; [|reflexivity].
  apply Contains_hasByte in Ev. congruence.
Qed.

Lemma imageTagVersion_never_build_witness : Contains "v1.2.3" "-build" = false.
Proof.
  apply (imageTagVersion_never_build
           (serving ("docker.io/rancher/klipper-helm:v0.7.3-build20220613" +:+ nl
                     +:+ "cni-plugins:v1.2.3-build20220101" +:+ nl))
           "cni-plugins" "rke2" "v1.25.3+rke2r1").
  vm_compute. reflexivity.
Defined.

(** ** findInURL *)

Lemma findLoop_passed_over (regex str : string) (re : Regexp)
  (before lines : list string) (submatch : list string) :
  regex <> "" -> MustCompile regex = Done re ->
  Forall (passedOver re str) before ->
  exists submatch',
    findLoop regex str (before ++ lines) submatch = findLoop regex str lines submatch'.
Proof.
  intros Hne Hre H. revert submatch.
  induction H as [|l before Hl _ IH]; intros submatch; [eauto|].
  cbn [app findLoop]. destruct (Contains l str) eqn:Hc; [|apply IH].
  destruct (decide (regex = "")); [contradiction|].
  rewrite Hre. cbn [mbind outcome_bind].
  destruct Hl as [Hl|Hl]; [congruence|].
  destruct (Nat.ltb_spec 1 (length (FindStringSubmatch re l))); [lia | apply IH].
Qed.

(** X17. With a pattern that is not empty, [findInURL] returns the groups
    of the first line that contains the marker and in which the pattern
    finds at least one group; the lines before it that lack the marker, or
    in which the pattern finds no group, are passed over, and the lines
    after it are not read. *)
Theorem findInURL_first_match
  (env : Env) (url regex str text line : string) (re : Regexp) (before after : list string) :
  regex <> "" ->
  MustCompile regex = Done re ->
  fetch env url = Some text ->
  Bufio.Lines text = before ++ line :: after ->
  Forall (passedOver re str) before ->
  Contains line str = true ->
  (1 < length (FindStringSubmatch re line))%nat ->
  findInURL env url regex str = Done (FindStringSubmatch re line).
Proof.
  intros Hne Hre Hf Hl Hb Hc Hlen. unfold findInURL. rewrite Hf, Hl.
  destruct (findLoop_passed_over regex str re before (line :: after) [] Hne Hre Hb)
    as [sub ->].
  apply findLoop_hit; auto. now apply Nat.ltb_lt.
Qed.

Lemma findInURL_first_match_witness :
  findInURL
    (serving ("# the cni-plugins image" +:+ nl +:+ "klipper-helm:v0.7.3" +:+ nl
              +:+ "cni-plugins:v1.2.3" +:+ nl +:+ "cni-plugins:v9.9.9" +:+ nl))
    "https://example.org/images" imageTagRegex "cni-plugins"
  = Done [":v1.2.3"; "v1.2.3"; ""].
Proof.
  destruct (MustCompile imageTagRegex) as [re|p] eqn:Hre;
    [|exfalso; vm_compute in Hre; discriminate Hre].
  assert (H1 : FindStringSubmatch re "# the cni-plugins image" = []).
  { revert Hre. intros [= <-]. vm_compute. reflexivity. }
  assert (H2 : FindStringSubmatch re "cni-plugins:v1.2.3" = [":v1.2.3"; "v1.2.3"; ""]).
  { revert Hre. intros [= <-]. vm_compute. reflexivity. }
  rewrite <- H2.
  apply (findInURL_first_match _ _ imageTagRegex "cni-plugins"
           ("# the cni-plugins image" +:+ nl +:+ "klipper-helm:v0.7.3" +:+ nl
            +:+ "cni-plugins:v1.2.3" +:+ nl +:+ "cni-plugins:v9.9.9" +:+ nl)
           "cni-plugins:v1.2.3" re
           ["# the cni-plugins image"; "klipper-helm:v0.7.3"] ["cni-plugins:v9.9.9"]).
  - discriminate.
  - exact Hre.
  - reflexivity.
  - vm_compute. reflexivity.
  - repeat apply Forall_cons_2; [| | apply Forall_nil_2].
    + right. rewrite H1. cbn. lia.
    + left. vm_compute. reflexivity.
  - vm_compute. reflexivity.
  - rewrite H2. cbn. lia.
Defined.

Lemma findLoop_all_lines (str : string) (lines submatch : list string) :
  findLoop "" str lines submatch
  = Done (submatch ++ List.filter (fun line => Contains line str) lines).
Proof.
  revert submatch. induction lines as [|l lines IH]; intros submatch; cbn [findLoop List.filter].
  - now rewrite app_nil_r.
  - destruct (Contains l str).
    + destruct (decide ("" = "")) as [_|]; [|contradiction].
      rewrite IH, <- app_assoc. reflexivity.
    + apply IH.
Qed.

(** X18. With the empty pattern, [findInURL] returns the lines of the text
    that contain the marker, all of them and in their order; it returns
    nothing when the text cannot be fetched. *)
Theorem findInURL_empty_pattern (env : Env) (url str : string) :
  findInURL env url "" str
  = Done match fetch env url with
         | Some text => List.filter (fun line => Contains line str) (Bufio.Lines text)
         | None => []
         end.
Proof.
  unfold findInURL. destruct (fetch env url); [|reflexivity].
  apply findLoop_all_lines.
Qed.

(** ** Package rke2: ImageBuildBaseRelease *)

Section Rke2Facts.

Import Rke2.

Variable w : World.
Variable alpineVersion : string.

(** The loop only adds calls, and in a dry run none of them creates a
    release. *)
Lemma releaseLoop_dry_run (versions : list goVersionRecord) (calls : list Call) :
  Forall (fun c => isCreateRelease c = false) calls ->
  Forall (fun c => isCreateRelease c = false)
         (releaseLoop w alpineVersion true versions calls).1.
Proof.
  revert calls. induction versions as [|v versions IH]; intros calls H; [exact H|].
  cbn [releaseLoop]. destruct (Stable v); cbn [negb]; [|now apply IH].
  destruct (index_slice (Split (Version v) "go") 1) as [x|p]; [|exact H].
  assert (H1 : Forall (fun c => isCreateRelease c = false)
                 (calls ++ [CallCheckImageArchs "library" "golang"
                              (x +:+ "-alpine" +:+ alpineVersion) archs])).
  { apply Forall_app. split; [exact H | now repeat constructor]. }
  destruct (docker_CheckImageArchs w _ _ _ _); [exact H1|].
  assert (H2 : Forall (fun c => isCreateRelease c = false)
                 ((calls ++ [CallCheckImageArchs "library" "golang"
                               (x +:+ "-alpine" +:+ alpineVersion) archs])
                  ++ [CallGetReleaseByTag "rancher" imageBuildBaseRepo
                        ("v" +:+ x +:+ "b1")])).
  { apply Forall_app. split; [exact H1 | now repeat constructor]. }
  destruct (GetReleaseByTag w _ _ _); [now apply IH | exact H2].
Qed.

(** X19. In a dry run [ImageBuildBaseRelease] creates no release, whatever
    the answers of go.dev, of the image registry and of the release
    platform. *)
Theorem ImageBuildBaseRelease_dry_run_creates_nothing :
  Forall (fun c => isCreateRelease c = false)
         (ImageBuildBaseRelease w alpineVersion true).1.
Proof.
  unfold ImageBuildBaseRelease. destruct (goVersions w goDevURL) as [versions|err].
  - apply releaseLoop_dry_run. now repeat constructor.
  - now repeat constructor.
Qed.

Lemma wellCreated_other (dryRun : bool) (versions : list goVersionRecord) (c : Call) :
  isCreateRelease c = false -> wellCreated w alpineVersion dryRun versions c.
Proof. intros H org repo release ->. discriminate. Qed.

Lemma releaseLoop_created (dryRun : bool) (all versions : list goVersionRecord)
  (calls : list Call) :
  (forall v, In v versions -> In v all) ->
  Forall (wellCreated w alpineVersion dryRun all) calls ->
  Forall (wellCreated w alpineVersion dryRun all) (releaseLoop w alpineVersion dryRun versions calls).1.
Proof.
  revert calls. induction versions as [|v versions IH]; intros calls Hsub H; [exact H|].
  assert (Hsub' : forall v', In v' versions -> In v' all).
  { intros v' Hv'. apply Hsub. now right. }
  cbn [releaseLoop]. destruct (Stable v) eqn:Hst; cbn [negb]; [|now apply IH].
  destruct (index_slice (Split (Version v) "go") 1) as [x|p] eqn:Hx; [|exact H].
  assert (H1 : Forall (wellCreated w alpineVersion dryRun all)
                 (calls ++ [CallCheckImageArchs "library" "golang"
                              (x +:+ "-alpine" +:+ alpineVersion) archs])).
  { apply Forall_app. split; [exact H|]. constructor; [|constructor].
    now apply wellCreated_other. }
  destruct (docker_CheckImageArchs w _ _ _ _) eqn:Hd; [exact H1|].
  assert (H2 : Forall (wellCreated w alpineVersion dryRun all)
                 ((calls ++ [CallCheckImageArchs "library" "golang"
                               (x +:+ "-alpine" +:+ alpineVersion) archs])
                  ++ [CallGetReleaseByTag "rancher" imageBuildBaseRepo
                        ("v" +:+ x +:+ "b1")])).
  { apply Forall_app. split; [exact H1|]. constructor; [|constructor].
    now apply wellCreated_other. }
  destruct (GetReleaseByTag w _ _ _) as [r|e] eqn:Hg; [now apply IH|].
  destruct dryRun; [exact H2|].
  assert (H3 : Forall (wellCreated w alpineVersion false all)
                 (((calls ++ [CallCheckImageArchs "library" "golang"
                                (x +:+ "-alpine" +:+ alpineVersion) archs])
                   ++ [CallGetReleaseByTag "rancher" imageBuildBaseRepo
                         ("v" +:+ x +:+ "b1")])
                  ++ [CallCreateRelease "rancher" imageBuildBaseRepo
                        {| TagName := "v" +:+ x +:+ "b1";
                           Name := "v" +:+ x +:+ "b1";
                           Prerelease := false |}])).
  { apply Forall_app. split; [exact H2|]. constructor; [|constructor].
    intros org repo release [= <- <- <-]. repeat split.
    exists v, x. split; [apply Hsub; now left|].
    split; [now repeat split|]. split; [now exists e | reflexivity]. }
  destruct (CreateRelease w _ _ _); [exact H3 | now apply IH].
Qed.

(** X20. Every release that [ImageBuildBaseRelease] creates is created
    outside a dry run, in rancher/image-build-base, for a stable record of
    go.dev whose golang image exists for the three architectures and whose
    release could not be looked up; its tag and its name are "v", the Go
    version and "b1", and it is not a prerelease. *)
Theorem ImageBuildBaseRelease_created_releases
  (dryRun : bool) (versions : list goVersionRecord) (org repo : string)
  (release : NewRelease) :
  goVersions w goDevURL = Ok versions ->
  In (CallCreateRelease org repo release) (ImageBuildBaseRelease w alpineVersion dryRun).1 ->
  dryRun = false /\ org = "rancher" /\ repo = "image-build-base" /\
  exists v x, In v versions /\ usable w alpineVersion v x /\
              missing w x /\ release = baseRelease x.
Proof.
  intros Hv Hin. unfold ImageBuildBaseRelease in Hin. rewrite Hv in Hin.
  assert (H0 : Forall (wellCreated w alpineVersion dryRun versions) [CallGet goDevURL]).
  { constructor; [now apply wellCreated_other | constructor]. }
  pose proof (releaseLoop_created dryRun versions versions [CallGet goDevURL]
                (fun v H => H) H0) as H.
  rewrite List.Forall_forall in H. exact (H _ Hin org repo release eq_refl).
Qed.

(** The records on which the loop goes on are passed. *)
Lemma releaseLoop_goesOn (dryRun : bool) (before rest : list goVersionRecord)
  (calls : list Call) :
  Forall (goesOn w alpineVersion dryRun) before ->
  exists calls',
    releaseLoop w alpineVersion dryRun (before ++ rest) calls
    = releaseLoop w alpineVersion dryRun rest (calls ++ calls') /\
    (dryRun = true -> calls' = flat_map (inspection alpineVersion) before).
Proof.
  intros H. revert calls. induction H as [|v before Hv _ IH]; intros calls.
  { exists []. now rewrite app_nil_r. }
  cbn [app releaseLoop flat_map]. unfold inspection at 1.
  destruct Hv as [Hst|(x & (Hst & Hx & Hd) & Hrel)].
  - rewrite Hst. cbn [negb]. destruct (IH calls) as (calls' & -> & Hc). eauto.
  - rewrite Hst, Hx. cbn [negb]. unfold golangTag in Hd. rewrite Hd.
    destruct Hrel as [[r Hr]|([e He] & -> & Hc)].
    + unfold baseTag in Hr. rewrite Hr.
      destruct (IH ((calls ++ [CallCheckImageArchs "library" "golang"
                                 (x +:+ "-alpine" +:+ alpineVersion) archs])
                    ++ [CallGetReleaseByTag "rancher" imageBuildBaseRepo
                          ("v" +:+ x +:+ "b1")])) as (calls' & -> & Hc).
      eexists. rewrite <- !app_assoc. split; [reflexivity|].
      intros Hdry. now rewrite (Hc Hdry).
    + unfold baseTag in He. rewrite He. unfold baseRelease, baseTag in Hc. rewrite Hc.
      destruct (IH (((calls ++ [CallCheckImageArchs "library" "golang"
                                 (x +:+ "-alpine" +:+ alpineVersion) archs])
                    ++ [CallGetReleaseByTag "rancher" imageBuildBaseRepo
                          ("v" +:+ x +:+ "b1")])
                    ++ [CallCreateRelease "rancher" imageBuildBaseRepo
                        {| TagName := "v" +:+ x +:+ "b1";
                           Name := "v" +:+ x +:+ "b1";
                           Prerelease := false |}])) as (calls' & -> & _).
      eexists. rewrite <- !app_assoc. split; [reflexivity | discriminate].
Qed.

(** X21. A dry run ends, without an error, at the first usable record whose
    release cannot be looked up: the calls are the download of the list
    and the two inspections of each stable record up to that one; the
    records after it are not inspected. *)
Theorem ImageBuildBaseRelease_dry_run_first_missing
  (before after : list goVersionRecord) (v : goVersionRecord) (x : string) :
  goVersions w goDevURL = Ok (before ++ v :: after) ->
  Forall (goesOn w alpineVersion true) before ->
  usable w alpineVersion v x ->
  missing w x ->
  ImageBuildBaseRelease w alpineVersion true
  = (CallGet goDevURL :: flat_map (inspection alpineVersion) (before ++ [v]), Done None).
Proof.
  intros Hv Hb (Hst & Hx & Hd) [e He]. unfold ImageBuildBaseRelease. rewrite Hv.
  destruct (releaseLoop_goesOn true before (v :: after) [CallGet goDevURL] Hb)
    as (calls' & -> & Hc).
  rewrite (Hc eq_refl). cbn [releaseLoop]. rewrite Hst, Hx. cbn [negb].
  unfold golangTag in Hd. rewrite Hd. unfold baseTag in He. rewrite He.
  rewrite flat_map_app. cbn [flat_map]. unfold inspection at 3. rewrite Hst, Hx.
  rewrite app_nil_r, <- !app_assoc. reflexivity.
Qed.

(** X22. [ImageBuildBaseRelease] panics, with an index out of range, on the
    first stable record whose name does not contain "go", when the loop
    goes on after each record before it. *)
Theorem ImageBuildBaseRelease_version_without_go
  (dryRun : bool) (before after : list goVersionRecord) (v : goVersionRecord) :
  goVersions w goDevURL = Ok (before ++ v :: after) ->
  Forall (goesOn w alpineVersion dryRun) before ->
  Stable v = true ->
  Contains (Version v) "go" = false ->
  (ImageBuildBaseRelease w alpineVersion dryRun).2 = Panicked (IndexOutOfRange 1 1).
Proof.
  intros Hv Hb Hst Hgo. unfold ImageBuildBaseRelease. rewrite Hv.
  destruct (releaseLoop_goesOn dryRun before (v :: after) [CallGet goDevURL] Hb)
    as (calls' & -> & _).
  cbn [releaseLoop]. rewrite Hst. cbn [negb].
  rewrite Split_absent by (discriminate || exact Hgo). reflexivity.
Qed.

(** X23. Outside a dry run, a failed lookup of the release of a usable
    record, whatever the error, is followed by the creation of the
    release; when the creation fails its error is returned, and it is the
    last call. *)
Theorem ImageBuildBaseRelease_creation
  (before after : list goVersionRecord) (v : goVersionRecord) (x : string) (err : error) :
  goVersions w goDevURL = Ok (before ++ v :: after) ->
  Forall (goesOn w alpineVersion false) before ->
  usable w alpineVersion v x ->
  missing w x ->
  CreateRelease w "rancher" imageBuildBaseRepo (baseRelease x) = Some err ->
  exists calls,
    ImageBuildBaseRelease w alpineVersion false
    = (calls ++ [CallCreateRelease "rancher" imageBuildBaseRepo (baseRelease x)],
       Done (Some err)).
Proof.
  intros Hv Hb (Hst & Hx & Hd) [e He] Hc. unfold ImageBuildBaseRelease. rewrite Hv.
  destruct (releaseLoop_goesOn false before (v :: after) [CallGet goDevURL] Hb)
    as (calls' & -> & _).
  cbn [releaseLoop]. rewrite Hst, Hx. cbn [negb].
  unfold golangTag in Hd. rewrite Hd. unfold baseTag in He. rewrite He.
  unfold baseRelease, baseTag in Hc. rewrite Hc. eexists. reflexivity.
Qed.

(** X24. [ImageBuildBaseRelease] returns no error when the loop goes on
    after every record: each one is not stable, or is usable and has its
    release or, outside a dry run, gets it created. *)
Theorem ImageBuildBaseRelease_succeeds (dryRun : bool) (versions : list goVersionRecord) :
  goVersions w goDevURL = Ok versions ->
  Forall (goesOn w alpineVersion dryRun) versions ->
  (ImageBuildBaseRelease w alpineVersion dryRun).2 = Done None.
Proof.
  intros Hv H. unfold ImageBuildBaseRelease. rewrite Hv.
  destruct (releaseLoop_goesOn dryRun versions [] [CallGet goDevURL] H) as (calls' & E & _).
  rewrite app_nil_r in E. rewrite E. reflexivity.
Qed.

(** ** Package rke2: UpdateImageBuild *)

(** X25. [UpdateImageBuild] opens a pull request only when it is asked to,
    outside a dry run, for a repository of its table, after the script has
    run without an error; the pull request is opened in rancher/<repo>,
    from the branch "update-to-<tag>" of the owner onto master, with the
    title "Update hardened build base to <tag>", where <tag> is the tag of
    the latest release of <owner>/<repo>. *)
Theorem UpdateImageBuild_pull_request
  (repo owner cloneDir : string) (dryRun createPR : bool) (org r : string)
  (pull : NewPullRequest) :
  In (CallCreatePullRequest org r pull)
     (UpdateImageBuild w repo owner cloneDir dryRun createPR).1 ->
  createPR = true /\ dryRun = false /\ org = "rancher" /\ r = repo /\
  is_Some (imageBuildRepos !! repo) /\
  exists newTag output,
    GetLatestRelease w owner repo = Ok (Some newTag) /\
    exec_RunTemplatedScript w cloneDir updateImageBuildScriptFileName
      (updateData repo owner cloneDir false newTag) = Ok output /\
    pull = updatePull owner newTag.
Proof.
  unfold UpdateImageBuild, latestTag.
  destruct (imageBuildRepos !! repo) as [b|] eqn:Hrepo; [|intros []].
  destruct (GetLatestRelease w owner repo) as [[newTag|]|err] eqn:Hl.
  2, 3: cbn; intros [|[]]; discriminate.
  destruct (exec_RunTemplatedScript w _ _ _) as [output|err] eqn:Hs.
  2: cbn; intros [|[|[]]]; discriminate.
  destruct createPR; [|cbn; intros [|[|[]]]; discriminate].
  destruct dryRun; [cbn; intros [|[|[]]]; discriminate|].
  cbn. intros [|[|[[= <- <- <-]|[]]]]; try discriminate.
  repeat split; [eauto|]. exists newTag, output. repeat split. exact Hs.
Qed.

(** X26. For a repository of the table whose latest release has the tag
    [newTag], when the script succeeds: the script is run in every case,
    also in a dry run, with the dry-run flag in its data; the pull request
    is then opened, and its error returned, exactly when a pull request is
    asked for outside a dry run; otherwise nothing more is called and no
    error is returned. *)
Theorem UpdateImageBuild_run
  (repo owner cloneDir : string) (dryRun createPR : bool) (newTag output : string) :
  is_Some (imageBuildRepos !! repo) ->
  GetLatestRelease w owner repo = Ok (Some newTag) ->
  exec_RunTemplatedScript w cloneDir updateImageBuildScriptFileName
    (updateData repo owner cloneDir dryRun newTag) = Ok output ->
  UpdateImageBuild w repo owner cloneDir dryRun createPR
  = if createPR && negb dryRun
    then ([CallGetLatestRelease owner repo;
           CallRunTemplatedScript cloneDir updateImageBuildScriptFileName
             (updateData repo owner cloneDir dryRun newTag);
           CallCreatePullRequest "rancher" repo (updatePull owner newTag)],
          Done (PullRequests_Create w "rancher" repo (updatePull owner newTag)))
    else ([CallGetLatestRelease owner repo;
           CallRunTemplatedScript cloneDir updateImageBuildScriptFileName
             (updateData repo owner cloneDir dryRun newTag)],
          Done None).
Proof.
  intros [b Hrepo] Hl Hs. unfold UpdateImageBuild, latestTag. rewrite Hrepo, Hl.
  unfold updateData in Hs. cbv zeta. rewrite Hs.
  destruct createPR, dryRun; reflexivity.
Qed.

(** X27. What ends [UpdateImageBuild] before the script: a repository
    outside the table is an error, and nothing is called; an error of the
    lookup of the latest release is returned; a latest release without a
    tag name makes it panic. *)
Theorem UpdateImageBuild_stops_early
  (repo owner cloneDir : string) (dryRun createPR : bool) :
  (imageBuildRepos !! repo = None ->
   UpdateImageBuild w repo owner cloneDir dryRun createPR
   = ([], Done (Some (ErrorString "invalid repo, please review the `imageBuildRepos` map")))) /\
  (is_Some (imageBuildRepos !! repo) ->
   (forall err, GetLatestRelease w owner repo = Err err ->
      UpdateImageBuild w repo owner cloneDir dryRun createPR
      = ([CallGetLatestRelease owner repo], Done (Some err))) /\
   (GetLatestRelease w owner repo = Ok None ->
      UpdateImageBuild w repo owner cloneDir dryRun createPR
      = ([CallGetLatestRelease owner repo], Panicked NilPointerDereference))).
Proof.
  unfold UpdateImageBuild, latestTag. split.
  - now intros ->.
  - intros [b ->]. split; [intros err ->|intros ->]; reflexivity.
Qed.

End Rke2Facts.

Section Rke2Examples.

Import Rke2.

Lemma ImageBuildBaseRelease_created_releases_witness :
  false = false /\ "rancher" = "rancher" /\ "image-build-base" = "image-build-base" /\
  exists v x,
    In v [go1_21_3; go1_22rc1; go1_19_13; go1_20_10] /\
    usable (goWorld [go1_21_3; go1_22rc1; go1_19_13; go1_20_10]) "3.18" v x /\
    missing (goWorld [go1_21_3; go1_22rc1; go1_19_13; go1_20_10]) x /\
    baseRelease "1.19.13" = baseRelease x.
Proof.
  apply (ImageBuildBaseRelease_created_releases
           (goWorld [go1_21_3; go1_22rc1; go1_19_13; go1_20_10]) "3.18" false
           [go1_21_3; go1_22rc1; go1_19_13; go1_20_10]).
  - reflexivity.
  - vm_compute. do 5 right. left. reflexivity.
Defined.

Lemma ImageBuildBaseRelease_dry_run_first_missing_witness :
  ImageBuildBaseRelease (goWorld [go1_21_3; go1_22rc1; go1_20_10; go1_19_13]) "3.18" true
  = ([CallGet goDevURL;
      CallCheckImageArchs "library" "golang" "1.21.3-alpine3.18" archs;
      CallGetReleaseByTag "rancher" "image-build-base" "v1.21.3b1";
      CallCheckImageArchs "library" "golang" "1.20.10-alpine3.18" archs;
      CallGetReleaseByTag "rancher" "image-build-base" "v1.20.10b1"],
     Done None).
Proof.
  apply (ImageBuildBaseRelease_dry_run_first_missing
           (goWorld [go1_21_3; go1_22rc1; go1_20_10; go1_19_13]) "3.18"
           [go1_21_3; go1_22rc1] [go1_19_13] go1_20_10 "1.20.10").
  - reflexivity.
  - repeat apply Forall_cons_2; [| | apply Forall_nil_2].
    + right. exists "1.21.3". split; [now repeat split|]. left. eexists. reflexivity.
    + left. reflexivity.
  - now repeat split.
  - eexists. reflexivity.
Defined.

Lemma ImageBuildBaseRelease_version_without_go_witness :
  (ImageBuildBaseRelease
     (goWorld [go1_21_3; {| Version := "1.20.10"; Stable := true |}; go1_19_13])
     "3.18" false).2
  = Panicked (IndexOutOfRange 1 1).
Proof.
  apply (ImageBuildBaseRelease_version_without_go
           (goWorld [go1_21_3; {| Version := "1.20.10"; Stable := true |}; go1_19_13])
           "3.18" false [go1_21_3] [go1_19_13] {| Version := "1.20.10"; Stable := true |}).
  - reflexivity.
  - repeat apply Forall_cons_2; [| apply Forall_nil_2].
    right. exists "1.21.3". split; [now repeat split|]. left. eexists. reflexivity.
  - reflexivity.
  - reflexivity.
Defined.

Lemma ImageBuildBaseRelease_creation_witness :
  exists calls,
    ImageBuildBaseRelease (goWorld [go1_21_3; go1_19_13; go1_20_10; go1_22rc1]) "3.18" false
    = (calls ++ [CallCreateRelease "rancher" imageBuildBaseRepo (baseRelease "1.20.10")],
       Done (Some (OtherError "creation refused"))).
Proof.
  apply (ImageBuildBaseRelease_creation
           (goWorld [go1_21_3; go1_19_13; go1_20_10; go1_22rc1]) "3.18"
           [go1_21_3; go1_19_13] [go1_22rc1] go1_20_10 "1.20.10").
  - reflexivity.
  - repeat apply Forall_cons_2; [| | apply Forall_nil_2].
    + right. exists "1.21.3". split; [now repeat split|]. left. eexists. reflexivity.
    + right. exists "1.19.13". split; [now repeat split|]. right.
      split; [eexists; reflexivity | now split].
  - now repeat split.
  - eexists. reflexivity.
  - reflexivity.
Defined.

Lemma ImageBuildBaseRelease_succeeds_witness :
  (ImageBuildBaseRelease (goWorld [go1_21_3; go1_22rc1; go1_19_13]) "3.18" false).2
  = Done None.
Proof.
  apply (ImageBuildBaseRelease_succeeds (goWorld [go1_21_3; go1_22rc1; go1_19_13]) "3.18"
           false [go1_21_3; go1_22rc1; go1_19_13]).
  - reflexivity.
  - repeat apply Forall_cons_2; [| | | apply Forall_nil_2].
    + right. exists "1.21.3". split; [now repeat split|]. left. eexists. reflexivity.
    + left. reflexivity.
    + right. exists "1.19.13". split; [now repeat split|]. right.
      split; [eexists; reflexivity | now split].
Defined.

Lemma UpdateImageBuild_pull_request_witness :
  true = true /\ false = false /\ "rancher" = "rancher" /\
  "image-build-etcd" = "image-build-etcd" /\
  is_Some (imageBuildRepos !! "image-build-etcd") /\
  exists newTag output,
    GetLatestRelease (goWorld []) "brooksn" "image-build-etcd" = Ok (Some newTag) /\
    exec_RunTemplatedScript (goWorld []) "/tmp/etcd" updateImageBuildScriptFileName
      (updateData "image-build-etcd" "brooksn" "/tmp/etcd" false newTag) = Ok output /\
    updatePull "brooksn" "v1.21.3b1" = updatePull "brooksn" newTag.
Proof.
  apply (UpdateImageBuild_pull_request (goWorld []) "image-build-etcd" "brooksn" "/tmp/etcd"
           false true "rancher" "image-build-etcd" (updatePull "brooksn" "v1.21.3b1")).
  vm_compute. do 2 right. left. reflexivity.
Defined.

Lemma UpdateImageBuild_run_witness :
  UpdateImageBuild (goWorld []) "image-build-etcd" "brooksn" "/tmp/etcd" true true
  = ([CallGetLatestRelease "brooksn" "image-build-etcd";
      CallRunTemplatedScript "/tmp/etcd" updateImageBuildScriptFileName
        (updateData "image-build-etcd" "brooksn" "/tmp/etcd" true "v1.21.3b1")],
     Done None).
Proof.
  apply (UpdateImageBuild_run (goWorld []) "image-build-etcd" "brooksn" "/tmp/etcd"
           true true "v1.21.3b1" "done").
  - vm_compute. eauto.
  - reflexivity.
  - reflexivity.
Defined.

End Rke2Examples.
